(** * ClientServerMsgPassing: a verified model of the directory mirror

    A shallow embedding of the Python sources
      - [common/fileactions.py]  (block codec, directory action handler),
      - [common/message.py]      (wire framing, per-connection sessions),
      - [client/client_requests.py] (dispatcher, reconciler, block diff),
      - [server/server.py]       (the event loop's fault isolation),
    followed by the properties of the specification that concern them.

    Conventions.
      - [bytes] is [list byte]; Python [str] is [string].
      - Values that cross the wire or are dynamically typed are [pyval]s;
        a Python [dict] is an association list in insertion order.
      - A call that may raise returns a [result]; a method that touches the
        managed directory takes the directory and returns the new one.
      - Functions of Python's standard library ([hashlib], [base64],
        [json], [int]) are the fields of the class [PyLib]; the instance
        [reference_lib] further down computes them. *)

From Equations Require Import Equations.
From Stdlib Require Import String Ascii Strings.Byte Bool ZArith Lia.
From Stdlib Require Import DecimalString DecimalZ DecimalPos DecimalFacts.
From Stdlib Require Import List Permutation Sorted.
Import ListNotations.

Local Open Scope string_scope.
Local Open Scope list_scope.
Local Open Scope Z_scope.

Set Implicit Arguments.
Set Warnings "-register-all".

(* ================================================================== *)
(** * Python values, exceptions and the error monad                    *)
(* ================================================================== *)

Definition bytes := list byte.

(** The exceptions the modelled code can raise. *)
Inductive exn : Type :=
| TypeError
| ValueError
| OverflowError
| AttributeError
| KeyError
| LookupError
| UnicodeError
| StructError                 (* struct.error *)
| BinasciiError               (* binascii.Error *)
| JSONDecodeError
| IsADirectoryError
| FileNotFoundError
| RuntimeError (msg : string)
| FileActionHandlerException (msg : string)
| RequestDispatcherException (msg : string).

Inductive result (A : Type) : Type :=
| Ok (a : A)
| Raise (e : exn).
Arguments Ok {A} a.
Arguments Raise {A} e.

Definition bind {A B} (r : result A) (k : A -> result B) : result B :=
  match r with
  | Ok a => k a
  | Raise e => Raise e
  end.

Notation "x <- e ;; k" := (bind e (fun x => k))
  (at level 61, e at next level, right associativity).

Definition is_raise {A} (r : result A) : bool :=
  match r with Ok _ => false | Raise _ => true end.

(** Dictionary keys: JSON object keys are always [str]; dictionaries built
    by the code itself are keyed by [int] block indices. *)
Inductive pykey : Type :=
| KInt (z : Z)
| KStr (s : string).

Inductive pyval : Type :=
| PNone
| PBool (b : bool)
| PInt (z : Z)
| PStr (s : string)
| PList (l : list pyval)
| PDict (d : list (pykey * pyval)).

Definition pykey_eqb (a b : pykey) : bool :=
  match a, b with
  | KInt x, KInt y => x =? y
  | KStr x, KStr y => String.eqb x y
  | _, _ => false
  end.

(* ------------------------------------------------------------------ *)
(** ** Dictionaries                                                     *)
(* ------------------------------------------------------------------ *)

Definition pydict (K V : Type) : Type := list (K * V).

Section PyDict.
Context {K V : Type} (eqb : K -> K -> bool).

(** [d.get(k)] *)
Fixpoint dict_get (k : K) (d : pydict K V) : option V :=
  match d with
  | [] => None
  | (k', v) :: d' => if eqb k k' then Some v else dict_get k d'
  end.

(** [d[k] = v]: an existing key keeps its position. *)
Fixpoint dict_set (k : K) (v : V) (d : pydict K V) : pydict K V :=
  match d with
  | [] => [(k, v)]
  | (k', v') :: d' =>
      if eqb k k' then (k', v) :: d' else (k', v') :: dict_set k v d'
  end.

(** [dict(items)], also the result of a dict comprehension. *)
Definition dict_of_items (items : list (K * V)) : pydict K V :=
  fold_left (fun acc kv => dict_set (fst kv) (snd kv) acc) items [].

(** [{**a, **b}]: the right-most dictionary takes precedence. *)
Definition dict_merge (a b : pydict K V) : pydict K V :=
  fold_left (fun acc kv => dict_set (fst kv) (snd kv) acc) b a.

Definition dict_keys (d : pydict K V) : list K := map fst d.

Definition dict_mem (k : K) (d : pydict K V) : bool :=
  match dict_get k d with Some _ => true | None => false end.
End PyDict.

(** [sorted(keys)] on integer keys. *)
Fixpoint insert_sorted (x : Z) (l : list Z) : list Z :=
  match l with
  | [] => [x]
  | y :: l' => if x <=? y then x :: l else y :: insert_sorted x l'
  end.

Definition sorted (l : list Z) : list Z := fold_right insert_sorted [] l.

(* ------------------------------------------------------------------ *)
(** ** Python equality on values                                        *)
(* ------------------------------------------------------------------ *)

(** [a == b].  [True == 1] and [False == 0]; lists compare element-wise;
    dictionaries compare as mappings, whatever their insertion order. *)
Definition int_view (v : pyval) : option Z :=
  match v with
  | PInt z => Some z
  | PBool b => Some (if b then 1 else 0)
  | _ => None
  end.

Fixpoint py_eqb (a b : pyval) {struct a} : bool :=
  match a, b with
  | PNone, PNone => true
  | PStr x, PStr y => String.eqb x y
  | PList l, PList m =>
      (fix all2 (l : list pyval) (m : list pyval) {struct l} : bool :=
         match l, m with
         | [], [] => true
         | x :: l', y :: m' => py_eqb x y && all2 l' m'
         | _, _ => false
         end) l m
  | PDict d, PDict e =>
      (length d =? length e)%nat &&
      (fix included (d : list (pykey * pyval)) {struct d} : bool :=
         match d with
         | [] => true
         | (k, v) :: d' =>
             match dict_get pykey_eqb k e with
             | Some w => py_eqb v w && included d'
             | None => false
             end
         end) d
  | _, _ =>
      match int_view a, int_view b with
      | Some x, Some y => x =? y
      | _, _ => false
      end
  end.

(** Equality of [(key, value)] tuples, as the elements of [set(d.items())]. *)
Definition item_eqb (a b : pykey * pyval) : bool :=
  pykey_eqb (fst a) (fst b) && py_eqb (snd a) (snd b).

(** [v.get(k)]: only dictionaries have the method. *)
Definition py_get (v : pyval) (k : string) : result pyval :=
  match v with
  | PDict d =>
      Ok (match dict_get pykey_eqb (KStr k) d with Some x => x | None => PNone end)
  | _ => Raise AttributeError
  end.

(** [v[k]] on a dictionary. *)
Definition py_index (v : pyval) (k : string) : result pyval :=
  match v with
  | PDict d =>
      match dict_get pykey_eqb (KStr k) d with
      | Some x => Ok x
      | None => Raise KeyError
      end
  | _ => Raise TypeError
  end.

(** [v.items()] *)
Definition py_items (v : pyval) : result (list (pykey * pyval)) :=
  match v with
  | PDict d => Ok d
  | _ => Raise AttributeError
  end.

(** Truth value of an object, as tested by [if v:]. *)
Definition py_truthy (v : pyval) : bool :=
  match v with
  | PNone => false
  | PBool b => b
  | PInt z => negb (z =? 0)
  | PStr s => negb (String.eqb s "")
  | PList l => match l with [] => false | _ => true end
  | PDict d => match d with [] => false | _ => true end
  end.

(** Whether [hash(v)] succeeds (lists and dictionaries are unhashable). *)
Definition py_hashable (v : pyval) : bool :=
  match v with
  | PList _ | PDict _ => false
  | _ => true
  end.

(** A path component handed to [Path(directory, name)] / [path.join]. *)
Definition py_path_name (v : pyval) : result string :=
  match v with
  | PStr s => Ok s
  | _ => Raise TypeError
  end.

(** The [size] argument of [f.read(size)]: [None] reads to the end. *)
Definition py_read_size (v : pyval) : result (option Z) :=
  match v with
  | PNone => Ok None
  | PInt z => Ok (Some z)
  | PBool b => Ok (Some (if b then 1 else 0))
  | _ => Raise TypeError
  end.

(* ================================================================== *)
(** * The standard-library functions the code calls                    *)
(* ================================================================== *)

Class PyLib : Type := {
  (** [hashlib.sha256(data).hexdigest()] *)
  sha256_hexdigest : bytes -> string;
  (** [base64.b64encode(data).decode('utf8')] *)
  b64encode : bytes -> string;
  (** [base64.b64decode(text)] *)
  b64decode : string -> result bytes;
  (** [int(text)] *)
  int_of_str : string -> result Z;
  (** [json.dumps(obj, ensure_ascii=False).encode(encoding)] *)
  json_dumps : pyval -> string -> result bytes;
  (** [json.load] over a text wrapper with the given encoding *)
  json_load : bytes -> string -> result pyval;
  (** [sys.byteorder] *)
  sys_byteorder : string
}.

(** [int(v)] *)
Definition py_int `{PyLib} (v : pyval) : result Z :=
  match v with
  | PInt z => Ok z
  | PBool b => Ok (if b then 1 else 0)
  | PStr s => int_of_str s
  | _ => Raise TypeError
  end.

(** [int(k)] on a dictionary key. *)
Definition py_int_key `{PyLib} (k : pykey) : result Z :=
  match k with
  | KInt z => Ok z
  | KStr s => int_of_str s
  end.

(** [base64.b64decode(v)] *)
Definition py_b64decode `{PyLib} (v : pyval) : result bytes :=
  match v with
  | PStr s => b64decode s
  | _ => Raise TypeError
  end.

(* ================================================================== *)
(** * common/fileactions.py: the block codec                           *)
(* ================================================================== *)

Definition DEFAULT_BLOCK_SIZE : Z := 0x10000.

Module Action.
Definition ENUMERATE_REMOTE_DIR_ACTION : Z := 1.
Definition NEW_FILE_ACTION : Z := 2.
Definition MOVED_FILE_ACTION : Z := 3.
Definition DELETED_FILE_ACTION : Z := 4.
Definition FILE_RECIPE_ACTION : Z := 5.
Definition UPDATED_FILE_ACTION : Z := 6.
End Action.

(** [f.read(size)] on a binary file opened with ['rb'] accepts a
    non-negative size, [-1] or [None]. *)
Definition read_size_valid (size : option Z) : bool :=
  match size with
  | None => true
  | Some n => -1 <=? n
  end.

(** What [f.read(size)] raises for a size it refuses: a size below
    [-2^63] does not fit a C [ssize_t] and is an [OverflowError] ("Python
    int too large to convert to C ssize_t"); the other sizes below [-1]
    are a [ValueError] ("read length must be non-negative or -1").
    (Sizes of [2^63] and more, which no buffer can have, are not told
    apart from the sizes that read to the end of the file.) *)
Definition read_size_error (size : option Z) : exn :=
  match size with
  | Some n => if n <? - 2 ^ 63 then OverflowError else ValueError
  | None => ValueError
  end.

(** [f.read(size)] for a valid size, on a file whose unread part is
    [rest]: the bytes returned and the part still unread.  [None] and
    [-1] read to the end. *)
Definition f_read (size : option Z) (rest : bytes) : bytes * bytes :=
  match size with
  | None => (rest, [])
  | Some n =>
      if n <? 0 then (rest, [])
      else (firstn (Z.to_nat n) rest, skipn (Z.to_nat n) rest)
  end.

Lemma f_read_shrinks size rest b bl rest' :
  f_read size rest = (b :: bl, rest') -> (length rest' < length rest)%nat.
Proof.
  unfold f_read. destruct size as [n|].
  - destruct (n <? 0).
    + intros H. inversion H. subst. simpl. lia.
    + intros H. inversion H as [[H1 H2]].
      destruct (Z.to_nat n) eqn:E; [discriminate|].
      destruct rest; [discriminate|]. rewrite length_skipn. simpl. lia.
  - intros H. inversion H. subst. simpl. lia.
Qed.

Definition inspect {A} (a : A) : {b | a = b} := exist _ a eq_refl.

(** The blocks [f.read(size)] returns until the first empty read. *)
Equations read_blocks (size : option Z) (rest : bytes) : list bytes
  by wf (length rest) lt :=
  read_blocks size rest with inspect (f_read size rest) := {
    | exist _ ([], _) _ := [];
    | exist _ (b :: bl, rest') Heq := (b :: bl) :: read_blocks size rest' }.
Next Obligation. eapply f_read_shrinks; eauto. Qed.

(** [iter(lambda: f.read(block_size), b"")] over the whole file: the size
    is the same at every call, so the first read raises or none does. *)
Definition iter_read (block_size : option Z) (content : bytes)
  : result (list bytes) :=
  if read_size_valid block_size then Ok (read_blocks block_size content)
  else Raise (read_size_error block_size).

(** The loop shared by [create_block_list] and [create_hashed_block_list]:
    [d[block_counter] = g(block); block_counter += 1] for every block. *)
Definition number_blocks {V} (g : bytes -> V) (blocks : list bytes)
  : pydict Z V :=
  snd (fold_left
         (fun st block =>
            (fst st + 1, dict_set Z.eqb (fst st) (g block) (snd st)))
         blocks (0, [])).

(** [sha256_hash.update(block)] for every block, then [hexdigest()]. *)
Definition hash_file `{PyLib} (content : bytes) (block_size : option Z)
  : result string :=
  blocks <- iter_read block_size content ;;
  Ok (sha256_hexdigest (concat blocks)).

Definition create_hashed_block_list `{PyLib}
  (content : bytes) (block_size : option Z) : result (pydict Z string) :=
  blocks <- iter_read block_size content ;;
  Ok (number_blocks sha256_hexdigest blocks).

Definition create_block_list (content : bytes) (block_size : option Z)
  : result (pydict Z bytes) :=
  blocks <- iter_read block_size content ;;
  Ok (number_blocks (fun block => block) blocks).

(** The bytes [create_file_from_blks] writes to the truncated file. *)
Definition create_file_from_blks (blocks : pydict Z bytes) : bytes :=
  concat
    (map (fun key => match dict_get Z.eqb key blocks with
                     | Some b => b
                     | None => []
                     end)
         (sorted (dict_keys blocks))).

(* ================================================================== *)
(** * The managed directory                                            *)
(* ================================================================== *)

(** A directory maps the names of its entries to files and
    subdirectories.  The names the handler receives are path components
    (the dispatcher sends [path.basename] of the event's path); [Path(dir,
    name)] then denotes the entry [name] of [dir]. *)
Inductive node : Type :=
| File (content : bytes)
| Dir (entries : list (string * node)).

Definition fs_dir : Type := list (string * node).

(** A name that is a single path component: not empty, not [.] or [..],
    without a separator or a NUL, and of at most [NAME_MAX] bytes.  For
    such a name [path.join(dir, name)] and [Path(dir, name)] denote the
    entry [name] of [dir], which is what the operations below look up,
    create, rename and remove.  Any other name is resolved by [pathlib]
    and the operating system (through subdirectories, the parent or the
    root); that resolution is not modelled, and the properties that
    depend on it are stated for plain names. *)
Definition plain_name (name : string) : bool :=
  negb (String.eqb name "") && negb (String.eqb name ".") &&
  negb (String.eqb name "..") &&
  forallb (fun c => negb (Ascii.eqb c "/"%char) && negb (Ascii.eqb c "000"%char))
          (list_ascii_of_string name) &&
  (String.length name <=? 255)%nat.

Definition fs_lookup (name : string) (fs : fs_dir) : option node :=
  dict_get String.eqb name fs.

(** [path.exists()] for the entry of a plain name. *)
Definition fs_exists (name : string) (fs : fs_dir) : bool :=
  dict_mem String.eqb name fs.

Definition is_file (n : node) : bool :=
  match n with File _ => true | Dir _ => false end.

(** [with path.open('rb') as f]: the bytes the handle reads from. *)
Definition fs_open_read (name : string) (fs : fs_dir) : result bytes :=
  match fs_lookup name fs with
  | Some (File content) => Ok content
  | Some (Dir _) => Raise IsADirectoryError
  | None => Raise FileNotFoundError
  end.

(** [with path.open('wb') as f: f.write(content)] for the entry of a
    plain name: creates the file or truncates it. *)
Definition fs_write (name : string) (content : bytes) (fs : fs_dir)
  : result fs_dir :=
  match fs_lookup name fs with
  | Some (Dir _) => Raise IsADirectoryError
  | _ => Ok (dict_set String.eqb name (File content) fs)
  end.

Fixpoint fs_rename_entry (src dst : string) (fs : fs_dir) : fs_dir :=
  match fs with
  | [] => []
  | (n, x) :: fs' =>
      if String.eqb src n then (dst, x) :: fs'
      else (n, x) :: fs_rename_entry src dst fs'
  end.

(** [src.rename(dst)] between plain names, where [dst] does not exist. *)
Definition fs_rename (src dst : string) (fs : fs_dir) : result fs_dir :=
  if fs_exists src fs then Ok (fs_rename_entry src dst fs)
  else Raise FileNotFoundError.

Fixpoint fs_remove_entry (name : string) (fs : fs_dir) : fs_dir :=
  match fs with
  | [] => []
  | (n, x) :: fs' =>
      if String.eqb name n then fs' else (n, x) :: fs_remove_entry name fs'
  end.

(** [path.unlink()] for the entry of a plain name. *)
Definition fs_unlink (name : string) (fs : fs_dir) : result fs_dir :=
  match fs_lookup name fs with
  | Some (File _) => Ok (fs_remove_entry name fs)
  | Some (Dir _) => Raise IsADirectoryError
  | None => Raise FileNotFoundError
  end.

(** [directory_path.glob('**/*')]: [**] stands for the directory itself
    and every directory below it, [*] for any entry of those; each path is
    given relative to the directory, with the node it leads to. *)
Fixpoint glob_below (prefix : list string) (n : node)
  : list (list string * node) :=
  match n with
  | File _ => []
  | Dir entries =>
      map (fun e => (prefix ++ [fst e], snd e)) entries ++
      (fix subdirs (es : list (string * node)) : list (list string * node) :=
         match es with
         | [] => []
         | (name, child) :: es' =>
             glob_below (prefix ++ [name]) child ++ subdirs es'
         end) entries
  end.

Definition glob_star_star (fs : fs_dir) : list (list string * node) :=
  glob_below [] (Dir fs).

(** [Path.name]: the final component. *)
Definition path_name (p : list string) : string := last p "".

(** A row of a directory listing. *)
Record file_entry : Type := {
  filename : string;
  file_size : Z;
  sha256 : string
}.

Definition file_entry_eqb (a b : file_entry) : bool :=
  String.eqb (filename a) (filename b) &&
  (file_size a =? file_size b) &&
  String.eqb (sha256 a) (sha256 b).

(** [dict(filename=..., file_size=..., sha256=...)] *)
Definition entry_to_pyval (e : file_entry) : pyval :=
  PDict [(KStr "filename", PStr (filename e));
         (KStr "file_size", PInt (file_size e));
         (KStr "sha256", PStr (sha256 e))].

Definition path_is_file (p : list string * node) : bool := is_file (snd p).

(** [for x in xs: ys.append(g(x))] where [g] may raise. *)
Fixpoint for_each {A B} (g : A -> result B) (xs : list A) : result (list B) :=
  match xs with
  | [] => Ok []
  | x :: xs' =>
      y <- g x ;;
      ys <- for_each g xs' ;;
      Ok (y :: ys)
  end.

Definition file_content (n : node) : bytes :=
  match n with File c => c | Dir _ => [] end.

Definition enumerate_directory `{PyLib} (fs : fs_dir) (block_size : option Z)
  : result (list file_entry) :=
  let dir_listing := filter path_is_file (glob_star_star fs) in
  let file_list := filter path_is_file dir_listing in
  for_each
    (fun f =>
       h <- hash_file (file_content (snd f)) block_size ;;
       Ok {| filename := path_name (fst f);
             file_size := Z.of_nat (length (file_content (snd f)));
             sha256 := h |})
    file_list.

(* ================================================================== *)
(** * common/fileactions.py: FileActionHandler                         *)
(* ================================================================== *)

(** A method of the handler: it reads and changes the contents of the
    managed directory, and returns or raises. *)
Definition fs_action (A : Type) : Type := fs_dir -> result A * fs_dir.

Definition fs_ret {A} (a : A) : fs_action A := fun fs => (Ok a, fs).

Definition fs_bind {A B} (m : fs_action A) (k : A -> fs_action B)
  : fs_action B :=
  fun fs =>
    match m fs with
    | (Ok a, fs') => k a fs'
    | (Raise e, fs') => (Raise e, fs')
    end.

(** A computation that does not touch the directory. *)
Definition fs_lift {A} (r : result A) : fs_action A := fun fs => (r, fs).

(** A file-system call: on success the directory is replaced. *)
Definition fs_call (f : fs_dir -> result fs_dir) : fs_action unit :=
  fun fs =>
    match f fs with
    | Ok fs' => (Ok tt, fs')
    | Raise e => (Raise e, fs)
    end.

Definition fs_query {A} (f : fs_dir -> A) : fs_action A :=
  fun fs => (Ok (f fs), fs).

Notation "x <~ m ;; k" := (fs_bind m (fun x => k))
  (at level 61, m at next level, right associativity).
Notation "m ;;; k" := (fs_bind m (fun _ => k))
  (at level 61, right associativity).

(** [dict(action=..., msg=...)] *)
Definition status_message (action : Z) (msg : string) : pyval :=
  PDict [(KStr "action", PInt action); (KStr "msg", PStr msg)].

Module FileActionHandler.

Record t : Type := {
  directory : string;      (* [str(self.directory)] *)
  block_size : Z
}.

(** [str(Path(self.directory, name))] for a plain [name], where
    [directory] is [str(self.directory)]: the current directory [.] is
    dropped, and no separator is added after a root ([/] or [//]). *)
Definition ends_with_separator (s : string) : bool :=
  match rev (list_ascii_of_string s) with
  | c :: _ => Ascii.eqb c "/"%char
  | [] => false
  end.

Definition path_str (self : t) (name : string) : string :=
  if String.eqb (directory self) "." then name
  else if ends_with_separator (directory self) then
    (directory self ++ name)%string
  else (directory self ++ "/" ++ name)%string.

Definition create_new_file (self : t) (filename : pyval) (file_data : bytes)
  : fs_action pyval :=
  name <~ fs_lift (py_path_name filename) ;;
  exists_ <~ fs_query (fs_exists name) ;;
  if (exists_ : bool) then
    fs_ret (status_message Action.NEW_FILE_ACTION
              ("Filename " ++ name ++ " already exists, cannot save as new")%string)
  else
    fs_call (fs_write name file_data) ;;;
    fs_ret (status_message Action.NEW_FILE_ACTION
              ("Successfully uploaded " ++ name)%string).

Definition move_file (self : t) (source_filename destination_filename : pyval)
  : fs_action pyval :=
  src_file <~ fs_lift (py_path_name source_filename) ;;
  dest_file <~ fs_lift (py_path_name destination_filename) ;;
  src_exists <~ fs_query (fs_exists src_file) ;;
  if negb src_exists then
    fs_ret (status_message Action.MOVED_FILE_ACTION
              ("The source file " ++ path_str self src_file ++
               " doesn't exist and cannot be renamed")%string)
  else
    dest_exists <~ fs_query (fs_exists dest_file) ;;
    if (dest_exists : bool) then
      fs_ret (PBool false)
    else
      fs_call (fs_rename src_file dest_file) ;;;
      fs_ret (status_message Action.MOVED_FILE_ACTION
                ("Successfully moved file " ++ path_str self src_file ++
                 " to " ++ path_str self dest_file)%string).

Definition delete_file (self : t) (filename : pyval) : fs_action pyval :=
  name <~ fs_lift (py_path_name filename) ;;
  exists_ <~ fs_query (fs_exists name) ;;
  if (exists_ : bool) then
    fs_call (fs_unlink name) ;;;
    fs_ret (status_message Action.DELETED_FILE_ACTION
              ("Successfully deleted " ++ name)%string)
  else
    fs_ret (status_message Action.DELETED_FILE_ACTION
              ("Filename " ++ name ++ " doesn't exist, cannot delete")%string).

Definition enumerate_directory `{PyLib} (self : t) : fs_action pyval :=
  files <~ fs_query (fun fs => enumerate_directory fs (Some (block_size self))) ;;
  files <~ fs_lift files ;;
  fs_ret (PDict [(KStr "action", PInt Action.ENUMERATE_REMOTE_DIR_ACTION);
                 (KStr "block_size", PInt (block_size self));
                 (KStr "file_info", PList (map entry_to_pyval files))]).

(** [hashlib.sha256().name] *)
Definition hash_algorithm : string := "sha256".

Definition create_file_recipe `{PyLib} (self : t) (filename : pyval)
  : fs_action pyval :=
  name <~ fs_lift (py_path_name filename) ;;
  exists_ <~ fs_query (fs_exists name) ;;
  if negb exists_ then
    fs_lift (Raise (FileActionHandlerException
                      "Error the file doesn't exist, cannot create recipe"))
  else
    content <~ fs_query (fs_open_read name) ;;
    content <~ fs_lift content ;;
    recipe <~ fs_lift (create_hashed_block_list content (Some (block_size self))) ;;
    fs_ret (PDict [(KStr "action", PInt Action.FILE_RECIPE_ACTION);
                   (KStr "recipe_info",
                    PDict [(KStr "filename", PStr name);
                           (KStr "block_size", PInt (block_size self));
                           (KStr "hash_algorithm", PStr hash_algorithm);
                           (KStr "recipe",
                            PDict (map (fun kv => (KInt (fst kv), PStr (snd kv)))
                                       recipe))])]).

(** [{int(k): base64.b64decode(v) for k, v in blocks.items()}] *)
Fixpoint decode_blocks `{PyLib} (items : list (pykey * pyval))
  (acc : pydict Z bytes) : result (pydict Z bytes) :=
  match items with
  | [] => Ok acc
  | (k, v) :: items' =>
      key <- py_int_key k ;;
      block <- py_b64decode v ;;
      decode_blocks items' (dict_set Z.eqb key block acc)
  end.

Definition update_file `{PyLib} (self : t) (recipe : pyval) : fs_action pyval :=
  filename <~ fs_lift (py_get recipe "filename") ;;
  block_size <~ fs_lift (py_get recipe "block_size") ;;
  blocks <~ fs_lift (py_get recipe "blocks") ;;
  items <~ fs_lift (py_items blocks) ;;
  blocks_to_update <~ fs_lift (decode_blocks items []) ;;
  name <~ fs_lift (py_path_name filename) ;;
  exists_ <~ fs_query (fs_exists name) ;;
  if negb exists_ then
    fs_ret (status_message Action.UPDATED_FILE_ACTION
              ("The source file " ++ name ++
               " doesn't exist and cannot be updated")%string)
  else
    content <~ fs_query (fs_open_read name) ;;
    content <~ fs_lift content ;;
    size <~ fs_lift (py_read_size block_size) ;;
    file_blocks <~ fs_lift (create_block_list content size) ;;
    let updated_blocks := dict_merge Z.eqb file_blocks blocks_to_update in
    fs_call (fs_write name (create_file_from_blks updated_blocks)) ;;;
    fs_ret (status_message Action.UPDATED_FILE_ACTION
              ("Successfully updated " ++ name)%string).

Definition handle_request `{PyLib} (self : t) (request : pyval)
  : fs_action pyval :=
  action <~ fs_lift (a <- py_get request "action" ;; py_int a) ;;
  result <~
    (if Action.ENUMERATE_REMOTE_DIR_ACTION =? action then
       enumerate_directory self
     else if Action.NEW_FILE_ACTION =? action then
       data <~ fs_lift (py_get request "data") ;;
       filename <~ fs_lift (py_get data "filename") ;;
       filedata <~ fs_lift (py_get data "filedata") ;;
       file_contents <~
         fs_lift (match filedata with
                  | PNone => Ok []
                  | _ => py_b64decode filedata
                  end) ;;
       create_new_file self filename file_contents
     else if action =? Action.MOVED_FILE_ACTION then
       data <~ fs_lift (py_get request "data") ;;
       src_file <~ fs_lift (py_get data "source_filename") ;;
       dest_file <~ fs_lift (py_get data "destination_filename") ;;
       move_file self src_file dest_file
     else if action =? Action.DELETED_FILE_ACTION then
       data <~ fs_lift (py_get request "data") ;;
       filename <~ fs_lift (py_get data "filename") ;;
       delete_file self filename
     else if action =? Action.FILE_RECIPE_ACTION then
       data <~ fs_lift (py_get request "data") ;;
       filename <~ fs_lift (py_get data "filename") ;;
       create_file_recipe self filename
     else if action =? Action.UPDATED_FILE_ACTION then
       data <~ fs_lift (py_get request "data") ;;
       recipe <~ fs_lift (py_get data "recipe_info") ;;
       update_file self recipe
     else
       (* [dict(action, "Unknown file action ...")]: [dict] takes at most
          one positional argument *)
       fs_lift (Raise TypeError)) ;;
  fs_ret (PDict [(KStr "response", result)]).

End FileActionHandler.

(* ================================================================== *)
(** * common/message.py: wire framing                                  *)
(* ================================================================== *)

Definition encode_json `{PyLib} (obj : pyval) (encoding : string)
  : result bytes :=
  json_dumps obj encoding.

Definition decode_json `{PyLib} (json_bytes : bytes) (encoding : string)
  : result pyval :=
  json_load json_bytes encoding.

Definition byte_of_Z (z : Z) : byte :=
  match Byte.of_N (Z.to_N z) with
  | Some b => b
  | None => x00
  end.

Definition Z_of_byte (b : byte) : Z := Z.of_N (Byte.to_N b).

Definition len (b : bytes) : Z := Z.of_nat (length b).

(** [struct.pack(">H", n)]: two bytes, most significant first;
    [struct.error] outside [0 .. 65535]. *)
Definition struct_pack_H (n : Z) : result bytes :=
  if (0 <=? n) && (n <=? 65535) then
    Ok [byte_of_Z (n / 256); byte_of_Z (n mod 256)]
  else Raise StructError.

(** [struct.unpack(">H", b)[0]] *)
Definition struct_unpack_H (b : bytes) : result Z :=
  match b with
  | [hi; lo] => Ok (Z_of_byte hi * 256 + Z_of_byte lo)
  | _ => Raise StructError
  end.

(** [b[:n]] and [b[n:]]; a negative bound counts from the end. *)
Definition slice_to (n : Z) (b : bytes) : bytes :=
  if n <? 0 then firstn (length b - Z.to_nat (- n)) b
  else firstn (Z.to_nat n) b.

Definition slice_from (n : Z) (b : bytes) : bytes :=
  if n <? 0 then skipn (length b - Z.to_nat (- n)) b
  else skipn (Z.to_nat n) b.

Definition header_of `{PyLib} (content_bytes : bytes) (content_encoding : string)
  : pyval :=
  PDict [(KStr "byteorder", PStr sys_byteorder);
         (KStr "content-encoding", PStr content_encoding);
         (KStr "content-length", PInt (len content_bytes))].

Definition create_message `{PyLib}
  (content_bytes : bytes) (content_encoding : string) : result bytes :=
  let header := header_of content_bytes content_encoding in
  header_bytes <- encode_json header "utf-8" ;;
  msg_header <- struct_pack_H (len header_bytes) ;;
  Ok (msg_header ++ header_bytes ++ content_bytes).

(** [required not in header] *)
Definition py_contains (container : pyval) (item : string) : result bool :=
  match container with
  | PDict d => Ok (dict_mem pykey_eqb (KStr item) d)
  | PList l => Ok (existsb (py_eqb (PStr item)) l)
  | PStr s => Ok (match index 0 item s with Some _ => true | None => false end)
  | _ => Raise TypeError
  end.

(** An integer used as a length or slice bound. *)
Definition py_length_bound (v : pyval) : result Z :=
  match int_view v with
  | Some z => Ok z
  | None => Raise TypeError
  end.

(** The name of a text encoding. *)
Definition py_encoding_name (v : pyval) : result string :=
  match v with
  | PStr s => Ok s
  | _ => Raise TypeError
  end.

(** What one readiness notification finds on the socket. *)
Record socket_io : Type := {
  recv : option bytes;      (* [sock.recv(4096)]; [None]: would block *)
  sent : option nat         (* [sock.send(buf)];  [None]: would block *)
}.

Inductive events_mask : Type := EVENT_READ | EVENT_WRITE | EVENT_READ_WRITE.

Definition mask_read (m : events_mask) : bool :=
  match m with EVENT_WRITE => false | _ => true end.
Definition mask_write (m : events_mask) : bool :=
  match m with EVENT_READ => false | _ => true end.

Module AbstractMessage.

Record t : Type := {
  receive_buffer : bytes;
  send_buffer : bytes;
  header_length : option Z;
  header : option pyval;
  registered : events_mask;     (* the events the selector listens for *)
  closed : bool                 (* [close()] was called *)
}.

Definition init (events : events_mask) : t :=
  {| receive_buffer := []; send_buffer := [];
     header_length := None; header := None;
     registered := events; closed := false |}.

Definition set_receive_buffer (b : bytes) (m : t) : t :=
  {| receive_buffer := b; send_buffer := send_buffer m;
     header_length := header_length m; header := header m;
     registered := registered m; closed := closed m |}.

Definition set_send_buffer (b : bytes) (m : t) : t :=
  {| receive_buffer := receive_buffer m; send_buffer := b;
     header_length := header_length m; header := header m;
     registered := registered m; closed := closed m |}.

Definition set_header_length (n : option Z) (m : t) : t :=
  {| receive_buffer := receive_buffer m; send_buffer := send_buffer m;
     header_length := n; header := header m;
     registered := registered m; closed := closed m |}.

Definition set_header (h : option pyval) (m : t) : t :=
  {| receive_buffer := receive_buffer m; send_buffer := send_buffer m;
     header_length := header_length m; header := h;
     registered := registered m; closed := closed m |}.

Definition _set_selector_events_mask (mode : events_mask) (m : t) : t :=
  {| receive_buffer := receive_buffer m; send_buffer := send_buffer m;
     header_length := header_length m; header := header m;
     registered := mode; closed := closed m |}.

Definition close (m : t) : t :=
  {| receive_buffer := receive_buffer m; send_buffer := send_buffer m;
     header_length := header_length m; header := header m;
     registered := registered m; closed := true |}.

Definition _read (io : socket_io) (m : t) : result t :=
  match recv io with
  | None => Ok m
  | Some [] => Raise (RuntimeError "The peer has closed.")
  | Some data => Ok (set_receive_buffer (receive_buffer m ++ data) m)
  end.

Definition process_preheader (m : t) : result t :=
  let length := 2 in
  if len (receive_buffer m) >=? length then
    n <- struct_unpack_H (slice_to length (receive_buffer m)) ;;
    Ok (set_receive_buffer (slice_from length (receive_buffer m))
          (set_header_length (Some n) m))
  else Ok m.

Definition required_headers : list string :=
  ["byteorder"; "content-length"; "content-encoding"].

Fixpoint check_required (hdr : pyval) (names : list string) : result unit :=
  match names with
  | [] => Ok tt
  | required :: names' =>
      present <- py_contains hdr required ;;
      if (present : bool) then check_required hdr names'
      else Raise ValueError
  end.

Definition process_header `{PyLib} (m : t) : result t :=
  match header_length m with
  | None => Raise TypeError
  | Some length =>
      if len (receive_buffer m) >=? length then
        hdr <- decode_json (slice_to length (receive_buffer m)) "utf-8" ;;
        _ <- check_required hdr required_headers ;;
        Ok (set_receive_buffer (slice_from length (receive_buffer m))
              (set_header (Some hdr) m))
      else Ok m
  end.

Definition read `{PyLib} (io : socket_io) (m : t) : result t :=
  m <- _read io m ;;
  m <- match header_length m with
       | None => process_preheader m
       | Some _ => Ok m
       end ;;
  match header_length m with
  | Some _ =>
      match header m with
      | None => process_header m
      | Some _ => Ok m
      end
  | None => Ok m
  end.

(** The body shared by [process_request] and [process_response]: once
    [content-length] bytes are buffered, they are cut off the buffer and
    decoded with the header's [content-encoding]. *)
Definition take_content `{PyLib} (m : t) : result (option (pyval * t)) :=
  match header m with
  | None => Raise TypeError
  | Some hdr =>
      length_field <- py_index hdr "content-length" ;;
      length <- py_length_bound length_field ;;
      if negb (len (receive_buffer m) >=? length) then Ok None
      else
        let data := slice_to length (receive_buffer m) in
        let m := set_receive_buffer (slice_from length (receive_buffer m)) m in
        encoding_field <- py_index hdr "content-encoding" ;;
        encoding <- py_encoding_name encoding_field ;;
        content <- decode_json data encoding ;;
        Ok (Some (content, m))
  end.

Definition header_truthy (m : t) : bool :=
  match header m with
  | Some hdr => py_truthy hdr
  | None => false
  end.

End AbstractMessage.

Definition create_response_content `{PyLib}
  (content : pyval) (content_encoding : string) : result (bytes * string) :=
  content_bytes <- encode_json content content_encoding ;;
  Ok (content_bytes, content_encoding).

Module ServerSideMessage.

Record t : Type := {
  base : AbstractMessage.t;
  request : option pyval;
  response_created : bool;
  file_action_handler : FileActionHandler.t
}.

Definition init (h : FileActionHandler.t) : t :=
  {| base := AbstractMessage.init EVENT_READ;
     request := None; response_created := false;
     file_action_handler := h |}.

Definition set_base (b : AbstractMessage.t) (m : t) : t :=
  {| base := b; request := request m;
     response_created := response_created m;
     file_action_handler := file_action_handler m |}.

Definition set_request (r : option pyval) (m : t) : t :=
  {| base := base m; request := r;
     response_created := response_created m;
     file_action_handler := file_action_handler m |}.

Definition set_response_created (c : bool) (m : t) : t :=
  {| base := base m; request := request m;
     response_created := c;
     file_action_handler := file_action_handler m |}.

Definition close (m : t) : t := set_base (AbstractMessage.close (base m)) m.

Definition _write (io : socket_io) (m : t) : t :=
  match AbstractMessage.send_buffer (base m) with
  | [] => m
  | buf =>
      match sent io with
      | None => m
      | Some n =>
          let rest := skipn n buf in
          let m := set_base (AbstractMessage.set_send_buffer rest (base m)) m in
          match n, rest with
          | S _, [] => close m
          | _, _ => m
          end
      end
  end.

Definition process_request `{PyLib} (m : t) : result t :=
  taken <- AbstractMessage.take_content (base m) ;;
  match taken with
  | None => Ok m
  | Some (content, b) =>
      Ok (set_base (AbstractMessage._set_selector_events_mask EVENT_WRITE b)
            (set_request (Some content) m))
  end.

Definition read `{PyLib} (io : socket_io) (m : t) : result t :=
  b <- AbstractMessage.read io (base m) ;;
  let m := set_base b m in
  if AbstractMessage.header_truthy (base m) then
    match request m with
    | None => process_request m
    | Some _ => Ok m
    end
  else Ok m.

Definition create_response `{PyLib} (content : pyval) (m : t) : result t :=
  response <- create_response_content content "utf-8" ;;
  message <- create_message (fst response) (snd response) ;;
  let b := base m in
  Ok (set_base
        (AbstractMessage.set_send_buffer
           (AbstractMessage.send_buffer b ++ message) b)
        (set_response_created true m)).

Definition request_truthy (m : t) : bool :=
  match request m with
  | Some r => py_truthy r
  | None => false
  end.

(** [write]: the request is handled against the managed directory, the
    response is queued once, and the send buffer is flushed. *)
Definition write `{PyLib} (io : socket_io) (m : t) (fs : fs_dir)
  : result t * fs_dir :=
  if request_truthy m then
    match request m with
    | None => (Ok (_write io m), fs)
    | Some r =>
        match FileActionHandler.handle_request (file_action_handler m) r fs with
        | (Raise e, fs') => (Raise e, fs')
        | (Ok content, fs') =>
            if response_created m then (Ok (_write io m), fs')
            else
              match create_response content m with
              | Raise e => (Raise e, fs')
              | Ok m' => (Ok (_write io m'), fs')
              end
        end
    end
  else (Ok (_write io m), fs).

Definition process_events `{PyLib}
  (mask : events_mask) (io : socket_io) (m : t) (fs : fs_dir)
  : result t * fs_dir :=
  match (if mask_read mask then read io m else Ok m) with
  | Raise e => (Raise e, fs)
  | Ok m => if mask_write mask then write io m fs else (Ok m, fs)
  end.

End ServerSideMessage.

(* ================================================================== *)
(** * server/server.py: one event of the loop                          *)
(* ================================================================== *)


(* ================================================================== *)
(** * client/client_requests.py                                        *)
(* ================================================================== *)

Definition create_request (action : pyval) (data : pyval) : pyval :=
  PDict [(KStr "type", PStr "text/json");
         (KStr "encoding", PStr "utf-8");
         (KStr "content",
          PDict [(KStr "action", action); (KStr "data", data)])].

(** A dispatcher call: the requests it hands to [_dispatch], in order, and
    the exception that ended it, if any. *)
Definition dispatched : Type := list pyval * option exn.

Definition dispatch_seq (a : dispatched) (b : unit -> dispatched) : dispatched :=
  match snd a with
  | Some e => a
  | None => (fst a ++ fst (b tt), snd (b tt))
  end.

(** The rows of a received listing.  [_directory_synch] compares and
    indexes the dictionaries themselves; here a listing is read as typed
    rows, and one that is not a list of [{filename, file_size, sha256}]
    dictionaries is not modelled further. *)
Definition entry_of_pyval (v : pyval) : result file_entry :=
  name <- py_index v "filename" ;;
  size <- py_index v "file_size" ;;
  hash <- py_index v "sha256" ;;
  match name, size, hash with
  | PStr n, PInt s, PStr h => Ok {| filename := n; file_size := s; sha256 := h |}
  | _, _, _ => Raise TypeError
  end.

Definition listing_of_pyval (v : pyval) : result (list file_entry) :=
  match v with
  | PList l => for_each entry_of_pyval l
  | _ => Raise TypeError
  end.

Definition raised (e : exn) : dispatched := ([], Some e).

Module RequestDispatcher.

(** [src_blk_set.difference(dest_block_set)] over [(index, hash)] tuples. *)
Definition set_difference (src dest : list (pykey * pyval))
  : list (pykey * pyval) :=
  filter (fun p => negb (existsb (item_eqb p) dest)) src.

Definition hash_items (hash_blocks : pydict Z string) : list (pykey * pyval) :=
  map (fun kv => (KInt (fst kv), PStr (snd kv))) hash_blocks.

(** [set(recipe.items())]: every value must be hashable. *)
Definition set_of_items (v : pyval) : result (list (pykey * pyval)) :=
  items <- py_items v ;;
  if forallb (fun p => py_hashable (snd p)) items then Ok items
  else Raise TypeError.

(** The keys of [update_blks]: the local blocks kept by
    [if k in update_blocks_keys]. *)
Definition update_blocks `{PyLib}
  (src_blks : pydict Z bytes) (update_blocks_keys : list pykey)
  : list (pykey * pyval) :=
  map (fun kv => (KInt (fst kv), PStr (b64encode (snd kv))))
      (filter (fun kv => existsb (pykey_eqb (KInt (fst kv))) update_blocks_keys)
              src_blks).

(** Returns the request handed to [_dispatch], if the file exists. *)
Definition _update_file_by_recipe `{PyLib} (fs : fs_dir) (recipe_info : pyval)
  : result (option pyval) :=
  filename <- py_get recipe_info "filename" ;;
  block_size <- py_get recipe_info "block_size" ;;
  recipe <- py_get recipe_info "recipe" ;;
  name <- py_path_name filename ;;
  if fs_exists name fs then
    content <- fs_open_read name fs ;;
    size <- py_read_size block_size ;;
    hash_blocks <- create_hashed_block_list content size ;;
    let src_blk_set := hash_items hash_blocks in
    dest_block_set <- set_of_items recipe ;;
    let update_blocks_keys :=
      dict_keys (dict_of_items pykey_eqb
                   (set_difference src_blk_set dest_block_set)) in
    src_blks <- create_block_list content size ;;
    let update_blks := update_blocks src_blks update_blocks_keys in
    let info := PDict [(KStr "filename", filename);
                       (KStr "block_size", block_size);
                       (KStr "blocks", PDict update_blks)] in
    Ok (Some (create_request (PInt Action.UPDATED_FILE_ACTION)
                (PDict [(KStr "recipe_info", info)])))
  else Ok None.

(** The partition computed by [_directory_synch]. *)
Definition entry_in (i : file_entry) (l : list file_entry) : bool :=
  existsb (file_entry_eqb i) l.

Definition name_in (n : string) (l : list string) : bool :=
  existsb (String.eqb n) l.

Definition same_on_both (local_dir_listing remote_file_info : list file_entry) :=
  filter (fun i => entry_in i local_dir_listing) remote_file_info.

Definition diff_on_remote (local_dir_listing remote_file_info : list file_entry) :=
  filter (fun i => negb (entry_in i local_dir_listing)) remote_file_info.

Definition diff_on_local (local_dir_listing remote_file_info : list file_entry) :=
  filter (fun i => negb (entry_in i remote_file_info)) local_dir_listing.

Definition diff_remote_file_names (local_dir_listing remote_file_info : list file_entry) :=
  map filename (diff_on_remote local_dir_listing remote_file_info).

Definition diff_local_file_name (local_dir_listing remote_file_info : list file_entry) :=
  map filename (diff_on_local local_dir_listing remote_file_info).

Definition on_both_different (local_dir_listing remote_file_info : list file_entry) :=
  filter (fun file =>
            name_in (filename file)
              (diff_remote_file_names local_dir_listing remote_file_info))
         (diff_on_local local_dir_listing remote_file_info).

Definition on_local_only (local_dir_listing remote_file_info : list file_entry) :=
  filter (fun file =>
            negb (name_in (filename file)
                    (diff_remote_file_names local_dir_listing remote_file_info)))
         (diff_on_local local_dir_listing remote_file_info).

Definition on_remote_only (local_dir_listing remote_file_info : list file_entry) :=
  filter (fun file =>
            negb (name_in (filename file)
                    (diff_local_file_name local_dir_listing remote_file_info)))
         (diff_on_remote local_dir_listing remote_file_info).

Definition update_file_request (filename : string) : pyval :=
  create_request (PInt Action.FILE_RECIPE_ACTION)
    (PDict [(KStr "filename", PStr filename)]).

Definition delete_file_request (filename : string) : pyval :=
  create_request (PInt Action.DELETED_FILE_ACTION)
    (PDict [(KStr "filename", PStr filename)]).

Definition move_file_request (src_filename dest_filename : string) : pyval :=
  create_request (PInt Action.MOVED_FILE_ACTION)
    (PDict [(KStr "source_filename", PStr src_filename);
            (KStr "destination_filename", PStr dest_filename)]).

Definition enumerate_remote_directory : pyval :=
  create_request (PInt Action.ENUMERATE_REMOTE_DIR_ACTION) PNone.

Definition create_new_file_request `{PyLib} (fs : fs_dir) (filename : string)
  : result pyval :=
  if negb (fs_exists filename fs) then
    Raise (RequestDispatcherException
             ("Error the file " ++ filename ++ " doesn't exist, cannot copy")%string)
  else
    (* an [IOError] on opening or reading is swallowed: empty content *)
    let content := match fs_open_read filename fs with
                   | Ok c => c
                   | Raise _ => []
                   end in
    Ok (create_request (PInt Action.NEW_FILE_ACTION)
          (PDict [(KStr "filename", PStr filename);
                  (KStr "filedata", PStr (b64encode content))])).

(** [for i in entries: self.create_new_file_request(i['filename'])] *)
Fixpoint upload_all `{PyLib} (fs : fs_dir) (entries : list file_entry)
  : dispatched :=
  match entries with
  | [] => ([], None)
  | i :: entries' =>
      match create_new_file_request fs (filename i) with
      | Raise e => ([], Some e)
      | Ok r => (r :: fst (upload_all fs entries'), snd (upload_all fs entries'))
      end
  end.

Definition _directory_synch `{PyLib}
  (fs : fs_dir) (remote_file_info : list file_entry) (block_size : option Z)
  : dispatched :=
  match enumerate_directory fs block_size with
  | Raise e => ([], Some e)
  | Ok local_dir_listing =>
      let updates :=
        map (fun i => update_file_request (filename i))
            (on_both_different local_dir_listing remote_file_info) in
      let deletes :=
        map (fun i => delete_file_request (filename i))
            (on_remote_only local_dir_listing remote_file_info) in
      dispatch_seq (updates ++ deletes, None)
        (fun _ => upload_all fs (on_local_only local_dir_listing remote_file_info))
  end.

Definition on_response_callback `{PyLib} (fs : fs_dir) (response : pyval)
  : dispatched :=
  match py_get response "action" with
  | Raise e => raised e
  | Ok action =>
      if py_eqb action (PInt Action.FILE_RECIPE_ACTION) then
        match (recipe_info <- py_get response "recipe_info" ;;
               _update_file_by_recipe fs recipe_info) with
        | Raise e => raised e
        | Ok None => ([], None)
        | Ok (Some request) => ([request], None)
        end
      else if py_eqb action (PInt Action.ENUMERATE_REMOTE_DIR_ACTION) then
        match (file_info <- py_get response "file_info" ;;
               block_size_field <- py_get response "block_size" ;;
               block_size <- py_int block_size_field ;;
               rows <- listing_of_pyval file_info ;;
               Ok (rows, block_size)) with
        | Raise e => raised e
        | Ok (rows, block_size) =>
            _directory_synch fs rows (Some block_size)
        end
      else ([], None)
  end.

End RequestDispatcher.


Module ClientSideMessage.

Record t : Type := {
  base : AbstractMessage.t;
  request : pyval;
  request_queued : bool;
  response : option pyval
}.

Definition init (request : pyval) : t :=
  {| base := AbstractMessage.init EVENT_READ_WRITE;
     request := request; request_queued := false; response := None |}.

Definition set_base (b : AbstractMessage.t) (m : t) : t :=
  {| base := b; request := request m;
     request_queued := request_queued m; response := response m |}.

Definition set_request_queued (q : bool) (m : t) : t :=
  {| base := base m; request := request m;
     request_queued := q; response := response m |}.

Definition set_response (r : option pyval) (m : t) : t :=
  {| base := base m; request := request m;
     request_queued := request_queued m; response := r |}.

Definition close (m : t) : t := set_base (AbstractMessage.close (base m)) m.

Definition _write (io : socket_io) (m : t) : t :=
  match AbstractMessage.send_buffer (base m) with
  | [] => m
  | buf =>
      match sent io with
      | None => m
      | Some n =>
          set_base (AbstractMessage.set_send_buffer (skipn n buf) (base m)) m
      end
  end.

Definition queue_request `{PyLib} (m : t) : result t :=
  content <- py_index (request m) "content" ;;
  encoding_field <- py_index (request m) "encoding" ;;
  content_encoding <- py_encoding_name encoding_field ;;
  content_bytes <- encode_json content content_encoding ;;
  message <- create_message content_bytes content_encoding ;;
  let b := base m in
  Ok (set_request_queued true
        (set_base (AbstractMessage.set_send_buffer
                     (AbstractMessage.send_buffer b ++ message) b) m)).

Definition write `{PyLib} (io : socket_io) (m : t) : result t :=
  m <- (if request_queued m then Ok m else queue_request m) ;;
  let m := _write io m in
  if request_queued m then
    match AbstractMessage.send_buffer (base m) with
    | [] => Ok (set_base
                  (AbstractMessage._set_selector_events_mask EVENT_READ (base m)) m)
    | _ => Ok m
    end
  else Ok m.

(** [process_response]: once the body is complete it is decoded, its
    [response] member is handed to the callback, and the connection is
    closed.  The requests the callback dispatched are returned as well. *)
Definition process_response `{PyLib}
  (on_response_callback_func : pyval -> dispatched) (m : t)
  : result t * list pyval :=
  match AbstractMessage.take_content (base m) with
  | Raise e => (Raise e, [])
  | Ok None => (Ok m, [])
  | Ok (Some (content, b)) =>
      let m := set_response (Some content) (set_base b m) in
      match py_get content "response" with
      | Raise e => (Raise e, [])
      | Ok response =>
          match on_response_callback_func response with
          | (requests, Some e) => (Raise e, requests)
          | (requests, None) => (Ok (close m), requests)
          end
      end
  end.

Definition read `{PyLib}
  (on_response_callback_func : pyval -> dispatched)
  (io : socket_io) (m : t) : result t * list pyval :=
  match AbstractMessage.read io (base m) with
  | Raise e => (Raise e, [])
  | Ok b =>
      let m := set_base b m in
      if AbstractMessage.header_truthy (base m) then
        match response m with
        | None => process_response on_response_callback_func m
        | Some _ => (Ok m, [])
        end
      else (Ok m, [])
  end.

End ClientSideMessage.

(* ================================================================== *)
(** * A reference implementation of the library functions             *)
(* ================================================================== *)

(** A Python [str] is represented by its UTF-8 encoding, so that
    [text.encode("utf-8")] is the identity on the representation.  The
    reference functions below follow CPython on ASCII text and integers;
    floating-point numbers, surrogate escapes and encodings other than
    UTF-8 are not covered and raise. *)

Module Reference.

Definition chr (n : nat) : ascii := ascii_of_nat n.
Definition ord (c : ascii) : nat := nat_of_ascii c.

Definition str_of_bytes (b : bytes) : string := string_of_list_byte b.
Definition bytes_of_str (s : string) : bytes := list_byte_of_string s.

(** [str(z)] *)
Definition str_of_Z (z : Z) : string := NilZero.string_of_int (Z.to_int z).

Definition is_digit (c : ascii) : bool :=
  (48 <=? ord c)%nat && (ord c <=? 57)%nat.

Definition is_space (c : ascii) : bool :=
  let n := ord c in
  (n =? 32)%nat || ((9 <=? n)%nat && (n <=? 13)%nat).

Fixpoint lstrip (s : list ascii) : list ascii :=
  match s with
  | c :: s' => if is_space c then lstrip s' else s
  | [] => []
  end.

Definition strip (s : list ascii) : list ascii :=
  rev (lstrip (rev (lstrip s))).

(** Decimal digits with single underscores between them. *)
Fixpoint digits_value (s : list ascii) (acc : Z) (after_digit : bool)
  : option Z :=
  match s with
  | [] => if after_digit then Some acc else None
  | c :: s' =>
      if is_digit c then
        digits_value s' (10 * acc + Z.of_nat (ord c - 48)) true
      else if (ord c =? 95)%nat && after_digit then
        digits_value s' acc false
      else None
  end.

(** [int(text)] for a decimal literal. *)
Definition int_of_str (text : string) : result Z :=
  let s := strip (list_ascii_of_string text) in
  let signed :=
    match s with
    | c :: s' =>
        if (ord c =? 45)%nat then (true, s')
        else if (ord c =? 43)%nat then (false, s')
        else (false, s)
    | [] => (false, [])
    end in
  match digits_value (snd signed) 0 false with
  | Some z => Ok (if fst signed then - z else z)
  | None => Raise ValueError
  end.

(* ------------------------------------------------------------------ *)
(** ** base64                                                          *)
(* ------------------------------------------------------------------ *)

(** The character of a 6-bit value in the standard alphabet. *)
Definition b64_char (v : Z) : ascii :=
  if v <? 26 then chr (Z.to_nat (65 + v))
  else if v <? 52 then chr (Z.to_nat (97 + (v - 26)))
  else if v <? 62 then chr (Z.to_nat (48 + (v - 52)))
  else if v =? 62 then chr 43
  else chr 47.

(** The 6-bit value of a character of the alphabet. *)
Definition b64_value (c : ascii) : option Z :=
  let n := Z.of_nat (ord c) in
  if (65 <=? n) && (n <=? 90) then Some (n - 65)
  else if (97 <=? n) && (n <=? 122) then Some (n - 97 + 26)
  else if (48 <=? n) && (n <=? 57) then Some (n - 48 + 52)
  else if n =? 43 then Some 62
  else if n =? 47 then Some 63
  else None.

Definition pad_char : ascii := chr 61.

Fixpoint b64encode_chars (data : list Z) : list ascii :=
  match data with
  | a :: b :: c :: data' =>
      b64_char (a / 4) ::
      b64_char ((a mod 4) * 16 + b / 16) ::
      b64_char ((b mod 16) * 4 + c / 64) ::
      b64_char (c mod 64) :: b64encode_chars data'
  | [a; b] =>
      [b64_char (a / 4); b64_char ((a mod 4) * 16 + b / 16);
       b64_char ((b mod 16) * 4); pad_char]
  | [a] =>
      [b64_char (a / 4); b64_char ((a mod 4) * 16); pad_char; pad_char]
  | [] => []
  end.

(** [base64.b64encode(data).decode('utf8')] *)
Definition b64encode (data : bytes) : string :=
  string_of_list_ascii (b64encode_chars (map Z_of_byte data)).

(** [binascii.a2b_base64] without [strict_mode]: characters outside the
    alphabet are skipped; a complete pad sequence ends the input;
    [quad_pos] is the position in the current group of four characters,
    [leftchar] the bits not yet written, [pads] the pad characters seen
    in a row. *)
Fixpoint a2b_base64 (s : list ascii) (quad_pos : nat) (leftchar : Z)
  (pads : nat) (out : list Z) : result (list Z) :=
  match s with
  | [] =>
      match quad_pos with
      | O => Ok (rev out)
      | _ => Raise BinasciiError
      end
  | this_ch :: s' =>
      if Ascii.eqb this_ch pad_char then
        if (2 <=? quad_pos)%nat then
          if (4 <=? quad_pos + S pads)%nat then Ok (rev out)
          else a2b_base64 s' quad_pos leftchar (S pads) out
        else a2b_base64 s' quad_pos leftchar pads out
      else
        match b64_value this_ch with
        | None => a2b_base64 s' quad_pos leftchar pads out
        | Some v =>
            match quad_pos with
            | 0%nat => a2b_base64 s' 1 v 0 out
            | 1%nat => a2b_base64 s' 2 (v mod 16) 0 ((leftchar * 4 + v / 16) :: out)
            | 2%nat => a2b_base64 s' 3 (v mod 4) 0 ((leftchar * 16 + v / 4) :: out)
            | _ => a2b_base64 s' 0 0 0 ((leftchar * 64 + v) :: out)
            end
        end
  end.

Definition is_ascii (c : ascii) : bool := (ord c <? 128)%nat.

(** [base64.b64decode(text)] for a [str] argument. *)
Definition b64decode (text : string) : result bytes :=
  let s := list_ascii_of_string text in
  if forallb is_ascii s then
    out <- a2b_base64 s 0 0 0 [] ;;
    Ok (map byte_of_Z out)
  else Raise ValueError.

(* ------------------------------------------------------------------ *)
(** ** json                                                            *)
(* ------------------------------------------------------------------ *)

Definition dquote : ascii := chr 34.
Definition backslash : ascii := chr 92.

Definition hex_digit (v : nat) : ascii :=
  if (v <? 10)%nat then chr (48 + v) else chr (97 + (v - 10)).

(** The escape of one character inside a JSON string
    ([ensure_ascii=False]). *)
Definition escape_char (c : ascii) : list ascii :=
  let n := ord c in
  if (n =? 34)%nat then [backslash; dquote]
  else if (n =? 92)%nat then [backslash; backslash]
  else if (n =? 10)%nat then [backslash; chr 110]
  else if (n =? 13)%nat then [backslash; chr 114]
  else if (n =? 9)%nat then [backslash; chr 116]
  else if (n =? 8)%nat then [backslash; chr 98]
  else if (n =? 12)%nat then [backslash; chr 102]
  else if (n <? 32)%nat then
    [backslash; chr 117; chr 48; chr 48; hex_digit (n / 16); hex_digit (n mod 16)]
  else [c].

Definition quote (s : string) : list ascii :=
  dquote :: flat_map escape_char (list_ascii_of_string s) ++ [dquote].

(** A dictionary key as JSON writes it: keys are coerced to [str]. *)
Definition key_text (k : pykey) : string :=
  match k with
  | KStr s => s
  | KInt z => str_of_Z z
  end.

Fixpoint join (sep : list ascii) (parts : list (list ascii)) : list ascii :=
  match parts with
  | [] => []
  | [p] => p
  | p :: parts' => p ++ sep ++ join sep parts'
  end.

Definition item_separator : list ascii := [chr 44; chr 32].
Definition key_separator : list ascii := [chr 58; chr 32].

(** [json.dumps(obj, ensure_ascii=False)] *)
Fixpoint dumps (v : pyval) : list ascii :=
  match v with
  | PNone => list_ascii_of_string "null"
  | PBool true => list_ascii_of_string "true"
  | PBool false => list_ascii_of_string "false"
  | PInt z => list_ascii_of_string (str_of_Z z)
  | PStr s => quote s
  | PList l => chr 91 :: join item_separator (map dumps l) ++ [chr 93]
  | PDict d =>
      chr 123 ::
      join item_separator
        (map (fun kv => match kv with
                        | (k, x) => quote (key_text k) ++ key_separator ++ dumps x
                        end) d)
      ++ [chr 125]
  end.

Definition is_utf8_name (encoding : string) : bool :=
  String.eqb encoding "utf-8" || String.eqb encoding "utf8" ||
  String.eqb encoding "UTF-8".

(** [json.dumps(obj, ensure_ascii=False).encode(encoding)] *)
Definition json_dumps (obj : pyval) (encoding : string) : result bytes :=
  if is_utf8_name encoding then
    Ok (bytes_of_str (string_of_list_ascii (dumps obj)))
  else Raise LookupError.

Definition is_json_space (c : ascii) : bool :=
  let n := ord c in
  (n =? 32)%nat || (n =? 9)%nat || (n =? 10)%nat || (n =? 13)%nat.

Fixpoint skip_ws (s : list ascii) : list ascii :=
  match s with
  | c :: s' => if is_json_space c then skip_ws s' else s
  | [] => []
  end.

Definition hex_value (c : ascii) : option nat :=
  let n := ord c in
  if is_digit c then Some (n - 48)%nat
  else if (97 <=? n)%nat && (n <=? 102)%nat then Some (n - 87)%nat
  else if (65 <=? n)%nat && (n <=? 70)%nat then Some (n - 55)%nat
  else None.

(** The UTF-8 encoding of a code point of the basic plane. *)
Definition utf8 (cp : nat) : list ascii :=
  if (cp <? 128)%nat then [chr cp]
  else if (cp <? 2048)%nat then [chr (192 + cp / 64); chr (128 + cp mod 64)]
  else [chr (224 + cp / 4096); chr (128 + (cp / 64) mod 64); chr (128 + cp mod 64)].

(** The characters of a string literal after its opening quote, and the
    text after the closing quote. *)
Fixpoint scan_string (s : list ascii) (acc : list ascii)
  : option (string * list ascii) :=
  match s with
  | [] => None
  | c :: s' =>
      if Ascii.eqb c dquote then Some (string_of_list_ascii (rev acc), s')
      else if Ascii.eqb c backslash then
        match s' with
        | e :: s'' =>
            let n := ord e in
            if (n =? 34)%nat || (n =? 92)%nat || (n =? 47)%nat then
              scan_string s'' (e :: acc)
            else if (n =? 98)%nat then scan_string s'' (chr 8 :: acc)
            else if (n =? 102)%nat then scan_string s'' (chr 12 :: acc)
            else if (n =? 110)%nat then scan_string s'' (chr 10 :: acc)
            else if (n =? 114)%nat then scan_string s'' (chr 13 :: acc)
            else if (n =? 116)%nat then scan_string s'' (chr 9 :: acc)
            else if (n =? 117)%nat then
              match s'' with
              | h1 :: ((h2 :: ((h3 :: ((h4 :: s4) as t3)) as t2)) as t1) =>
                  match hex_value h1, hex_value h2, hex_value h3, hex_value h4 with
                  | Some a, Some b, Some c', Some d =>
                      let cp := (((a * 16 + b) * 16 + c') * 16 + d)%nat in
                      if (216 <=? cp / 256)%nat && (cp / 256 <=? 223)%nat then None
                      else scan_string s4 (rev (utf8 cp) ++ acc)
                  | _, _, _, _ => None
                  end
              | _ => None
              end
            else None
        | [] => None
        end
      else if (ord c <? 32)%nat then None
      else scan_string s' (c :: acc)
  end.

Fixpoint span_digits (s : list ascii) : list ascii * list ascii :=
  match s with
  | c :: s' =>
      if is_digit c then (c :: fst (span_digits s'), snd (span_digits s'))
      else ([], s)
  | [] => ([], [])
  end.

(** An integer literal: an optional minus sign, then [0] or digits that
    do not start with [0]; not followed by a fraction or an exponent. *)
Definition scan_int (s : list ascii) : option (Z * list ascii) :=
  let signed :=
    match s with
    | c :: s' => if (ord c =? 45)%nat then (true, s') else (false, s)
    | [] => (false, [])
    end in
  let ds := span_digits (snd signed) in
  let float_follows :=
    match snd ds with
    | c :: _ => (ord c =? 46)%nat || (ord c =? 101)%nat || (ord c =? 69)%nat
    | [] => false
    end in
  match fst ds with
  | [] => None
  | d :: more =>
      if float_follows then None
      else if (ord d =? 48)%nat && negb (match more with [] => true | _ => false end)
      then None
      else
        match digits_value (fst ds) 0 false with
        | Some z => Some (if fst signed then - z else z, snd ds)
        | None => None
        end
  end.

Fixpoint expect (word : list ascii) (s : list ascii) : option (list ascii) :=
  match word, s with
  | [], _ => Some s
  | w :: word', c :: s' => if Ascii.eqb w c then expect word' s' else None
  | _ :: _, [] => None
  end.

(** The recursive descent proper; every call consumes input, so a fuel
    of one more than the length of the text is never exhausted. *)
Fixpoint parse_value (fuel : nat) (s : list ascii) {struct fuel}
  : option (pyval * list ascii) :=
  match fuel with
  | O => None
  | S fuel' =>
      match skip_ws s with
      | [] => None
      | c :: s' =>
          let n := ord c in
          if (n =? 110)%nat then
            match expect (list_ascii_of_string "ull") s' with
            | Some r => Some (PNone, r) | None => None end
          else if (n =? 116)%nat then
            match expect (list_ascii_of_string "rue") s' with
            | Some r => Some (PBool true, r) | None => None end
          else if (n =? 102)%nat then
            match expect (list_ascii_of_string "alse") s' with
            | Some r => Some (PBool false, r) | None => None end
          else if (n =? 34)%nat then
            match scan_string s' [] with
            | Some (str, r) => Some (PStr str, r) | None => None end
          else if (n =? 91)%nat then
            match skip_ws s' with
            | c' :: r => if (ord c' =? 93)%nat then Some (PList [], r)
                         else parse_elements fuel' s' []
            | [] => None
            end
          else if (n =? 123)%nat then
            match skip_ws s' with
            | c' :: r => if (ord c' =? 125)%nat then Some (PDict [], r)
                         else parse_members fuel' s' []
            | [] => None
            end
          else
            match scan_int (c :: s') with
            | Some (z, r) => Some (PInt z, r) | None => None end
      end
  end
with parse_elements (fuel : nat) (s : list ascii) (acc : list pyval)
  {struct fuel} : option (pyval * list ascii) :=
  match fuel with
  | O => None
  | S fuel' =>
      match parse_value fuel' s with
      | None => None
      | Some (v, r) =>
          match skip_ws r with
          | c :: r' =>
              if (ord c =? 44)%nat then parse_elements fuel' r' (v :: acc)
              else if (ord c =? 93)%nat then Some (PList (rev (v :: acc)), r')
              else None
          | [] => None
          end
      end
  end
with parse_members (fuel : nat) (s : list ascii) (acc : list (pykey * pyval))
  {struct fuel} : option (pyval * list ascii) :=
  match fuel with
  | O => None
  | S fuel' =>
      match skip_ws s with
      | q :: s' =>
          if (ord q =? 34)%nat then
            match scan_string s' [] with
            | None => None
            | Some (key, r) =>
                match skip_ws r with
                | colon :: r' =>
                    if (ord colon =? 58)%nat then
                      match parse_value fuel' r' with
                      | None => None
                      | Some (v, r'') =>
                          let acc' := dict_set pykey_eqb (KStr key) v acc in
                          match skip_ws r'' with
                          | c :: r3 =>
                              if (ord c =? 44)%nat then parse_members fuel' r3 acc'
                              else if (ord c =? 125)%nat then Some (PDict acc', r3)
                              else None
                          | [] => None
                          end
                      end
                    else None
                | [] => None
                end
            end
          else None
      | [] => None
      end
  end.

(** [json.load] over the text decoded with [encoding]. *)
Definition json_load (json_bytes : bytes) (encoding : string) : result pyval :=
  if is_utf8_name encoding then
    let s := list_ascii_of_string (str_of_bytes json_bytes) in
    match parse_value (S (length s)) s with
    | Some (v, r) =>
        match skip_ws r with
        | [] => Ok v
        | _ => Raise JSONDecodeError
        end
    | None => Raise JSONDecodeError
    end
  else Raise LookupError.

(* ------------------------------------------------------------------ *)
(** ** hashlib.sha256 (FIPS 180-4)                                     *)
(* ------------------------------------------------------------------ *)

Definition word_modulus : Z := 2 ^ 32.

Definition add32 (a b : Z) : Z := (a + b) mod word_modulus.

Definition rotr (n x : Z) : Z :=
  Z.lor (Z.shiftr x n) ((Z.shiftl x (32 - n)) mod word_modulus).

Definition not32 (x : Z) : Z := word_modulus - 1 - x.

Definition Ch (x y z : Z) : Z :=
  Z.lxor (Z.land x y) (Z.land (not32 x) z).

Definition Maj (x y z : Z) : Z :=
  Z.lxor (Z.lxor (Z.land x y) (Z.land x z)) (Z.land y z).

Definition big_sigma0 (x : Z) : Z :=
  Z.lxor (Z.lxor (rotr 2 x) (rotr 13 x)) (rotr 22 x).
Definition big_sigma1 (x : Z) : Z :=
  Z.lxor (Z.lxor (rotr 6 x) (rotr 11 x)) (rotr 25 x).
Definition small_sigma0 (x : Z) : Z :=
  Z.lxor (Z.lxor (rotr 7 x) (rotr 18 x)) (Z.shiftr x 3).
Definition small_sigma1 (x : Z) : Z :=
  Z.lxor (Z.lxor (rotr 17 x) (rotr 19 x)) (Z.shiftr x 10).

(** The first primes, by trial division. *)
Definition is_prime (n : nat) : bool :=
  (2 <=? n)%nat &&
  forallb (fun d => negb (n mod d =? 0)%nat) (seq 2 (n - 2)).

Definition primes_below (n : nat) : list Z :=
  map Z.of_nat (filter is_prime (seq 0 n)).

(** The largest [r] with [r ^ 3 <= n], by bisection on [lo <= r < hi]. *)
Fixpoint cube_root_between (fuel : nat) (lo hi n : Z) : Z :=
  match fuel with
  | O => lo
  | S fuel' =>
      if hi - lo <=? 1 then lo
      else
        let mid := (lo + hi) / 2 in
        if mid * mid * mid <=? n then cube_root_between fuel' mid hi n
        else cube_root_between fuel' lo mid n
  end.

Definition cube_root (n : Z) : Z := cube_root_between 200 0 (2 ^ 40) n.

(** The round constants: the first 32 bits of the fractional parts of the
    cube roots of the first 64 primes. *)
Definition round_constants : list Z :=
  Eval vm_compute in
    map (fun p => cube_root (p * 2 ^ 96) mod 2 ^ 32) (primes_below 312).

(** The initial hash value: the same of the square roots of the first 8
    primes. *)
Definition initial_hash : list Z :=
  Eval vm_compute in
    map (fun p => Z.sqrt (p * 2 ^ 64) mod 2 ^ 32) (primes_below 20).

(** The message schedule, most recent word first. *)
Fixpoint extend_schedule (n : nat) (w : list Z) : list Z :=
  match n with
  | O => w
  | S n' =>
      let next :=
        add32 (add32 (small_sigma1 (nth 1 w 0)) (nth 6 w 0))
              (add32 (small_sigma0 (nth 14 w 0)) (nth 15 w 0)) in
      extend_schedule n' (next :: w)
  end.

Fixpoint words_of_bytes (b : list Z) : list Z :=
  match b with
  | b0 :: b1 :: b2 :: b3 :: b' =>
      (((b0 * 256 + b1) * 256 + b2) * 256 + b3) :: words_of_bytes b'
  | _ => []
  end.

Definition schedule (block : list Z) : list Z :=
  rev (extend_schedule 48 (rev (words_of_bytes block))).

Definition round (st : list Z) (kw : Z * Z) : list Z :=
  match st with
  | [a; b; c; d; e; f; g; h] =>
      let t1 := add32 (add32 (add32 h (big_sigma1 e)) (Ch e f g))
                      (add32 (fst kw) (snd kw)) in
      let t2 := add32 (big_sigma0 a) (Maj a b c) in
      [add32 t1 t2; a; b; c; add32 d t1; e; f; g]
  | _ => st
  end.

Definition compress (h : list Z) (block : list Z) : list Z :=
  map (fun p => add32 (fst p) (snd p))
      (combine h (fold_left round (combine round_constants (schedule block)) h)).

Fixpoint big_endian (n : nat) (z : Z) : list Z :=
  match n with
  | O => []
  | S n' => big_endian n' (z / 256) ++ [z mod 256]
  end.

Definition pad (message : list Z) : list Z :=
  let l := Z.of_nat (length message) in
  let zeros := Z.to_nat ((55 - l) mod 64) in
  message ++ [128] ++ repeat 0 zeros ++ big_endian 8 (8 * l).

Fixpoint absorb (blocks : nat) (h : list Z) (data : list Z) : list Z :=
  match blocks with
  | O => h
  | S blocks' => absorb blocks' (compress h (firstn 64 data)) (skipn 64 data)
  end.

Definition sha256_words (message : list Z) : list Z :=
  let padded := pad message in
  absorb (length padded / 64) initial_hash padded.

Definition hex_of_word (w : Z) : list ascii :=
  map (fun b => hex_digit (Z.to_nat b))
      (flat_map (fun b => [b / 16; b mod 16]) (big_endian 4 w)).

(** [hashlib.sha256(data).hexdigest()] *)
Definition sha256_hexdigest (data : bytes) : string :=
  string_of_list_ascii (flat_map hex_of_word (sha256_words (map Z_of_byte data))).

End Reference.

Definition reference_lib : PyLib :=
  {| sha256_hexdigest := Reference.sha256_hexdigest;
     b64encode := Reference.b64encode;
     b64decode := Reference.b64decode;
     int_of_str := Reference.int_of_str;
     json_dumps := Reference.json_dumps;
     json_load := Reference.json_load;
     sys_byteorder := "little" |}.

(** The characters of a decimal numeral, as [str(n)] writes them. *)
Fixpoint uint_digits (d : Decimal.uint) : list ascii :=
  match d with
  | Decimal.Nil => []
  | Decimal.D0 d' => "0"%char :: uint_digits d'
  | Decimal.D1 d' => "1"%char :: uint_digits d'
  | Decimal.D2 d' => "2"%char :: uint_digits d'
  | Decimal.D3 d' => "3"%char :: uint_digits d'
  | Decimal.D4 d' => "4"%char :: uint_digits d'
  | Decimal.D5 d' => "5"%char :: uint_digits d'
  | Decimal.D6 d' => "6"%char :: uint_digits d'
  | Decimal.D7 d' => "7"%char :: uint_digits d'
  | Decimal.D8 d' => "8"%char :: uint_digits d'
  | Decimal.D9 d' => "9"%char :: uint_digits d'
  end.

(** Text as the bytes of a file. *)
Definition b (s : string) : bytes := list_byte_of_string s.

(* ================================================================== *)
(** * Well-formed block lists and the reconciler's buckets            *)
(* ================================================================== *)

(** Block indices [start, start + 1, ...]. *)
Definition indices (start : Z) (n : nat) : list Z :=
  map (fun i => start + Z.of_nat i) (seq 0 n).

Definition block_or_empty (blocks : pydict Z bytes) (key : Z) : bytes :=
  match dict_get Z.eqb key blocks with
  | Some x => x
  | None => []
  end.

(** The blocks of a mapping in ascending key order. *)
Definition block_values (blocks : pydict Z bytes) : list bytes :=
  map (block_or_empty blocks) (sorted (dict_keys blocks)).

(** Every block but the last has exactly [n] bytes; the last has between
    [1] and [n]. *)
Fixpoint full_blocks (n : Z) (l : list bytes) : bool :=
  match l with
  | [] => true
  | [last] => (1 <=? len last) && (len last <=? n)
  | x :: rest => (len x =? n) && full_blocks n rest
  end.

(** A block mapping is well formed for block size [n] when its indices
    are [0 .. k-1] without gaps and its blocks are the [n]-byte slices of
    some file. *)
Definition well_formed_blocks (n : Z) (blocks : pydict Z bytes) : bool :=
  (if list_eq_dec Z.eq_dec (sorted (dict_keys blocks))
        (indices 0 (length blocks))
   then true else false) &&
  full_blocks n (block_values blocks).

(** The block size and the merged mapping [updated_blocks] that
    [update_file] writes out for a payload, when it gets that far. *)
Definition merged_blocks `{PyLib} (recipe : pyval) (fs : fs_dir)
  : result (Z * pydict Z bytes) :=
  filename <- py_get recipe "filename" ;;
  block_size <- py_get recipe "block_size" ;;
  blocks <- py_get recipe "blocks" ;;
  items <- py_items blocks ;;
  blocks_to_update <- FileActionHandler.decode_blocks items [] ;;
  name <- py_path_name filename ;;
  content <- fs_open_read name fs ;;
  size <- py_read_size block_size ;;
  file_blocks <- create_block_list content size ;;
  match size with
  | Some n => Ok (n, dict_merge Z.eqb file_blocks blocks_to_update)
  | None => Raise ValueError
  end.

Definition well_formed_update `{PyLib} (recipe : pyval) (fs : fs_dir) : bool :=
  match merged_blocks recipe fs with
  | Ok (n, merged) => (0 <? n) && well_formed_blocks n merged
  | Raise _ => false
  end.

(** The four outcomes of the reconciler for a filename. *)
Inductive bucket : Type := Same | Update | DeleteRemote | Upload.

Definition bucket_entries (c : bucket)
  (local_dir_listing remote_file_info : list file_entry) : list file_entry :=
  match c with
  | Same => RequestDispatcher.same_on_both local_dir_listing remote_file_info
  | Update => RequestDispatcher.on_both_different local_dir_listing remote_file_info
  | DeleteRemote => RequestDispatcher.on_remote_only local_dir_listing remote_file_info
  | Upload => RequestDispatcher.on_local_only local_dir_listing remote_file_info
  end.

(** The filename [name] falls into bucket [c]. *)
Definition in_bucket (local_dir_listing remote_file_info : list file_entry)
  (name : string) (c : bucket) : Prop :=
  In name (map filename (bucket_entries c local_dir_listing remote_file_info)).

Definition file_names (listing : list file_entry) : list string :=
  map filename listing.

(** A response that carries the action code and a message. *)
Definition is_status_message (v : pyval) : bool :=
  match v with
  | PDict [(KStr "action", PInt _); (KStr "msg", PStr _)] => true
  | _ => false
  end.

(* ================================================================== *)
(** * Auxiliary definitions and example data                          *)
(* ================================================================== *)

Definition update_example_fs : fs_dir := [("f", File (b "aabbcc"))].

(** [{'filename': 'f', 'block_size': 2, 'blocks': {key: text}}] *)
Definition update_example_payload (key text : string) : pyval :=
  PDict [(KStr "filename", PStr "f");
         (KStr "block_size", PInt 2);
         (KStr "blocks", PDict [(KStr key, PStr text)])].

Definition example_handler : FileActionHandler.t :=
  {| FileActionHandler.directory := "/srv/mirror";
     FileActionHandler.block_size := 4 |}.

Definition row (name : string) (size : Z) (hash : string) : file_entry :=
  {| filename := name; file_size := size; sha256 := hash |}.

(** The exception of [create_file_recipe] for a missing file. *)
Definition recipe_error : exn :=
  FileActionHandlerException "Error the file doesn't exist, cannot create recipe".

(** The session after the frame has been read and its header parsed. *)
Definition header_parsed `{PyLib} (content_bytes : bytes)
  (content_encoding : string) (header_bytes : bytes) : AbstractMessage.t :=
  {| AbstractMessage.receive_buffer := content_bytes;
     AbstractMessage.send_buffer := [];
     AbstractMessage.header_length := Some (len header_bytes);
     AbstractMessage.header := Some (header_of content_bytes content_encoding);
     AbstractMessage.registered := EVENT_READ;
     AbstractMessage.closed := false |}.

(** The payload of a request: what [queue_request] encodes and the
    handler receives. *)
Definition request_content (request : pyval) : pyval :=
  match py_index request "content" with
  | Ok content => content
  | Raise _ => PNone
  end.

Definition quiet : socket_io := {| recv := None; sent := None |}.

Definition example_payload : bytes :=
  Eval vm_compute in
    match Reference.json_dumps
            (request_content RequestDispatcher.enumerate_remote_directory)
            "utf-8" with
    | Ok x => x
    | Raise _ => []
    end.

Definition example_header_bytes : bytes :=
  Eval vm_compute in
    match @encode_json reference_lib
            (@header_of reference_lib example_payload "utf-8") "utf-8" with
    | Ok x => x
    | Raise _ => []
    end.

Definition new_file_example : pyval :=
  PDict [(KStr "action", PInt Action.NEW_FILE_ACTION);
         (KStr "data", PDict [(KStr "filename", PStr "new.txt")])].

Definition unknown_action_example : pyval :=
  PDict [(KStr "action", PInt 7); (KStr "data", PNone)].

Definition recipe_request_example : pyval :=
  request_content (RequestDispatcher.update_file_request "missing.txt").

Definition serving (request : pyval) : ServerSideMessage.t :=
  ServerSideMessage.set_request (Some request)
    (ServerSideMessage.init example_handler).

Definition nested_example_fs : fs_dir :=
  [("top.txt", File (b "t")); ("sub", Dir [("a.txt", File (b "x"))])].

(** Every dictionary inside the value is keyed by [str]. *)
Fixpoint str_keyed (v : pyval) : bool :=
  match v with
  | PList l => forallb str_keyed l
  | PDict d =>
      forallb (fun kv => match kv with
                         | (KStr _, x) => str_keyed x
                         | (KInt _, _) => false
                         end) d
  | _ => true
  end.

Definition member_str_keyed (kv : pykey * pyval) : bool :=
  match kv with
  | (KStr _, x) => str_keyed x
  | (KInt _, _) => false
  end.

(** The bytes the responder queues for a request. *)
Definition served_response `{PyLib} (self : FileActionHandler.t)
  (request : pyval) (fs : fs_dir) : result bytes :=
  content <- fst (FileActionHandler.handle_request self request fs) ;;
  m <- ServerSideMessage.create_response content (ServerSideMessage.init self) ;;
  Ok (AbstractMessage.send_buffer (ServerSideMessage.base m)).

(** [update_blocks_keys] in [_update_file_by_recipe]: the keys of the
    local [(index, hash)] tuples that are not in the recipe. *)
Definition update_blocks_keys_of `{PyLib}
  (blocks : list bytes) (recipe_items : list (pykey * pyval)) : list pykey :=
  dict_keys
    (dict_of_items pykey_eqb
       (RequestDispatcher.set_difference
          (RequestDispatcher.hash_items (number_blocks sha256_hexdigest blocks))
          recipe_items)).

(* ================================================================== *)
(** * Blocks as slices of the file                                     *)
(* ================================================================== *)

(** The number of [n]-byte reads a file of this content takes. *)
Definition block_count (n : Z) (content : bytes) : nat :=
  (length content + Z.to_nat n - 1) / Z.to_nat n.

(** [content[i * n : (i + 1) * n]] *)
Definition block_slice (n : Z) (content : bytes) (i : nat) : bytes :=
  firstn (Z.to_nat n) (skipn (i * Z.to_nat n) content).

(* ================================================================== *)
(** * Effects of a handler method on the directory                     *)
(* ================================================================== *)

(** The method leaves the directory as it found it. *)
Definition keeps_directory {A} (m : fs_action A) : Prop :=
  forall fs, snd (m fs) = fs.

(** The method changes the directory only when it returns normally. *)
Definition all_or_nothing {A} (m : fs_action A) : Prop :=
  forall fs e fs', m fs = (Raise e, fs') -> fs' = fs.

(** [int(request.get("action"))] *)
Definition action_of `{PyLib} (request : pyval) : result Z :=
  a <- py_get request "action" ;; py_int a.

(* ================================================================== *)
(** * Requests that carry a whole file                                 *)
(* ================================================================== *)

(** The [blocks] member as [_update_file_by_recipe] builds it:
    [{k: base64.b64encode(v).decode('utf8') for k, v in src_blks.items()}]. *)
Definition encoded_blocks `{PyLib} (src_blks : pydict Z bytes)
  : list (pykey * pyval) :=
  map (fun kv => (KInt (fst kv), PStr (b64encode (snd kv)))) src_blks.

(** The [recipe_info] of an [UpdateFile] request that carries every block
    of [content]. *)
Definition every_block_update `{PyLib}
  (name : string) (n : Z) (content : bytes) : pyval :=
  PDict [(KStr "filename", PStr name);
         (KStr "block_size", PInt n);
         (KStr "blocks",
          PDict (encoded_blocks
                   (number_blocks (fun block => block)
                      (read_blocks (Some n) content))))].

(** The blocks of [content] survive [base64] encoding and decoding. *)
Definition blocks_survive_base64 `{PyLib} (n : Z) (content : bytes) : Prop :=
  forall block, In block (read_blocks (Some n) content) ->
                b64decode (b64encode block) = Ok block.

(* ================================================================== *)
(** * Data arriving on the socket                                      *)
(* ================================================================== *)

(** A readiness notification at which [sock.recv] returns [data]. *)
Definition received (data : bytes) : socket_io :=
  {| recv := Some data; sent := None |}.

(** A readiness notification at which [sock.send] takes [n] bytes. *)
Definition sending (n : nat) : socket_io :=
  {| recv := None; sent := Some n |}.

(** What [AbstractMessage.read] does once [_read] has filled the buffer. *)
Definition parse_buffered `{PyLib} (m : AbstractMessage.t)
  : result AbstractMessage.t :=
  m <- match AbstractMessage.header_length m with
       | None => AbstractMessage.process_preheader m
       | Some _ => Ok m
       end ;;
  match AbstractMessage.header_length m with
  | Some _ =>
      match AbstractMessage.header m with
      | None => AbstractMessage.process_header m
      | Some _ => Ok m
      end
  | None => Ok m
  end.

(** The requester's session once its message is queued, with [rest]
    still to be sent: it listens for writability as long as something is
    left, and for the response afterwards. *)
Definition client_sending (request : pyval) (rest : bytes)
  : ClientSideMessage.t :=
  {| ClientSideMessage.base :=
       {| AbstractMessage.receive_buffer := [];
          AbstractMessage.send_buffer := rest;
          AbstractMessage.header_length := None;
          AbstractMessage.header := None;
          AbstractMessage.registered :=
            match rest with
            | [] => EVENT_READ
            | _ => EVENT_READ_WRITE
            end;
          AbstractMessage.closed := false |};
     ClientSideMessage.request := request;
     ClientSideMessage.request_queued := true;
     ClientSideMessage.response := None |}.

(** The responder's session once a request has been read completely: the
    buffer is empty, the header and the request are kept, and the
    connection listens for writability. *)
Definition request_received `{PyLib} (h : FileActionHandler.t)
  (content_bytes : bytes) (content_encoding : string) (header_bytes : bytes)
  (request : pyval) : ServerSideMessage.t :=
  {| ServerSideMessage.base :=
       {| AbstractMessage.receive_buffer := [];
          AbstractMessage.send_buffer := [];
          AbstractMessage.header_length := Some (len header_bytes);
          AbstractMessage.header :=
            Some (header_of content_bytes content_encoding);
          AbstractMessage.registered := EVENT_WRITE;
          AbstractMessage.closed := false |};
     ServerSideMessage.request := Some request;
     ServerSideMessage.response_created := false;
     ServerSideMessage.file_action_handler := h |}.

(** The requester's session once the response has been read completely
    and handed to the callback: the connection is closed. *)
Definition response_received `{PyLib} (request : pyval) (rest : bytes)
  (content_bytes : bytes) (content_encoding : string) (header_bytes : bytes)
  (response : pyval) : ClientSideMessage.t :=
  {| ClientSideMessage.base :=
       {| AbstractMessage.receive_buffer := [];
          AbstractMessage.send_buffer := rest;
          AbstractMessage.header_length := Some (len header_bytes);
          AbstractMessage.header :=
            Some (header_of content_bytes content_encoding);
          AbstractMessage.registered :=
            match rest with
            | [] => EVENT_READ
            | _ => EVENT_READ_WRITE
            end;
          AbstractMessage.closed := true |};
     ClientSideMessage.request := request;
     ClientSideMessage.request_queued := true;
     ClientSideMessage.response := Some response |}.

(** The content of a response to a [DeleteFile] request, and its bytes
    on the wire. *)
Definition example_response : pyval :=
  PDict [(KStr "response",
          status_message Action.DELETED_FILE_ACTION "Successfully deleted f")].

Definition example_response_bytes : bytes :=
  Eval vm_compute in
    match Reference.json_dumps example_response "utf-8" with
    | Ok x => x
    | Raise _ => []
    end.

Definition example_response_header : bytes :=
  Eval vm_compute in
    match @encode_json reference_lib
            (@header_of reference_lib example_response_bytes "utf-8") "utf-8" with
    | Ok x => x
    | Raise _ => []
    end.

(* ================================================================== *)
(** * Directories without subdirectories                               *)
(* ================================================================== *)

(** Every entry of the directory is a file. *)
Definition flat (fs : fs_dir) : bool :=
  forallb (fun e => is_file (snd e)) fs.

(** The [NewFile] request [create_new_file_request] builds for a file. *)
Definition upload_request `{PyLib} (e : string * node) : pyval :=
  create_request (PInt Action.NEW_FILE_ACTION)
    (PDict [(KStr "filename", PStr (fst e));
            (KStr "filedata", PStr (b64encode (file_content (snd e))))]).

(* ================================================================== *)
(** * Properties                                                       *)
(* ================================================================== *)

Unset Implicit Arguments.

(** ** Dictionaries keyed by block index *)

Section DictFacts.
Context {V : Type}.
Implicit Types (d : pydict Z V) (k : Z) (v : V).

Lemma dict_get_set k k' v d :
  dict_get Z.eqb k (dict_set Z.eqb k' v d) =
  if k =? k' then Some v else dict_get Z.eqb k d.
Proof.
  induction d as [|[k0 v0] d IH]; simpl.
  - reflexivity.
  - destruct (k' =? k0) eqn:E0; simpl.
    + apply Z.eqb_eq in E0. subst k0.
      destruct (k =? k'); reflexivity.
    + destruct (k =? k0) eqn:E1.
      * apply Z.eqb_eq in E1. subst k0.
        rewrite Z.eqb_sym, E0. reflexivity.
      * apply IH.
Qed.

Lemma dict_get_None k d :
  dict_get Z.eqb k d = None <-> ~ In k (dict_keys d).
Proof.
  induction d as [|[k0 v0] d IH]; simpl.
  - tauto.
  - destruct (k =? k0) eqn:E.
    + apply Z.eqb_eq in E. split; [discriminate | intros H; exfalso; auto].
    + apply Z.eqb_neq in E. rewrite IH. intuition congruence.
Qed.

Lemma dict_get_Some_In k d :
  In k (dict_keys d) <-> exists v, dict_get Z.eqb k d = Some v.
Proof.
  destruct (dict_get Z.eqb k d) eqn:E.
  - split; [eauto|]. intros _.
    destruct (in_dec Z.eq_dec k (dict_keys d)) as [H|H]; [exact H|].
    apply dict_get_None in H. congruence.
  - split.
    + intros H. apply dict_get_None in E. contradiction.
    + intros [v H]. discriminate.
Qed.

Lemma dict_set_fresh k v d :
  ~ In k (dict_keys d) -> dict_set Z.eqb k v d = d ++ [(k, v)].
Proof.
  induction d as [|[k0 v0] d IH]; simpl; intros H.
  - reflexivity.
  - destruct (k =? k0) eqn:E.
    + apply Z.eqb_eq in E. exfalso. auto.
    + rewrite IH; auto.
Qed.

Lemma dict_keys_set k k' v d :
  In k (dict_keys (dict_set Z.eqb k' v d)) <-> k = k' \/ In k (dict_keys d).
Proof.
  rewrite !dict_get_Some_In, dict_get_set.
  destruct (k =? k') eqn:E.
  - apply Z.eqb_eq in E. split; eauto.
  - apply Z.eqb_neq in E. split; [auto|]. intros [H|H]; [contradiction|exact H].
Qed.

Lemma dict_set_NoDup k v d :
  NoDup (dict_keys d) -> NoDup (dict_keys (dict_set Z.eqb k v d)).
Proof.
  induction d as [|[k0 v0] d IH]; simpl; intros H.
  - constructor; [simpl; tauto | constructor].
  - inversion H as [|? ? Hn Hd]; subst.
    destruct (k =? k0) eqn:E; simpl.
    + constructor; assumption.
    + constructor; [|auto].
      change (~ In k0 (dict_keys (dict_set Z.eqb k v d))).
      rewrite dict_keys_set. apply Z.eqb_neq in E. intuition congruence.
Qed.

Lemma dict_merge_NoDup (a c : pydict Z V) :
  NoDup (dict_keys a) -> NoDup (dict_keys (dict_merge Z.eqb a c)).
Proof.
  unfold dict_merge. revert a.
  induction c as [|[k v] c IH]; simpl; intros a H; [exact H|].
  apply IH, dict_set_NoDup, H.
Qed.

Lemma dict_get_merge k (a c : pydict Z V) :
  NoDup (dict_keys c) ->
  dict_get Z.eqb k (dict_merge Z.eqb a c) =
  match dict_get Z.eqb k c with
  | Some v => Some v
  | None => dict_get Z.eqb k a
  end.
Proof.
  unfold dict_merge. revert a.
  induction c as [|[k0 v0] c IH]; simpl; intros a H; [reflexivity|].
  inversion H as [|? ? Hn Hd]; subst.
  rewrite IH by assumption.
  destruct (k =? k0) eqn:E.
  - apply Z.eqb_eq in E. subst k0.
    apply dict_get_None in Hn. rewrite Hn, dict_get_set, Z.eqb_refl. reflexivity.
  - rewrite dict_get_set, E. reflexivity.
Qed.

Lemma dict_of_items_NoDup (items : list (Z * V)) :
  NoDup (dict_keys (dict_of_items Z.eqb items)).
Proof.
  unfold dict_of_items.
  change (NoDup (dict_keys (dict_merge Z.eqb [] items))).
  apply dict_merge_NoDup. constructor.
Qed.

End DictFacts.

(** ** [sorted] *)

Lemma insert_sorted_comm x y l :
  insert_sorted x (insert_sorted y l) = insert_sorted y (insert_sorted x l).
Proof.
  induction l as [|z l IH]; simpl.
  - destruct (Z.leb_spec x y), (Z.leb_spec y x); try reflexivity;
      try lia. f_equal; try lia. f_equal. lia.
  - destruct (Z.leb_spec y z), (Z.leb_spec x z); simpl;
      repeat match goal with
             | |- context [?a <=? ?c] => destruct (Z.leb_spec a c)
             end; try lia; try reflexivity.
    + assert (x = y) by lia. subst. reflexivity.
    + rewrite IH. reflexivity.
Qed.

Lemma sorted_Permutation l l' : Permutation l l' -> sorted l = sorted l'.
Proof.
  induction 1; simpl.
  - reflexivity.
  - congruence.
  - apply insert_sorted_comm.
  - congruence.
Qed.

Lemma insert_sorted_head x l :
  (forall y, In y l -> x <= y) -> insert_sorted x l = x :: l.
Proof.
  destruct l as [|y l]; simpl; intros H; [reflexivity|].
  destruct (Z.leb_spec x y); [reflexivity|].
  specialize (H y (or_introl eq_refl)). lia.
Qed.

Lemma indices_S start n :
  indices start (S n) = start :: indices (start + 1) n.
Proof.
  unfold indices. simpl. rewrite Z.add_0_r. f_equal.
  rewrite <- seq_shift, map_map. apply map_ext. intros i. lia.
Qed.

Lemma indices_In start n k :
  In k (indices start n) <-> start <= k < start + Z.of_nat n.
Proof.
  unfold indices. rewrite in_map_iff. split.
  - intros [i [<- Hi]]. apply in_seq in Hi. lia.
  - intros H. exists (Z.to_nat (k - start)). split; [lia|].
    apply in_seq. lia.
Qed.

Lemma sorted_indices start n : sorted (indices start n) = indices start n.
Proof.
  revert start. induction n as [|n IH]; intros start; [reflexivity|].
  rewrite indices_S. simpl. rewrite IH.
  apply insert_sorted_head. intros y Hy. apply indices_In in Hy. lia.
Qed.

Lemma length_indices start n : length (indices start n) = n.
Proof. unfold indices. rewrite length_map. apply length_seq. Qed.

Lemma indices_NoDup start n : NoDup (indices start n).
Proof.
  revert start. induction n as [|n IH]; intros start.
  - constructor.
  - rewrite indices_S. constructor; [|apply IH].
    rewrite indices_In. lia.
Qed.

(** ** The block codec *)

Lemma read_blocks_step size rest :
  read_blocks size rest =
  match f_read size rest with
  | ([], _) => []
  | (block, rest') => block :: read_blocks size rest'
  end.
Proof.
  assert (G : forall p (e : f_read size rest = p),
             read_blocks_unfold_clause_1 size rest (exist _ p e) =
             match p with
             | ([], _) => []
             | (block, rest') => block :: read_blocks size rest'
             end).
  { intros [[|x bl] r] e; reflexivity. }
  rewrite read_blocks_equation_1. unfold inspect. apply G.
Qed.

Lemma read_blocks_nil size : read_blocks size [] = [].
Proof.
  rewrite read_blocks_step. unfold f_read.
  destruct size as [n|]; [|reflexivity].
  destruct (n <? 0); [reflexivity|].
  rewrite firstn_nil. reflexivity.
Qed.

(** Reading in blocks of a positive size loses nothing. *)
Lemma concat_read_blocks n data :
  0 < n -> concat (read_blocks (Some n) data) = data.
Proof.
  intros Hn.
  remember (length data) as m eqn:Hm. revert data Hm.
  induction m as [m IH] using lt_wf_ind. intros data Hm.
  rewrite read_blocks_step.
  destruct (f_read (Some n) data) as [[|x bl] rest'] eqn:E.
  - unfold f_read in E. destruct (Z.ltb_spec n 0); [lia|].
    inversion E as [[H1 H2]].
    destruct data as [|c data]; [reflexivity|].
    destruct (Z.to_nat n) eqn:En; [lia|discriminate].
  - simpl. rewrite (IH (length rest')); [| |reflexivity].
    + unfold f_read in E. destruct (Z.ltb_spec n 0); [lia|].
      injection E as H1 H2.
      change ((x :: bl) ++ rest' = data).
      rewrite <- H1, <- H2. apply firstn_skipn.
    + subst m. eapply f_read_shrinks, E.
Qed.

Lemma number_blocks_fold {V} (g : bytes -> V) blocks c (acc : pydict Z V) :
  (forall k, In k (dict_keys acc) -> k < c) ->
  fold_left
    (fun st block => (fst st + 1, dict_set Z.eqb (fst st) (g block) (snd st)))
    blocks (c, acc) =
  (c + Z.of_nat (length blocks),
   acc ++ combine (indices c (length blocks)) (map g blocks)).
Proof.
  revert c acc. induction blocks as [|x blocks IH]; intros c acc Hacc.
  - simpl. rewrite Z.add_0_r, app_nil_r. reflexivity.
  - cbn [fold_left fst snd length map]. rewrite indices_S.
    rewrite dict_set_fresh.
    + rewrite IH.
      * cbn [combine]. rewrite <- app_assoc. simpl. f_equal. lia.
      * intros k Hk. unfold dict_keys in Hk. rewrite map_app in Hk.
        apply in_app_or in Hk. destruct Hk as [Hk|Hk].
        -- apply Hacc in Hk. lia.
        -- simpl in Hk. lia.
    + intros H. apply Hacc in H. lia.
Qed.

Lemma number_blocks_spec {V} (g : bytes -> V) blocks :
  number_blocks g blocks = combine (indices 0 (length blocks)) (map g blocks).
Proof.
  unfold number_blocks.
  assert (E := @number_blocks_fold V g blocks 0 []).
  unfold pydict in *. rewrite E; [reflexivity|].
  simpl. tauto.
Qed.

Lemma number_blocks_keys {V} (g : bytes -> V) blocks :
  dict_keys (number_blocks g blocks) = indices 0 (length blocks).
Proof.
  rewrite number_blocks_spec. unfold dict_keys.
  generalize 0. induction blocks as [|x blocks IH]; intros s; [reflexivity|].
  cbn [length map]. rewrite indices_S. simpl. f_equal. apply IH.
Qed.

Lemma create_file_from_blks_values blocks :
  create_file_from_blks blocks = concat (block_values blocks).
Proof. reflexivity. Qed.

Lemma block_values_combine blocks start :
  map (block_or_empty (combine (indices start (length blocks)) blocks))
      (indices start (length blocks)) = blocks.
Proof.
  revert start. induction blocks as [|x blocks IH]; intros start.
  - reflexivity.
  - cbn [length]. rewrite indices_S. cbn [combine map]. f_equal.
    + unfold block_or_empty. simpl. rewrite Z.eqb_refl. reflexivity.
    + etransitivity; [|apply (IH (start + 1))]. apply map_ext_in.
      intros k Hk. apply indices_In in Hk.
      unfold block_or_empty. simpl.
      destruct (Z.eqb_spec k start); [lia|reflexivity].
Qed.

Lemma block_values_number_blocks blocks :
  block_values (number_blocks (fun x => x) blocks) = blocks.
Proof.
  unfold block_values. rewrite number_blocks_keys, sorted_indices.
  rewrite number_blocks_spec, map_id. apply block_values_combine.
Qed.

(** C6. For every file content and every positive block size [n], writing
    out [create_block_list(f, n)] with [create_file_from_blks] reproduces
    the content exactly. *)
Theorem create_file_from_blks_create_block_list (content : bytes) (n : Z) :
  0 < n ->
  (blocks <- create_block_list content (Some n) ;;
   Ok (create_file_from_blks blocks)) = Ok content.
Proof.
  intros Hn. unfold create_block_list, iter_read, read_size_valid.
  destruct (Z.leb_spec (-1) n); [|lia]. simpl.
  rewrite create_file_from_blks_values, block_values_number_blocks.
  rewrite concat_read_blocks by exact Hn. reflexivity.
Qed.

Lemma create_file_from_blks_create_block_list_witness :
  0 < 4 /\
  (blocks <- create_block_list (b "hello world!!") (Some 4) ;;
   Ok (create_file_from_blks blocks)) = Ok (b "hello world!!").
Proof.
  split; [lia|].
  apply (create_file_from_blks_create_block_list (b "hello world!!") 4). lia.
Defined.

(** ** Re-reading a well-formed block list *)

Lemma full_blocks_read n l :
  0 < n -> full_blocks n l = true -> read_blocks (Some n) (concat l) = l.
Proof.
  intros Hn. induction l as [|x l IH]; intros H.
  - apply read_blocks_nil.
  - rewrite read_blocks_step. unfold f_read.
    destruct (Z.ltb_spec n 0); [lia|].
    assert (Hx : firstn (Z.to_nat n) (concat (x :: l)) = x /\
                 skipn (Z.to_nat n) (concat (x :: l)) = concat l /\
                 x <> [] /\ full_blocks n l = true).
    { cbn [concat]. destruct l as [|y l].
      - cbn [full_blocks] in H. apply andb_prop in H. destruct H as [H1 H2].
        apply Z.leb_le in H1, H2. unfold len in *.
        simpl. rewrite app_nil_r.
        rewrite firstn_all2 by lia. rewrite skipn_all2 by lia.
        repeat split; try reflexivity.
        intros ->. simpl in H1. lia.
      - change (full_blocks n (x :: y :: l)) with
          ((len x =? n) && full_blocks n (y :: l)) in H.
        apply andb_prop in H. destruct H as [H1 H2].
        apply Z.eqb_eq in H1. unfold len in H1.
        assert (Hl : Z.to_nat n = length x) by lia.
        rewrite Hl, firstn_app, Nat.sub_diag, firstn_all, firstn_O, app_nil_r.
        rewrite skipn_app, Nat.sub_diag, skipn_all, skipn_O.
        repeat split; try reflexivity; try assumption.
        intros ->. simpl in H1. lia. }
    destruct Hx as [H1 [H2 [H3 H4]]]. rewrite H1, H2.
    destruct x as [|c x]; [congruence|].
    f_equal. apply IH, H4.
Qed.

Lemma in_insert_sorted k x l : In k (insert_sorted x l) <-> k = x \/ In k l.
Proof.
  induction l as [|y l IH]; simpl.
  - intuition.
  - destruct (x <=? y); simpl; [intuition|]. rewrite IH. intuition.
Qed.

Lemma in_sorted k l : In k (sorted l) <-> In k l.
Proof.
  induction l as [|x l IH]; simpl; [tauto|].
  rewrite in_insert_sorted, IH. intuition.
Qed.

Lemma dict_get_combine_map {V} (f : Z -> V) keys k :
  dict_get Z.eqb k (combine keys (map f keys)) =
  if in_dec Z.eq_dec k keys then Some (f k) else None.
Proof.
  induction keys as [|k0 keys IH]; [reflexivity|].
  cbn [map combine dict_get].
  destruct (Z.eqb_spec k k0) as [->|Hne].
  - destruct (in_dec Z.eq_dec k0 (k0 :: keys)) as [_|Hn]; [reflexivity|].
    exfalso. apply Hn. left. reflexivity.
  - rewrite IH.
    destruct (in_dec Z.eq_dec k keys) as [Hi|Hi],
             (in_dec Z.eq_dec k (k0 :: keys)) as [Hj|Hj];
      try reflexivity; exfalso.
    + apply Hj. right. exact Hi.
    + destruct Hj as [Hj|Hj]; [congruence|contradiction].
Qed.

(** Two mappings that agree as functions are written out alike. *)
Lemma create_file_from_blks_ext (m1 m2 : pydict Z bytes) :
  NoDup (dict_keys m1) -> NoDup (dict_keys m2) ->
  (forall k, dict_get Z.eqb k m1 = dict_get Z.eqb k m2) ->
  create_file_from_blks m1 = create_file_from_blks m2.
Proof.
  intros N1 N2 Hext. unfold create_file_from_blks.
  assert (Hs : sorted (dict_keys m1) = sorted (dict_keys m2)).
  { apply sorted_Permutation, NoDup_Permutation; try assumption.
    intros k. rewrite !dict_get_Some_In, Hext. tauto. }
  rewrite Hs. f_equal. apply map_ext. intros k. rewrite Hext. reflexivity.
Qed.

(** Re-reading what [create_file_from_blks] wrote for a well-formed
    mapping gives the same mapping back, as a function of the index. *)
Lemma create_block_list_well_formed n (m : pydict Z bytes) :
  0 < n -> well_formed_blocks n m = true ->
  exists c,
    create_block_list (create_file_from_blks m) (Some n) = Ok c /\
    NoDup (dict_keys c) /\
    forall k, dict_get Z.eqb k c = dict_get Z.eqb k m.
Proof.
  intros Hn Hwf. unfold well_formed_blocks in Hwf.
  apply andb_prop in Hwf. destruct Hwf as [Hk Hf].
  destruct (list_eq_dec Z.eq_dec (sorted (dict_keys m))
              (indices 0 (length m))) as [Hk'|]; [clear Hk|discriminate].
  unfold create_block_list, iter_read, read_size_valid.
  destruct (Z.leb_spec (-1) n); [|lia]. simpl.
  rewrite create_file_from_blks_values, full_blocks_read by assumption.
  eexists. split; [reflexivity|]. split.
  - rewrite number_blocks_keys. apply indices_NoDup.
  - intros k. rewrite number_blocks_spec, map_id.
    unfold block_values. rewrite length_map, Hk', length_indices.
    rewrite dict_get_combine_map.
    destruct (in_dec Z.eq_dec k (indices 0 (length m))) as [Hi|Hi];
      rewrite <- Hk', in_sorted in Hi.
    + apply dict_get_Some_In in Hi. destruct Hi as [v Hv].
      unfold block_or_empty. rewrite Hv. reflexivity.
    + apply dict_get_None in Hi. rewrite Hi. reflexivity.
Qed.

(** ** The managed directory *)

Lemma fs_lookup_set name v (fs : fs_dir) :
  fs_lookup name (dict_set String.eqb name v fs) = Some v.
Proof.
  unfold fs_lookup. induction fs as [|[n0 x0] fs IH]; simpl.
  - rewrite String.eqb_refl. reflexivity.
  - destruct (String.eqb name n0) eqn:E; simpl; rewrite E; [reflexivity|exact IH].
Qed.

Lemma fs_set_set name v v' (fs : fs_dir) :
  dict_set String.eqb name v (dict_set String.eqb name v' fs) =
  dict_set String.eqb name v fs.
Proof.
  induction fs as [|[n0 x0] fs IH]; simpl.
  - rewrite String.eqb_refl. reflexivity.
  - destruct (String.eqb name n0) eqn:E; simpl; rewrite E; [reflexivity|].
    f_equal. exact IH.
Qed.

Lemma fs_set_fresh name v (fs : fs_dir) :
  fs_lookup name fs = None -> dict_set String.eqb name v fs = fs ++ [(name, v)].
Proof.
  unfold fs_lookup. induction fs as [|[n0 x0] fs IH]; simpl; intros H.
  - reflexivity.
  - destruct (String.eqb name n0); [discriminate|]. f_equal. apply IH, H.
Qed.

Lemma fs_exists_lookup name (fs : fs_dir) :
  fs_exists name fs = match fs_lookup name fs with Some _ => true | None => false end.
Proof. reflexivity. Qed.

Lemma fs_exists_false name fs : fs_exists name fs = false -> fs_lookup name fs = None.
Proof.
  rewrite fs_exists_lookup. destruct (fs_lookup name fs); [discriminate|reflexivity].
Qed.

Lemma fs_open_read_Ok name fs content :
  fs_open_read name fs = Ok content -> fs_lookup name fs = Some (File content).
Proof.
  unfold fs_open_read. destruct (fs_lookup name fs) as [[c|es]|]; try discriminate.
  intros H. injection H as ->. reflexivity.
Qed.

(** ** Inverting the error monad *)

Lemma bind_Ok {A B} (r : result A) (k : A -> result B) y :
  bind r k = Ok y -> exists x, r = Ok x /\ k x = Ok y.
Proof. destruct r as [x|e]; simpl; [eauto|discriminate]. Qed.

Ltac inv_bind H :=
  let x := fresh "x" in
  let E := fresh "E" in
  apply bind_Ok in H; destruct H as [x [E H]].

(** ** [update_file] *)

Lemma decode_blocks_NoDup `{PyLib} items acc u :
  FileActionHandler.decode_blocks items acc = Ok u ->
  NoDup (dict_keys acc) -> NoDup (dict_keys u).
Proof.
  revert acc. induction items as [|[k v] items IH]; simpl; intros acc Hd Hn.
  - injection Hd as <-. exact Hn.
  - inv_bind Hd. inv_bind Hd. eapply IH; [exact Hd|].
    apply dict_set_NoDup, Hn.
Qed.

Lemma create_block_list_NoDup content size blocks :
  create_block_list content size = Ok blocks -> NoDup (dict_keys blocks).
Proof.
  unfold create_block_list. intros Hc. inv_bind Hc. injection Hc as <-.
  rewrite number_blocks_keys. apply indices_NoDup.
Qed.

(** C8, amended.  When overlaying the payload's blocks onto the blocks of
    the target file gives a well-formed block list for the payload's
    (positive) block size, a second [update_file] with the same payload
    answers as the first did and leaves the directory, hence the file's
    content, as the first left it. *)
Theorem update_file_twice_well_formed `{PyLib}
  (self : FileActionHandler.t) (recipe : pyval) (fs : fs_dir) :
  well_formed_update recipe fs = true ->
  FileActionHandler.update_file self recipe
    (snd (FileActionHandler.update_file self recipe fs)) =
  FileActionHandler.update_file self recipe fs.
Proof.
  unfold well_formed_update. intros Hwf.
  destruct (merged_blocks recipe fs) as [[n merged]|e] eqn:Hm; [|discriminate].
  apply andb_prop in Hwf. destruct Hwf as [Hn Hwf]. apply Z.ltb_lt in Hn.
  unfold merged_blocks in Hm.
  inv_bind Hm. rename x into filename, E into Efn.
  inv_bind Hm. rename x into block_size, E into Ebs.
  inv_bind Hm. rename x into blocks, E into Ebl.
  inv_bind Hm. rename x into items, E into Eit.
  inv_bind Hm. rename x into u, E into Eu.
  inv_bind Hm. rename x into name, E into Ename.
  inv_bind Hm. rename x into content, E into Eread.
  inv_bind Hm. rename x into size, E into Esize.
  inv_bind Hm. rename x into file_blocks, E into Efb.
  destruct size as [n'|]; [|discriminate].
  injection Hm as -> <-.
  pose proof (fs_open_read_Ok _ _ _ Eread) as Hlook.
  assert (Hex : fs_exists name fs = true).
  { rewrite fs_exists_lookup, Hlook. reflexivity. }
  assert (Hu : NoDup (dict_keys u)).
  { eapply decode_blocks_NoDup; [exact Eu|constructor]. }
  assert (Hfb : NoDup (dict_keys file_blocks)).
  { eapply create_block_list_NoDup, Efb. }
  set (written := create_file_from_blks (dict_merge Z.eqb file_blocks u)).
  assert (Hfirst :
    FileActionHandler.update_file self recipe fs =
    (Ok (status_message Action.UPDATED_FILE_ACTION
           ("Successfully updated " ++ name)%string),
     dict_set String.eqb name (File written) fs)).
  { unfold FileActionHandler.update_file, fs_bind, fs_lift, fs_query, fs_call, fs_ret.
    rewrite Efn, Ebs, Ebl, Eit, Eu, Ename, Hex. simpl.
    rewrite Eread, Esize, Efb. unfold fs_write. rewrite Hlook. reflexivity. }
  rewrite Hfirst. cbn [snd].
  destruct (create_block_list_well_formed n _ Hn Hwf) as [c [Ec [Nc Hc]]].
  fold written in Ec.
  unfold FileActionHandler.update_file, fs_bind, fs_lift, fs_query, fs_call, fs_ret.
  rewrite Efn, Ebs, Ebl, Eit, Eu, Ename.
  rewrite fs_exists_lookup, fs_lookup_set. simpl.
  unfold fs_open_read, fs_write. rewrite fs_lookup_set, Esize, Ec.
  rewrite fs_set_set.
  assert (Hw : create_file_from_blks (dict_merge Z.eqb c u) = written).
  { apply create_file_from_blks_ext.
    - apply dict_merge_NoDup, Nc.
    - apply dict_merge_NoDup, Hfb.
    - intros k. rewrite !dict_get_merge by exact Hu.
      destruct (dict_get Z.eqb k u) eqn:Ek; [reflexivity|].
      rewrite Hc, dict_get_merge by exact Hu. rewrite Ek. reflexivity. }
  rewrite Hw. reflexivity.
Qed.


Lemma update_file_twice_well_formed_witness :
  @well_formed_update reference_lib
    (update_example_payload "1" "eHg=") update_example_fs = true /\
  @FileActionHandler.update_file reference_lib example_handler
    (update_example_payload "1" "eHg=")
    (snd (@FileActionHandler.update_file reference_lib example_handler
            (update_example_payload "1" "eHg=") update_example_fs)) =
  @FileActionHandler.update_file reference_lib example_handler
    (update_example_payload "1" "eHg=") update_example_fs.
Proof.
  split; [vm_compute; reflexivity|].
  apply (@update_file_twice_well_formed reference_lib).
  vm_compute. reflexivity.
Defined.

(** C8 as stated fails.  The requester's file shrank to [aab]; the block
    diff sends block 1 = [b] (base64 [Yg==]).  Applied to [aabbcc] at block
    size 2 the payload gives [aabcc]; applied again it gives [aabc]. *)
Lemma update_file_twice_differs :
  let payload := update_example_payload "1" "Yg==" in
  let once :=
    snd (@FileActionHandler.update_file reference_lib example_handler
           payload update_example_fs) in
  let twice :=
    snd (@FileActionHandler.update_file reference_lib example_handler
           payload once) in
  once = [("f", File (b "aabcc"))] /\
  twice = [("f", File (b "aabc"))] /\
  twice <> once.
Proof.
  vm_compute. repeat split; try reflexivity. discriminate.
Qed.

(** ** The reconciler *)

Lemma file_entry_eqb_eq a c : file_entry_eqb a c = true <-> a = c.
Proof.
  destruct a as [n1 s1 h1], c as [n2 s2 h2]. unfold file_entry_eqb. simpl.
  rewrite !andb_true_iff, !String.eqb_eq, Z.eqb_eq.
  split; [intros [[-> ->] ->]; reflexivity|].
  intros H. injection H as -> -> ->. auto.
Qed.

Lemma entry_in_In e l : RequestDispatcher.entry_in e l = true <-> In e l.
Proof.
  unfold RequestDispatcher.entry_in. rewrite existsb_exists. split.
  - intros [x [Hx He]]. apply file_entry_eqb_eq in He. subst. exact Hx.
  - intros H. exists e. split; [exact H|]. apply file_entry_eqb_eq. reflexivity.
Qed.

Lemma entry_in_not_In e l : RequestDispatcher.entry_in e l = false <-> ~ In e l.
Proof.
  rewrite <- entry_in_In. destruct (RequestDispatcher.entry_in e l); split;
    congruence.
Qed.

Lemma name_in_In n l : RequestDispatcher.name_in n l = true <-> In n l.
Proof.
  unfold RequestDispatcher.name_in. rewrite existsb_exists. split.
  - intros [x [Hx He]]. apply String.eqb_eq in He. subst. exact Hx.
  - intros H. exists n. split; [exact H|]. apply String.eqb_refl.
Qed.

Lemma name_in_not_In n l : RequestDispatcher.name_in n l = false <-> ~ In n l.
Proof.
  rewrite <- name_in_In. destruct (RequestDispatcher.name_in n l); split;
    congruence.
Qed.

(** In a listing without repeated filenames a filename determines its row. *)
Lemma same_name_same_entry (l : list file_entry) a c :
  NoDup (file_names l) -> In a l -> In c l -> filename a = filename c -> a = c.
Proof.
  unfold file_names. induction l as [|x l IH]; simpl; intros Hn Ha Hc Hf.
  - contradiction.
  - inversion Hn as [|? ? Hx Hl]; subst.
    destruct Ha as [->|Ha], Hc as [->|Hc]; try reflexivity.
    + exfalso. apply Hx. rewrite Hf. apply in_map, Hc.
    + exfalso. apply Hx. rewrite <- Hf. apply in_map, Ha.
    + apply IH; assumption.
Qed.

Section Buckets.
Variables local remote : list file_entry.

Lemma in_same name :
  in_bucket local remote name Same <->
  exists e, In e local /\ In e remote /\ filename e = name.
Proof.
  unfold in_bucket, bucket_entries, RequestDispatcher.same_on_both.
  rewrite in_map_iff. split.
  - intros [e [Hf He]]. apply filter_In in He. destruct He as [Hr Hl].
    apply entry_in_In in Hl. eauto.
  - intros [e [Hl [Hr Hf]]]. exists e. split; [exact Hf|].
    apply filter_In. split; [exact Hr|]. apply entry_in_In, Hl.
Qed.

Lemma in_diff_on_local e :
  In e (RequestDispatcher.diff_on_local local remote) <->
  In e local /\ ~ In e remote.
Proof.
  unfold RequestDispatcher.diff_on_local. rewrite filter_In, negb_true_iff.
  rewrite entry_in_not_In. tauto.
Qed.

Lemma in_diff_on_remote e :
  In e (RequestDispatcher.diff_on_remote local remote) <->
  In e remote /\ ~ In e local.
Proof.
  unfold RequestDispatcher.diff_on_remote. rewrite filter_In, negb_true_iff.
  rewrite entry_in_not_In. tauto.
Qed.

Lemma in_diff_remote_file_names name :
  In name (RequestDispatcher.diff_remote_file_names local remote) <->
  exists r, In r remote /\ ~ In r local /\ filename r = name.
Proof.
  unfold RequestDispatcher.diff_remote_file_names. rewrite in_map_iff. split.
  - intros [r [Hf Hr]]. apply in_diff_on_remote in Hr. exists r. tauto.
  - intros [r [H1 [H2 Hf]]]. exists r. split; [exact Hf|].
    apply in_diff_on_remote. tauto.
Qed.

Lemma in_diff_local_file_name name :
  In name (RequestDispatcher.diff_local_file_name local remote) <->
  exists l, In l local /\ ~ In l remote /\ filename l = name.
Proof.
  unfold RequestDispatcher.diff_local_file_name. rewrite in_map_iff. split.
  - intros [l [Hf Hl]]. apply in_diff_on_local in Hl. exists l. tauto.
  - intros [l [H1 [H2 Hf]]]. exists l. split; [exact Hf|].
    apply in_diff_on_local. tauto.
Qed.

Hypothesis local_names_unique : NoDup (file_names local).
Hypothesis remote_names_unique : NoDup (file_names remote).

Lemma in_update name :
  in_bucket local remote name Update <->
  exists l r, In l local /\ In r remote /\
              filename l = name /\ filename r = name /\ l <> r.
Proof.
  unfold in_bucket, bucket_entries, RequestDispatcher.on_both_different.
  rewrite in_map_iff. split.
  - intros [l [Hf Hl]]. apply filter_In in Hl. destruct Hl as [Hl Hn].
    apply in_diff_on_local in Hl. destruct Hl as [Hl Hnr].
    apply name_in_In, in_diff_remote_file_names in Hn.
    destruct Hn as [r [Hr [Hnl Hfr]]].
    exists l, r. repeat split; try assumption; try congruence.
  - intros [l [r [Hl [Hr [Hfl [Hfr Hne]]]]]].
    exists l. split; [exact Hfl|]. apply filter_In. split.
    + apply in_diff_on_local. split; [exact Hl|]. intros Hlr.
      apply Hne. apply (same_name_same_entry remote); try assumption. congruence.
    + apply name_in_In, in_diff_remote_file_names.
      exists r. repeat split; try assumption; try congruence.
      intros Hrl. apply Hne.
      apply (same_name_same_entry local); try assumption. congruence.
Qed.

Lemma in_delete_remote name :
  in_bucket local remote name DeleteRemote <->
  In name (file_names remote) /\ ~ In name (file_names local).
Proof.
  unfold in_bucket, bucket_entries, RequestDispatcher.on_remote_only, file_names.
  rewrite !in_map_iff. split.
  - intros [r [Hf Hr]]. apply filter_In in Hr. destruct Hr as [Hr Hn].
    apply in_diff_on_remote in Hr. destruct Hr as [Hr Hnl].
    apply negb_true_iff, name_in_not_In in Hn.
    rewrite in_diff_local_file_name in Hn.
    split; [eauto|]. intros [l [Hfl Hl]]. apply Hn.
    exists l. repeat split; try assumption; try congruence.
    intros Hlr. apply Hnl.
    replace r with l; [exact Hl|].
    apply (same_name_same_entry remote); try assumption. congruence.
  - intros [[r [Hf Hr]] Hnl]. exists r. split; [exact Hf|].
    apply filter_In. split.
    + apply in_diff_on_remote. split; [exact Hr|]. intros Hrl.
      apply Hnl. exists r. auto.
    + apply negb_true_iff, name_in_not_In.
      rewrite in_diff_local_file_name. intros [l [Hl [_ Hfl]]].
      apply Hnl. exists l. split; [congruence|exact Hl].
Qed.

Lemma in_upload name :
  in_bucket local remote name Upload <->
  In name (file_names local) /\ ~ In name (file_names remote).
Proof.
  unfold in_bucket, bucket_entries, RequestDispatcher.on_local_only, file_names.
  rewrite !in_map_iff. split.
  - intros [l [Hf Hl]]. apply filter_In in Hl. destruct Hl as [Hl Hn].
    apply in_diff_on_local in Hl. destruct Hl as [Hl Hnr].
    apply negb_true_iff, name_in_not_In in Hn.
    rewrite in_diff_remote_file_names in Hn.
    split; [eauto|]. intros [r [Hfr Hr]]. apply Hn.
    exists r. repeat split; try assumption; try congruence.
    intros Hrl. apply Hnr.
    replace l with r; [exact Hr|].
    apply (same_name_same_entry local); try assumption. congruence.
  - intros [[l [Hf Hl]] Hnr]. exists l. split; [exact Hf|].
    apply filter_In. split.
    + apply in_diff_on_local. split; [exact Hl|]. intros Hlr.
      apply Hnr. exists l. auto.
    + apply negb_true_iff, name_in_not_In.
      rewrite in_diff_remote_file_names. intros [r [Hr [_ Hfr]]].
      apply Hnr. exists r. split; [congruence|exact Hr].
Qed.

End Buckets.

Lemma file_entry_eq_dec (a c : file_entry) : {a = c} + {a <> c}.
Proof.
  destruct (file_entry_eqb a c) eqn:E.
  - left. apply file_entry_eqb_eq, E.
  - right. intros H. apply file_entry_eqb_eq in H. congruence.
Qed.

(** C4, amended.  For listings in which no filename is repeated, every
    filename of either listing falls into exactly one of the four
    buckets: same when one identical row is on both sides, update when
    the rows of the two sides differ, delete-remote when only the remote
    side has the name, upload when only the local side has it. *)
Theorem reconciler_partition (local_dir_listing remote_file_info : list file_entry) :
  NoDup (file_names local_dir_listing) ->
  NoDup (file_names remote_file_info) ->
  forall name,
    In name (file_names local_dir_listing ++ file_names remote_file_info) ->
    (exists c, in_bucket local_dir_listing remote_file_info name c /\
               forall c', in_bucket local_dir_listing remote_file_info name c' ->
                          c' = c) /\
    (in_bucket local_dir_listing remote_file_info name Same <->
     exists e, In e local_dir_listing /\ In e remote_file_info /\
               filename e = name) /\
    (in_bucket local_dir_listing remote_file_info name Update <->
     exists l r, In l local_dir_listing /\ In r remote_file_info /\
                 filename l = name /\ filename r = name /\ l <> r) /\
    (in_bucket local_dir_listing remote_file_info name DeleteRemote <->
     In name (file_names remote_file_info) /\
     ~ In name (file_names local_dir_listing)) /\
    (in_bucket local_dir_listing remote_file_info name Upload <->
     In name (file_names local_dir_listing) /\
     ~ In name (file_names remote_file_info)).
Proof.
  intros Nl Nr name Hin.
  pose proof (in_same local_dir_listing remote_file_info name) as HS.
  pose proof (in_update local_dir_listing remote_file_info Nl Nr name) as HU.
  pose proof (in_delete_remote local_dir_listing remote_file_info Nr name) as HD.
  pose proof (in_upload local_dir_listing remote_file_info Nl name) as HP.
  split; [|tauto].
  destruct (in_dec string_dec name (file_names local_dir_listing)) as [Hl|Hl];
  destruct (in_dec string_dec name (file_names remote_file_info)) as [Hr|Hr].
  - pose proof Hl as Hl'. pose proof Hr as Hr'.
    unfold file_names in Hl', Hr'. apply in_map_iff in Hl', Hr'.
    destruct Hl' as [l [Hfl Hil]]. destruct Hr' as [r [Hfr Hir]].
    assert (Huniq : forall l' r', In l' local_dir_listing ->
                                  In r' remote_file_info ->
                                  filename l' = name -> filename r' = name ->
                                  l' = l /\ r' = r).
    { intros l' r' H1 H2 H3 H4. split.
      - apply (same_name_same_entry local_dir_listing); try assumption. congruence.
      - apply (same_name_same_entry remote_file_info); try assumption. congruence. }
    destruct (file_entry_eq_dec l r) as [Heq|Hne].
    + exists Same. split.
      * apply HS. exists l. subst r. auto.
      * intros [| | |] Hc; try reflexivity; exfalso.
        -- apply HU in Hc. destruct Hc as [l' [r' [H1 [H2 [H3 [H4 H5]]]]]].
           destruct (Huniq l' r' H1 H2 H3 H4). congruence.
        -- apply HD in Hc. tauto.
        -- apply HP in Hc. tauto.
    + exists Update. split.
      * apply HU. exists l, r. auto.
      * intros [| | |] Hc; try reflexivity; exfalso.
        -- apply HS in Hc. destruct Hc as [e [H1 [H2 H3]]].
           destruct (Huniq e e H1 H2 H3 H3). congruence.
        -- apply HD in Hc. tauto.
        -- apply HP in Hc. tauto.
  - exists Upload. split; [apply HP; tauto|].
    intros [| | |] Hc; try reflexivity; exfalso.
    + apply HS in Hc. destruct Hc as [e [H1 [H2 H3]]].
      apply Hr. unfold file_names. rewrite <- H3. apply in_map, H2.
    + apply HU in Hc. destruct Hc as [l' [r' [H1 [H2 [H3 [H4 H5]]]]]].
      apply Hr. unfold file_names. rewrite <- H4. apply in_map, H2.
    + apply HD in Hc. tauto.
  - exists DeleteRemote. split; [apply HD; tauto|].
    intros [| | |] Hc; try reflexivity; exfalso.
    + apply HS in Hc. destruct Hc as [e [H1 [H2 H3]]].
      apply Hl. unfold file_names. rewrite <- H3. apply in_map, H1.
    + apply HU in Hc. destruct Hc as [l' [r' [H1 [H2 [H3 [H4 H5]]]]]].
      apply Hl. unfold file_names. rewrite <- H3. apply in_map, H1.
    + apply HP in Hc. tauto.
  - exfalso. apply in_app_or in Hin. tauto.
Qed.


(** The scenario of the specification: [x.txt] differs, [y.txt] is on the
    remote side only. *)
Lemma reconciler_partition_witness :
  let local_dir_listing := [row "x.txt" 3 "hashA"] in
  let remote_file_info := [row "x.txt" 3 "hashB"; row "y.txt" 5 "hashC"] in
  NoDup (file_names local_dir_listing) /\
  NoDup (file_names remote_file_info) /\
  In "x.txt" (file_names local_dir_listing ++ file_names remote_file_info) /\
  in_bucket local_dir_listing remote_file_info "x.txt" Update /\
  in_bucket local_dir_listing remote_file_info "y.txt" DeleteRemote.
Proof.
  cbv zeta.
  assert (Nl : NoDup (file_names [row "x.txt" 3 "hashA"])).
  { repeat constructor. simpl. tauto. }
  assert (Nr : NoDup (file_names [row "x.txt" 3 "hashB"; row "y.txt" 5 "hashC"])).
  { repeat constructor; simpl; intuition discriminate. }
  assert (Hx : In "x.txt" (file_names [row "x.txt" 3 "hashA"] ++
                           file_names [row "x.txt" 3 "hashB"; row "y.txt" 5 "hashC"])).
  { simpl. tauto. }
  assert (Hy : In "y.txt" (file_names [row "x.txt" 3 "hashA"] ++
                           file_names [row "x.txt" 3 "hashB"; row "y.txt" 5 "hashC"])).
  { simpl. tauto. }
  split; [exact Nl|]. split; [exact Nr|]. split; [exact Hx|]. split.
  - destruct (reconciler_partition _ _ Nl Nr "x.txt" Hx) as [_ [_ [HU _]]].
    apply HU.
    exists (row "x.txt" 3 "hashA"), (row "x.txt" 3 "hashB").
    simpl. repeat split; try tauto. discriminate.
  - destruct (reconciler_partition _ _ Nl Nr "y.txt" Hy) as [_ [_ [_ [HD _]]]].
    apply HD.
    simpl. split; [tauto|]. intuition discriminate.
Defined.

(** C4 as stated fails when a listing repeats a filename (a recursive
    enumeration reports [a.txt] and [sub/a.txt] under the same name): the
    filename is both same and delete-remote, and although its rows differ
    it is not update. *)
Lemma reconciler_partition_repeated_name :
  let local_dir_listing := [row "a.txt" 1 "h1"] in
  let remote_file_info := [row "a.txt" 1 "h1"; row "a.txt" 2 "h2"] in
  In "a.txt" (file_names local_dir_listing ++ file_names remote_file_info) /\
  in_bucket local_dir_listing remote_file_info "a.txt" Same /\
  in_bucket local_dir_listing remote_file_info "a.txt" DeleteRemote /\
  ~ in_bucket local_dir_listing remote_file_info "a.txt" Update.
Proof.
  cbv zeta. unfold in_bucket. vm_compute. intuition.
Qed.

(** ** [handle_request] *)

Section HandleRequest.
Context `{PyLib}.
Variable self : FileActionHandler.t.

Ltac run_handler :=
  unfold FileActionHandler.handle_request, fs_bind, fs_lift, fs_query,
    fs_call, fs_ret.



(** C9. A request whose action code is none of [1 .. 6] makes
    [handle_request] raise ([dict(action, message)] is a [TypeError]); no
    response is returned and the directory is untouched. *)
Theorem unknown_action_raises request action fs :
  (a <- py_get request "action" ;; py_int a) = Ok action ->
  ~ (1 <= action <= 6) ->
  FileActionHandler.handle_request self request fs = (Raise TypeError, fs).
Proof.
  intros Ha Hrange. run_handler. rewrite Ha. cbv beta iota.
  unfold Action.ENUMERATE_REMOTE_DIR_ACTION, Action.NEW_FILE_ACTION,
    Action.MOVED_FILE_ACTION, Action.DELETED_FILE_ACTION,
    Action.FILE_RECIPE_ACTION, Action.UPDATED_FILE_ACTION.
  repeat match goal with
         | |- context [?x =? ?y] => destruct (Z.eqb_spec x y); [lia|]
         end.
  reflexivity.
Qed.




(** ** [move_file] *)

Lemma move_file_request_run request data src dst fs :
  (a <- py_get request "action" ;; py_int a) = Ok Action.MOVED_FILE_ACTION ->
  py_get request "data" = Ok data ->
  py_get data "source_filename" = Ok src ->
  py_get data "destination_filename" = Ok dst ->
  FileActionHandler.handle_request self request fs =
  fs_bind (FileActionHandler.move_file self src dst)
          (fun result => fs_ret (PDict [(KStr "response", result)])) fs.
Proof.
  intros Ha Hd Hs Ht. run_handler. rewrite Ha. simpl.
  rewrite Hd, Hs, Ht. reflexivity.
Qed.

(** A missing source is reported with a status message; nothing changes. *)
Lemma move_file_source_missing src dst fs :
  fs_exists src fs = false ->
  exists msg,
    FileActionHandler.move_file self (PStr src) (PStr dst) fs =
    (Ok (status_message Action.MOVED_FILE_ACTION msg), fs).
Proof.
  intros Hs. unfold FileActionHandler.move_file, fs_bind, fs_lift, fs_query,
    fs_call, fs_ret. simpl. rewrite Hs. simpl. eauto.
Qed.

(** An existing destination is answered with [False]; nothing changes. *)
Lemma move_file_destination_exists src dst fs :
  fs_exists src fs = true ->
  fs_exists dst fs = true ->
  FileActionHandler.move_file self (PStr src) (PStr dst) fs =
  (Ok (PBool false), fs).
Proof.
  intros Hs Hd. unfold FileActionHandler.move_file, fs_bind, fs_lift, fs_query,
    fs_call, fs_ret. simpl. rewrite Hs. simpl. rewrite Hd. reflexivity.
Qed.

End HandleRequest.

(** ** Wire framing *)

Lemma Z_of_byte_of_Z z : 0 <= z <= 255 -> Z_of_byte (byte_of_Z z) = z.
Proof.
  intros Hz. unfold Z_of_byte, byte_of_Z.
  destruct (Byte.of_N (Z.to_N z)) as [x|] eqn:E.
  - apply Byte.to_of_N in E. rewrite E. lia.
  - apply Byte.of_N_None_iff in E. lia.
Qed.

Lemma struct_unpack_pack n :
  0 <= n <= 65535 ->
  exists hi lo, struct_pack_H n = Ok [hi; lo] /\ struct_unpack_H [hi; lo] = Ok n.
Proof.
  intros Hn. unfold struct_pack_H.
  destruct (Z.leb_spec 0 n); [|lia]. destruct (Z.leb_spec n 65535); [|lia].
  simpl. do 2 eexists. split; [reflexivity|].
  unfold struct_unpack_H.
  assert (H1 : 0 <= n / 256 <= 255).
  { split; [apply Z.div_pos; lia|].
    assert (n / 256 < 256) by (apply Z.div_lt_upper_bound; lia). lia. }
  assert (H2 : 0 <= n mod 256 <= 255).
  { pose proof (Z.mod_pos_bound n 256). lia. }
  rewrite !Z_of_byte_of_Z by assumption.
  f_equal. pose proof (Z.div_mod n 256). lia.
Qed.

Lemma len_nonneg x : 0 <= len x.
Proof. unfold len. lia. Qed.

Lemma len_app x y : len (x ++ y) = len x + len y.
Proof. unfold len. rewrite length_app. lia. Qed.

Lemma slice_to_app x y : slice_to (len x) (x ++ y) = x.
Proof.
  unfold slice_to. pose proof (len_nonneg x).
  destruct (Z.ltb_spec (len x) 0); [lia|].
  unfold len. rewrite Nat2Z.id, firstn_app, Nat.sub_diag, firstn_all.
  simpl. apply app_nil_r.
Qed.

Lemma slice_from_app x y : slice_from (len x) (x ++ y) = y.
Proof.
  unfold slice_from. pose proof (len_nonneg x).
  destruct (Z.ltb_spec (len x) 0); [lia|].
  unfold len. rewrite Nat2Z.id, skipn_app, Nat.sub_diag, skipn_all.
  reflexivity.
Qed.

Lemma check_required_header_of `{PyLib} content_bytes content_encoding :
  AbstractMessage.check_required (header_of content_bytes content_encoding)
    AbstractMessage.required_headers = Ok tt.
Proof. reflexivity. Qed.

Lemma process_preheader_frame (m : AbstractMessage.t) hi lo rest n :
  AbstractMessage.receive_buffer m = [hi; lo] ++ rest ->
  struct_unpack_H [hi; lo] = Ok n ->
  AbstractMessage.process_preheader m =
  Ok (AbstractMessage.set_receive_buffer rest
        (AbstractMessage.set_header_length (Some n) m)).
Proof.
  intros Hb Hu. unfold AbstractMessage.process_preheader. rewrite Hb.
  replace (len ([hi; lo] ++ rest) >=? 2) with true.
  - change 2 with (len [hi; lo]).
    rewrite slice_to_app, slice_from_app, Hu. reflexivity.
  - symmetry. apply Z.geb_le. rewrite len_app.
    pose proof (len_nonneg rest). change (len [hi; lo]) with 2. lia.
Qed.

Lemma process_header_frame `{PyLib} (m : AbstractMessage.t) header_bytes rest hdr :
  AbstractMessage.header_length m = Some (len header_bytes) ->
  AbstractMessage.receive_buffer m = header_bytes ++ rest ->
  decode_json header_bytes "utf-8" = Ok hdr ->
  AbstractMessage.check_required hdr AbstractMessage.required_headers = Ok tt ->
  AbstractMessage.process_header m =
  Ok (AbstractMessage.set_receive_buffer rest
        (AbstractMessage.set_header (Some hdr) m)).
Proof.
  intros Hl Hb Hd Hc. unfold AbstractMessage.process_header. rewrite Hl, Hb.
  replace (len (header_bytes ++ rest) >=? len header_bytes) with true.
  - rewrite slice_to_app, slice_from_app, Hd. cbn [bind]. rewrite Hc. reflexivity.
  - symmetry. apply Z.geb_le. rewrite len_app. pose proof (len_nonneg rest). lia.
Qed.

Lemma take_content_frame `{PyLib} (m : AbstractMessage.t) hdr content rest enc :
  AbstractMessage.header m = Some hdr ->
  py_index hdr "content-length" = Ok (PInt (len content)) ->
  py_index hdr "content-encoding" = Ok (PStr enc) ->
  AbstractMessage.receive_buffer m = content ++ rest ->
  AbstractMessage.take_content m =
  (c <- decode_json content enc ;;
   Ok (Some (c, AbstractMessage.set_receive_buffer rest m))).
Proof.
  intros Hh Hl He Hb. unfold AbstractMessage.take_content.
  rewrite Hh, Hl, He, Hb. cbn [bind py_length_bound int_view py_encoding_name].
  replace (len (content ++ rest) >=? len content) with true.
  - cbn [negb]. rewrite slice_to_app, slice_from_app. reflexivity.
  - symmetry. apply Z.geb_le. rewrite len_app. pose proof (len_nonneg rest). lia.
Qed.


(** Whatever [json] implementation is linked in: if it reads the header
    back as it was written and the header fits in 65535 bytes,
    [create_message] succeeds and the two-stage decode recovers the
    header and cuts off exactly the payload. *)
Lemma frame_round_trip_of_codec `{PyLib}
  (content_bytes : bytes) (content_encoding : string) (header_bytes : bytes) :
  encode_json (header_of content_bytes content_encoding) "utf-8" = Ok header_bytes ->
  decode_json header_bytes "utf-8" = Ok (header_of content_bytes content_encoding) ->
  len header_bytes <= 65535 ->
  exists message,
    create_message content_bytes content_encoding = Ok message /\
    AbstractMessage.read {| recv := Some message; sent := None |}
      (AbstractMessage.init EVENT_READ) =
    Ok (header_parsed content_bytes content_encoding header_bytes) /\
    AbstractMessage.take_content
      (header_parsed content_bytes content_encoding header_bytes) =
    (content <- decode_json content_bytes content_encoding ;;
     Ok (Some (content,
               AbstractMessage.set_receive_buffer []
                 (header_parsed content_bytes content_encoding header_bytes)))).
Proof.
  intros Henc Hdec Hlen.
  destruct (struct_unpack_pack (len header_bytes)) as [hi [lo [Hpack Hunpack]]].
  { pose proof (len_nonneg header_bytes). lia. }
  exists ([hi; lo] ++ header_bytes ++ content_bytes). split; [|split].
  - unfold create_message. rewrite Henc. simpl. rewrite Hpack. reflexivity.
  - unfold AbstractMessage.read.
    change (AbstractMessage._read
              {| recv := Some ([hi; lo] ++ header_bytes ++ content_bytes);
                 sent := None |} (AbstractMessage.init EVENT_READ))
      with (Ok (AbstractMessage.set_receive_buffer
                  ([hi; lo] ++ header_bytes ++ content_bytes)
                  (AbstractMessage.init EVENT_READ))).
    cbn [bind]. cbn [AbstractMessage.header_length
                     AbstractMessage.set_receive_buffer AbstractMessage.init].
    erewrite process_preheader_frame; [|reflexivity|exact Hunpack].
    cbn [bind]. cbn [AbstractMessage.header_length AbstractMessage.header
                     AbstractMessage.set_receive_buffer
                     AbstractMessage.set_header_length AbstractMessage.init].
    erewrite process_header_frame;
      [reflexivity|reflexivity|reflexivity|exact Hdec|
       apply check_required_header_of].
  - apply (take_content_frame _ (header_of content_bytes content_encoding));
      try reflexivity.
    unfold header_parsed. cbn [AbstractMessage.receive_buffer].
    symmetry. apply app_nil_r.
Qed.

(** ** The reference [json] codec on frame headers *)

Lemma scan_escape_char c tail acc :
  Reference.scan_string (Reference.escape_char c ++ tail) acc =
  Reference.scan_string tail (c :: acc).
Proof.
  destruct c as [[|] [|] [|] [|] [|] [|] [|] [|]]; reflexivity.
Qed.

Lemma scan_quoted chars tail acc :
  Reference.scan_string
    (flat_map Reference.escape_char chars ++ Reference.dquote :: tail) acc =
  Some (string_of_list_ascii (rev acc ++ chars), tail).
Proof.
  revert acc. induction chars as [|c chars IH]; intros acc.
  - simpl. rewrite app_nil_r. reflexivity.
  - cbn [flat_map]. rewrite <- app_assoc, scan_escape_char, IH.
    cbn [rev]. rewrite <- app_assoc. reflexivity.
Qed.

Lemma string_of_uint_digits d :
  list_ascii_of_string (NilEmpty.string_of_uint d) = uint_digits d.
Proof. induction d; simpl; congruence. Qed.

Lemma span_uint_digits d tail :
  match tail with
  | c :: _ => Reference.is_digit c = false
  | [] => True
  end ->
  Reference.span_digits (uint_digits d ++ tail) = (uint_digits d, tail).
Proof.
  intros Ht. induction d; cbn [uint_digits app Reference.span_digits];
    try (rewrite IHd; reflexivity).
  destruct tail as [|c tail]; [reflexivity|].
  cbn [Reference.span_digits]. rewrite Ht. reflexivity.
Qed.

Ltac step_digit IH :=
  match goal with
  | |- Reference.digits_value (?c :: ?s) ?acc _ = Some (Z.pos ?r) =>
      let k := eval vm_compute in (Z.of_nat (Reference.ord c - 48)) in
      change (Reference.digits_value s (10 * acc + k) true = Some (Z.pos r));
      match r with
      | Pos.of_uint_acc _ ?a' =>
          replace (10 * acc + k) with (Z.pos a') by lia
      end;
      apply IH
  end.

Lemma digits_value_acc d a :
  Reference.digits_value (uint_digits d) (Z.pos a) true =
  Some (Z.pos (Pos.of_uint_acc d a)).
Proof.
  revert a. induction d; intros a; cbn [uint_digits Pos.of_uint_acc];
    [reflexivity|step_digit IHd..].
Qed.

Lemma forallb_is_digit d : forallb Reference.is_digit (uint_digits d) = true.
Proof. induction d; simpl; auto. Qed.

Lemma to_uint_no_leading_zero p d : Pos.to_uint p <> Decimal.D0 d.
Proof.
  intros E.
  pose proof (DecimalPos.Unsigned.to_of (Pos.to_uint p)) as Hu.
  rewrite DecimalPos.Unsigned.of_to in Hu. cbn [N.to_uint] in Hu.
  unfold Decimal.unorm in Hu.
  destruct (Decimal.nzhead (Pos.to_uint p)) eqn:En;
    try (rewrite E in Hu; discriminate).
  - rewrite E in Hu. injection Hu as ->.
    exact (Unsigned.to_uint_nonzero p E).
  - exact (nzhead_nonzero _ _ En).
Qed.

(** A decimal numeral without a leading zero is read back as its value. *)
Lemma digits_value_to_uint p :
  Reference.digits_value (uint_digits (Pos.to_uint p)) 0 false = Some (Z.pos p).
Proof.
  pose proof (DecimalPos.Unsigned.of_to p) as Hv.
  pose proof (Unsigned.to_uint_nonnil p) as Hn.
  pose proof (to_uint_no_leading_zero p) as Hz.
  destruct (Pos.to_uint p) as [|d|d|d|d|d|d|d|d|d|d];
    [congruence|exfalso; exact (Hz d eq_refl)|..];
    cbn [Pos.of_uint] in Hv; injection Hv as <-; cbn [uint_digits];
    match goal with
    | |- Reference.digits_value (?c :: ?s) 0 false = Some (Z.pos (Pos.of_uint_acc _ ?k)) =>
        change (Reference.digits_value s (Z.pos k) true =
                Some (Z.pos (Pos.of_uint_acc d k)))
    end; apply digits_value_acc.
Qed.

Lemma scan_int_str_of_Z z tail :
  0 <= z ->
  Reference.scan_int
    (list_ascii_of_string (Reference.str_of_Z z) ++ Reference.chr 125 :: tail) =
  Some (z, Reference.chr 125 :: tail).
Proof.
  intros Hz. destruct z as [|p|p]; [reflexivity| |lia].
  unfold Reference.str_of_Z. cbn [Z.to_int NilZero.string_of_int].
  pose proof (Unsigned.to_uint_nonnil p) as Hn.
  pose proof (to_uint_no_leading_zero p) as Hlz.
  pose proof (digits_value_to_uint p) as Hv.
  assert (Hs : NilZero.string_of_uint (Pos.to_uint p) =
               NilEmpty.string_of_uint (Pos.to_uint p)).
  { destruct (Pos.to_uint p); [congruence|reflexivity..]. }
  rewrite Hs, string_of_uint_digits.
  unfold Reference.scan_int.
  destruct (Pos.to_uint p) as [|d|d|d|d|d|d|d|d|d|d];
    [congruence|exfalso; exact (Hlz d eq_refl)|..];
    cbn [uint_digits app]; cbv beta iota;
    match goal with
    | |- context [(Reference.ord ?c =? 45)%nat] =>
        let v := eval vm_compute in (Reference.ord c =? 45)%nat in
        change (Reference.ord c =? 45)%nat with v
    end;
    cbv beta iota; cbn [fst snd];
    match goal with
    | |- context [Reference.span_digits (?c :: uint_digits d ++ ?t)] =>
        change (Reference.span_digits (c :: uint_digits d ++ t)) with
          (c :: fst (Reference.span_digits (uint_digits d ++ t)),
           snd (Reference.span_digits (uint_digits d ++ t)));
        rewrite (span_uint_digits d t) by reflexivity
    end;
    cbn [fst snd uint_digits] in *; rewrite Hv; reflexivity.
Qed.

Lemma skip_ws_quote s tail :
  Reference.skip_ws (Reference.quote s ++ tail) = Reference.quote s ++ tail.
Proof. reflexivity. Qed.

Lemma parse_value_space fuel s :
  Reference.parse_value fuel (Reference.chr 32 :: s) = Reference.parse_value fuel s.
Proof. destruct fuel; reflexivity. Qed.

Lemma parse_members_space fuel s acc :
  Reference.parse_members fuel (Reference.chr 32 :: s) acc =
  Reference.parse_members fuel s acc.
Proof. destruct fuel; reflexivity. Qed.

Lemma scan_quote s tail :
  Reference.scan_string
    (flat_map Reference.escape_char (list_ascii_of_string s) ++
     [Reference.dquote] ++ tail) [] = Some (s, tail).
Proof.
  cbn [app]. rewrite scan_quoted. cbn [rev app].
  rewrite string_of_list_ascii_of_string. reflexivity.
Qed.

(** A string value. *)
Lemma parse_value_quote fuel s tail :
  Reference.parse_value (S fuel) (Reference.quote s ++ tail) = Some (PStr s, tail).
Proof.
  unfold Reference.quote. cbn [app Reference.parse_value Reference.skip_ws].
  change (Reference.is_json_space Reference.dquote) with false. cbv beta iota.
  change (Reference.ord Reference.dquote) with 34%nat. cbn [Nat.eqb].
  rewrite <- app_assoc, scan_quote. reflexivity.
Qed.

Lemma str_of_Z_digits z :
  0 <= z ->
  exists c rest,
    list_ascii_of_string (Reference.str_of_Z z) = c :: rest /\
    Reference.is_digit c = true.
Proof.
  intros Hz. destruct z as [|p|p]; [exists "0"%char, []; split; reflexivity| |lia].
  unfold Reference.str_of_Z. cbn [Z.to_int NilZero.string_of_int].
  pose proof (Unsigned.to_uint_nonnil p) as Hn.
  assert (Hs : NilZero.string_of_uint (Pos.to_uint p) =
               NilEmpty.string_of_uint (Pos.to_uint p)).
  { destruct (Pos.to_uint p); [congruence|reflexivity..]. }
  rewrite Hs, string_of_uint_digits.
  destruct (Pos.to_uint p); [congruence|..]; cbn [uint_digits];
    eexists _, _; split; reflexivity.
Qed.

(** A non-negative integer value before the closing brace. *)
Lemma parse_value_int fuel z tail :
  0 <= z ->
  Reference.parse_value (S fuel)
    (list_ascii_of_string (Reference.str_of_Z z) ++ Reference.chr 125 :: tail) =
  Some (PInt z, Reference.chr 125 :: tail).
Proof.
  intros Hz. pose proof (scan_int_str_of_Z z tail Hz) as Hscan.
  destruct (str_of_Z_digits z Hz) as [c [rest [Hd Hc]]].
  rewrite Hd in *. cbn [app] in *.
  unfold Reference.is_digit in Hc. apply andb_prop in Hc. destruct Hc as [H1 H2].
  apply Nat.leb_le in H1, H2.
  cbn [Reference.parse_value Reference.skip_ws].
  unfold Reference.is_json_space.
  repeat match goal with
         | |- context [(Reference.ord c =? ?k)%nat] =>
             destruct (Nat.eqb_spec (Reference.ord c) k); [lia|]
         end.
  cbn [orb]. cbv beta iota.
  repeat match goal with
         | |- context [(Reference.ord c =? ?k)%nat] =>
             destruct (Nat.eqb_spec (Reference.ord c) k); [lia|]
         end.
  rewrite Hscan. reflexivity.
Qed.

(** One member of an object: its key, the separator, and whatever value
    [parse_value] reads next. *)
Lemma parse_member fuel key text acc v rest :
  Reference.parse_value fuel text = Some (v, rest) ->
  Reference.parse_members (S fuel)
    (Reference.quote key ++ Reference.key_separator ++ text) acc =
  match Reference.skip_ws rest with
  | c :: r3 =>
      if (Reference.ord c =? 44)%nat then
        Reference.parse_members fuel r3 (dict_set pykey_eqb (KStr key) v acc)
      else if (Reference.ord c =? 125)%nat then
        Some (PDict (dict_set pykey_eqb (KStr key) v acc), r3)
      else None
  | [] => None
  end.
Proof.
  intros Hv. unfold Reference.quote.
  cbn [app Reference.parse_members Reference.skip_ws].
  change (Reference.is_json_space Reference.dquote) with false. cbv beta iota.
  change (Reference.ord Reference.dquote) with 34%nat. cbn [Nat.eqb].
  rewrite <- app_assoc, scan_quote.
  change (Reference.key_separator ++ text) with
    (Reference.chr 58 :: Reference.chr 32 :: text).
  change (Reference.skip_ws (Reference.chr 58 :: Reference.chr 32 :: text)) with
    (Reference.chr 58 :: Reference.chr 32 :: text).
  cbv beta iota.
  change (Reference.ord (Reference.chr 58) =? 58)%nat with true. cbv beta iota.
  rewrite parse_value_space, Hv. reflexivity.
Qed.

(** The text [json.dumps] writes for a frame header. *)
Lemma dumps_header_of content_bytes content_encoding :
  Reference.dumps (@header_of reference_lib content_bytes content_encoding) =
  Reference.chr 123 ::
  Reference.quote "byteorder" ++ Reference.key_separator ++
  Reference.quote "little" ++ Reference.item_separator ++
  Reference.quote "content-encoding" ++ Reference.key_separator ++
  Reference.quote content_encoding ++ Reference.item_separator ++
  Reference.quote "content-length" ++ Reference.key_separator ++
  list_ascii_of_string (Reference.str_of_Z (len content_bytes)) ++
  [Reference.chr 125].
Proof.
  unfold header_of.
  cbn [Reference.dumps map Reference.join Reference.key_text sys_byteorder
       reference_lib].
  f_equal. repeat rewrite <- app_assoc. reflexivity.
Qed.

(** The reference parser reads a frame header back, given fuel for the
    object, its members and their values. *)
Lemma parse_header_of fuel content_bytes content_encoding :
  Reference.parse_value (S (S (S (S (S fuel)))))
    (Reference.dumps (@header_of reference_lib content_bytes content_encoding)) =
  Some (@header_of reference_lib content_bytes content_encoding, []).
Proof.
  rewrite dumps_header_of.
  remember (S (S (S (S fuel)))) as f1 eqn:Ef1.
  cbn [Reference.parse_value Reference.skip_ws].
  change (Reference.is_json_space (Reference.chr 123)) with false. cbv beta iota.
  change (Reference.ord (Reference.chr 123)) with 123%nat.
  cbn [Nat.eqb]. rewrite skip_ws_quote.
  unfold Reference.quote at 1. cbn [app].
  change (Reference.ord Reference.dquote =? 125)%nat with false. cbv beta iota.
  change (Reference.dquote ::
          flat_map Reference.escape_char (list_ascii_of_string "byteorder") ++
          [Reference.dquote] ++ ?x) with (Reference.quote "byteorder" ++ x).
  subst f1.
  erewrite parse_member; [|apply parse_value_quote].
  change (Reference.skip_ws (Reference.item_separator ++ ?x)) with
    (Reference.chr 44 :: Reference.chr 32 :: x).
  cbv beta iota.
  change (Reference.ord (Reference.chr 44) =? 44)%nat with true. cbv beta iota.
  rewrite parse_members_space.
  erewrite parse_member; [|apply parse_value_quote].
  cbv beta iota.
  change (Reference.skip_ws (Reference.item_separator ++ ?x)) with
    (Reference.chr 44 :: Reference.chr 32 :: x).
  cbv beta iota.
  change (Reference.ord (Reference.chr 44) =? 44)%nat with true. cbv beta iota.
  rewrite parse_members_space.
  erewrite parse_member;
    [|apply parse_value_int, len_nonneg].
  reflexivity.
Qed.

(** The reference [json] codec reads every frame header back as it wrote
    it. *)
Lemma reference_header_round_trip content_bytes content_encoding :
  exists header_bytes,
    @encode_json reference_lib
      (@header_of reference_lib content_bytes content_encoding) "utf-8" =
    Ok header_bytes /\
    @decode_json reference_lib header_bytes "utf-8" =
    Ok (@header_of reference_lib content_bytes content_encoding).
Proof.
  eexists. split; [reflexivity|].
  unfold decode_json. cbn [json_load reference_lib].
  unfold Reference.json_load.
  change (Reference.is_utf8_name "utf-8") with true. cbv beta iota zeta.
  unfold Reference.str_of_bytes, Reference.bytes_of_str.
  rewrite string_of_list_byte_of_string, list_ascii_of_string_of_list_ascii.
  assert (Hfuel : exists fuel,
             length (Reference.dumps
                       (@header_of reference_lib content_bytes content_encoding)) =
             S (S (S (S fuel)))).
  { rewrite dumps_header_of. cbn [length]. rewrite length_app.
    change (length (Reference.quote "byteorder")) with 11%nat.
    cbn [Nat.add]. eexists. reflexivity. }
  destruct Hfuel as [fuel Hfuel]. rewrite Hfuel, parse_header_of. reflexivity.
Qed.

(** C5. When the encoded header fits in 65535 bytes, [create_message]
    succeeds, and the two-stage decode of the frame (2-byte big-endian
    header length, header bytes, then content-length payload bytes)
    recovers the header fields and then cuts off exactly the original
    payload bytes, leaving the buffer empty, before decoding them with
    the header's encoding. *)
Theorem frame_round_trip
  (content_bytes : bytes) (content_encoding : string) (header_bytes : bytes) :
  @encode_json reference_lib
    (@header_of reference_lib content_bytes content_encoding) "utf-8" =
  Ok header_bytes ->
  len header_bytes <= 65535 ->
  exists message,
    @create_message reference_lib content_bytes content_encoding = Ok message /\
    @AbstractMessage.read reference_lib {| recv := Some message; sent := None |}
      (AbstractMessage.init EVENT_READ) =
    Ok (@header_parsed reference_lib content_bytes content_encoding header_bytes) /\
    @AbstractMessage.take_content reference_lib
      (@header_parsed reference_lib content_bytes content_encoding header_bytes) =
    (content <- @decode_json reference_lib content_bytes content_encoding ;;
     Ok (Some (content,
               AbstractMessage.set_receive_buffer []
                 (@header_parsed reference_lib content_bytes content_encoding
                    header_bytes)))).
Proof.
  intros Henc Hlen.
  destruct (reference_header_round_trip content_bytes content_encoding)
    as [hb [Hhb Hdec]].
  assert (hb = header_bytes) by congruence. subst hb.
  apply (@frame_round_trip_of_codec reference_lib); assumption.
Qed.

(** ** Concrete runs *)


Lemma frame_round_trip_witness :
  len example_header_bytes <= 65535 /\
  exists message,
    @create_message reference_lib example_payload "utf-8" = Ok message /\
    @AbstractMessage.read reference_lib {| recv := Some message; sent := None |}
      (AbstractMessage.init EVENT_READ) =
    Ok (@header_parsed reference_lib example_payload "utf-8" example_header_bytes) /\
    @AbstractMessage.take_content reference_lib
      (@header_parsed reference_lib example_payload "utf-8" example_header_bytes) =
    (content <- @decode_json reference_lib example_payload "utf-8" ;;
     Ok (Some (content,
               AbstractMessage.set_receive_buffer []
                 (@header_parsed reference_lib example_payload "utf-8"
                    example_header_bytes)))).
Proof.
  split; [vm_compute; discriminate|].
  apply (frame_round_trip example_payload "utf-8" example_header_bytes).
  - vm_compute. reflexivity.
  - vm_compute. discriminate.
Defined.




Lemma unknown_action_raises_witness :
  @FileActionHandler.handle_request reference_lib example_handler
    unknown_action_example update_example_fs =
  (Raise TypeError, update_example_fs).
Proof.
  apply (@unknown_action_raises reference_lib example_handler
           unknown_action_example 7 update_example_fs).
  - reflexivity.
  - lia.
Defined.



(** C3, at the failing input.  Moving [a.txt] onto the existing [b.txt]
    leaves the directory unchanged, but the response is the bare [False],
    which carries neither the action code nor a message (a missing source
    is answered with a status message, see [move_file_source_missing]);
    the requester's callback then raises on [response.get]. *)
Theorem move_file_onto_existing_file :
  let fs := [("a.txt", File (b "aaaa")); ("b.txt", File (b "bb"))] in
  let request :=
    request_content (RequestDispatcher.move_file_request "a.txt" "b.txt") in
  @FileActionHandler.handle_request reference_lib example_handler request fs =
    (Ok (PDict [(KStr "response", PBool false)]), fs) /\
  is_status_message (PBool false) = false /\
  @RequestDispatcher.on_response_callback reference_lib fs (PBool false) =
    ([], Some AttributeError).
Proof. cbv zeta. repeat split; vm_compute; reflexivity. Qed.


(** C2, at the failing input.  [a.txt] lies in the subdirectory [sub] and
    not in the managed directory itself, yet [EnumerateDirectory] lists
    it. *)
Theorem enumerate_directory_descends :
  fs_lookup "a.txt" nested_example_fs = None /\
  fst (@FileActionHandler.enumerate_directory reference_lib example_handler
         nested_example_fs) =
  Ok (PDict
        [(KStr "action", PInt Action.ENUMERATE_REMOTE_DIR_ACTION);
         (KStr "block_size", PInt 4);
         (KStr "file_info",
          PList
            [entry_to_pyval
               (row "top.txt" 1
                  "e3b98a4da31a127d4bde6e43033f66ba274cab0eb7eb1c70ec41402bf6273dd8");
             entry_to_pyval
               (row "a.txt" 1
                  "2d711642b726b04401627ca9fbac32f5c8530fb1903cc4db02258717921a4881")])]).
Proof. split; vm_compute; reflexivity. Qed.

(** ** The block diff of [_update_file_by_recipe] *)

Lemma pykey_eqb_eq a c : pykey_eqb a c = true <-> a = c.
Proof.
  destruct a as [x|x], c as [y|y]; simpl.
  - rewrite Z.eqb_eq. split; congruence.
  - split; discriminate.
  - split; discriminate.
  - rewrite String.eqb_eq. split; congruence.
Qed.

Lemma pykey_eqb_refl a : pykey_eqb a a = true.
Proof. apply pykey_eqb_eq. reflexivity. Qed.

Lemma pykey_eq_dec (a c : pykey) : {a = c} + {a <> c}.
Proof.
  destruct (pykey_eqb a c) eqn:E.
  - left. apply pykey_eqb_eq, E.
  - right. intros Heq. apply pykey_eqb_eq in Heq. congruence.
Qed.

Lemma key_in_dict_set {V} k k' (v : V) d :
  existsb (pykey_eqb k) (dict_keys (dict_set pykey_eqb k' v d)) =
  pykey_eqb k k' || existsb (pykey_eqb k) (dict_keys d).
Proof.
  induction d as [|[k0 v0] d IH]; simpl.
  - reflexivity.
  - destruct (pykey_eqb k' k0) eqn:E; simpl.
    + apply pykey_eqb_eq in E. subst k0.
      destruct (pykey_eqb k k'); reflexivity.
    + rewrite IH. destruct (pykey_eqb k k0), (pykey_eqb k k'); reflexivity.
Qed.

Lemma key_in_dict_of_items {V} k (items : list (pykey * V)) :
  In k (map fst items) ->
  existsb (pykey_eqb k) (dict_keys (dict_of_items pykey_eqb items)) = true.
Proof.
  unfold dict_of_items. generalize (@nil (pykey * V)).
  induction items as [|[k0 v0] items IH]; simpl; intros acc Hin.
  - contradiction.
  - assert (Hkeep : forall (items' acc' : list (pykey * V)),
              existsb (pykey_eqb k) (dict_keys acc') = true ->
              existsb (pykey_eqb k)
                (dict_keys (fold_left
                   (fun a kv => dict_set pykey_eqb (fst kv) (snd kv) a)
                   items' acc')) = true).
    { induction items' as [|[k1 v1] items' IH']; simpl; intros acc' Ha.
      - exact Ha.
      - apply IH'. rewrite key_in_dict_set, Ha. apply orb_true_r. }
    destruct Hin as [->|Hin].
    + apply Hkeep. rewrite key_in_dict_set, pykey_eqb_refl. reflexivity.
    + apply IH, Hin.
Qed.

Lemma key_not_in_dict_of_items {V} k (items : list (pykey * V)) :
  ~ In k (map fst items) ->
  existsb (pykey_eqb k) (dict_keys (dict_of_items pykey_eqb items)) = false.
Proof.
  unfold dict_of_items.
  assert (G : forall acc : list (pykey * V),
             existsb (pykey_eqb k) (dict_keys acc) = false ->
             ~ In k (map fst items) ->
             existsb (pykey_eqb k)
               (dict_keys (fold_left
                  (fun a kv => dict_set pykey_eqb (fst kv) (snd kv) a)
                  items acc)) = false).
  { induction items as [|[k0 v0] items IH]; simpl; intros acc Ha Hn.
    - exact Ha.
    - apply IH; [|tauto]. rewrite key_in_dict_set, Ha, orb_false_r.
      destruct (pykey_eqb k k0) eqn:E; [|reflexivity].
      apply pykey_eqb_eq in E. subst. tauto. }
  apply G. reflexivity.
Qed.

Lemma filter_all {A} (p : A -> bool) l :
  (forall x, In x l -> p x = true) -> filter p l = l.
Proof.
  induction l as [|x l IH]; simpl; intros Hp; [reflexivity|].
  rewrite Hp by auto. f_equal. apply IH. auto.
Qed.

Lemma filter_none {A} (p : A -> bool) l :
  (forall x, In x l -> p x = false) -> filter p l = [].
Proof.
  induction l as [|x l IH]; simpl; intros Hp; [reflexivity|].
  rewrite Hp by auto. apply IH. auto.
Qed.

(** A tuple with an [int] index never equals a tuple with a [str] key. *)
Lemma int_item_not_in_str_items k v (dest : list (pykey * pyval)) :
  (forall p, In p dest -> exists s, fst p = KStr s) ->
  existsb (item_eqb (KInt k, v)) dest = false.
Proof.
  induction dest as [|[k0 v0] dest IH]; simpl; intros Hs; [reflexivity|].
  destruct (Hs (k0, v0) (or_introl eq_refl)) as [s Hk]. simpl in Hk. subst k0.
  unfold item_eqb at 1. simpl. apply IH. auto.
Qed.

Lemma hash_items_keys `{PyLib} blocks :
  map fst (RequestDispatcher.hash_items (number_blocks sha256_hexdigest blocks)) =
  map KInt (indices 0 (length blocks)).
Proof.
  unfold RequestDispatcher.hash_items. rewrite map_map. simpl.
  rewrite <- (map_map fst KInt).
  change (map fst (number_blocks sha256_hexdigest blocks)) with
    (dict_keys (number_blocks sha256_hexdigest blocks)).
  rewrite number_blocks_keys. reflexivity.
Qed.

Section BlockDiff.
Context `{PyLib}.
Variables (fs : fs_dir) (recipe_info block_size : pyval) (name : string)
          (size : option Z) (content : bytes)
          (recipe_items : list (pykey * pyval)).
Hypothesis filename_given : py_get recipe_info "filename" = Ok (PStr name).
Hypothesis block_size_given : py_get recipe_info "block_size" = Ok block_size.
Hypothesis recipe_given : py_get recipe_info "recipe" = Ok (PDict recipe_items).
Hypothesis file_found : fs_lookup name fs = Some (File content).
Hypothesis size_read : py_read_size block_size = Ok size.
Hypothesis size_valid : read_size_valid size = true.
Hypothesis recipe_hashable :
  forallb (fun p => py_hashable (snd p)) recipe_items = true.

(** What the request built by [_update_file_by_recipe] looks like. *)
Lemma update_request_shape :
  RequestDispatcher._update_file_by_recipe fs recipe_info =
  Ok (Some
        (create_request (PInt Action.UPDATED_FILE_ACTION)
           (PDict
              [(KStr "recipe_info",
                PDict
                  [(KStr "filename", PStr name);
                   (KStr "block_size", block_size);
                   (KStr "blocks",
                    PDict
                      (RequestDispatcher.update_blocks
                         (number_blocks (fun x => x) (read_blocks size content))
                         (update_blocks_keys_of (read_blocks size content)
                            recipe_items)))])]))).
Proof.
  unfold RequestDispatcher._update_file_by_recipe.
  rewrite filename_given, block_size_given, recipe_given. cbn [bind py_path_name].
  rewrite fs_exists_lookup, file_found.
  unfold fs_open_read. rewrite file_found. cbn [bind]. rewrite size_read.
  cbn [bind]. unfold create_hashed_block_list, create_block_list, iter_read.
  rewrite size_valid. cbn [bind].
  unfold RequestDispatcher.set_of_items. cbn [py_items bind].
  rewrite recipe_hashable. reflexivity.
Qed.

Lemma update_key_selected k :
  existsb (pykey_eqb (KInt k)) (update_blocks_keys_of (read_blocks size content) recipe_items) = true <->
  exists h,
    In (k, h) (number_blocks sha256_hexdigest (read_blocks size content)) /\
    existsb (item_eqb (KInt k, PStr h)) recipe_items = false.
Proof.
  unfold update_blocks_keys_of. split.
  - intros Hkey.
    destruct (in_dec pykey_eq_dec (KInt k)
                (map fst (RequestDispatcher.set_difference
                            (RequestDispatcher.hash_items (number_blocks sha256_hexdigest (read_blocks size content)))
                            recipe_items))) as [Hi|Hn].
    + apply in_map_iff in Hi. destruct Hi as [[k1 v1] [Hk1 Hi]].
      cbn [fst] in Hk1. subst k1.
      unfold RequestDispatcher.set_difference in Hi.
      apply filter_In in Hi. destruct Hi as [Hi Hd].
      unfold RequestDispatcher.hash_items in Hi. apply in_map_iff in Hi.
      destruct Hi as [[k2 h] [Heq Hi]]. cbn [fst snd] in Heq.
      injection Heq as -> <-. exists h. split; [exact Hi|].
      apply negb_true_iff in Hd. exact Hd.
    + apply key_not_in_dict_of_items in Hn. congruence.
  - intros [h [Hin Hd]]. apply key_in_dict_of_items.
    change (KInt k) with (fst (KInt k, PStr h)). apply in_map.
    unfold RequestDispatcher.set_difference. apply filter_In. split.
    + unfold RequestDispatcher.hash_items.
      change (KInt k, PStr h) with
        ((fun kv : Z * string => (KInt (fst kv), PStr (snd kv))) (k, h)).
      apply in_map, Hin.
    + rewrite Hd. reflexivity.
Qed.

(** The indices placed in the request are exactly those whose
    [(index, hash)] tuple is among the local tuples and equal to no tuple
    of the recipe. *)
Lemma update_blocks_sent k :
  In (KInt k)
     (map fst (RequestDispatcher.update_blocks
                 (number_blocks (fun x => x) (read_blocks size content)) (update_blocks_keys_of (read_blocks size content) recipe_items))) <->
  exists h,
    In (k, h) (number_blocks sha256_hexdigest (read_blocks size content)) /\
    existsb (item_eqb (KInt k, PStr h)) recipe_items = false.
Proof.
  rewrite <- update_key_selected.
  unfold RequestDispatcher.update_blocks. rewrite map_map. cbn [fst].
  rewrite in_map_iff. split.
  - intros [[k' x] [Hk Hin]]. cbn [fst] in Hk. injection Hk as ->.
    apply filter_In in Hin. destruct Hin as [_ Hkey]. exact Hkey.
  - intros Hsel. pose proof Hsel as Hsel'.
    apply update_key_selected in Hsel'. destruct Hsel' as [h [Hin _]].
    assert (Hkey : In k (indices 0 (length (read_blocks size content)))).
    { rewrite <- (number_blocks_keys sha256_hexdigest).
      change k with (fst (k, h)). apply in_map, Hin. }
    rewrite <- (number_blocks_keys (fun x => x)) in Hkey.
    apply in_map_iff in Hkey. destruct Hkey as [[k' x] [Hk Hx]].
    cbn [fst] in Hk. subst k'.
    exists (k, x). split; [reflexivity|]. apply filter_In. split; [exact Hx|].
    exact Hsel.
Qed.

(** A recipe as [json] delivers it has [str] keys; then no local tuple is
    found in it, and every block of the local file is sent, changed or
    not. *)
Lemma str_keyed_recipe_sends_every_block :
  (forall p, In p recipe_items -> exists s, fst p = KStr s) ->
  RequestDispatcher.update_blocks
    (number_blocks (fun x => x) (read_blocks size content)) (update_blocks_keys_of (read_blocks size content) recipe_items) =
  map (fun kv => (KInt (fst kv), PStr (b64encode (snd kv))))
      (number_blocks (fun x => x) (read_blocks size content)).
Proof.
  intros Hstr. unfold RequestDispatcher.update_blocks. f_equal.
  apply filter_all. intros [k x] Hx. cbn [fst].
  assert (Hk : In k (indices 0 (length (read_blocks size content)))).
  { rewrite <- (number_blocks_keys (fun x => x)).
    change k with (fst (k, x)). apply in_map, Hx. }
  rewrite <- (number_blocks_keys sha256_hexdigest) in Hk.
  apply in_map_iff in Hk. destruct Hk as [[k' h] [Hk Hh]].
  cbn [fst] in Hk. subst k'.
  apply update_key_selected. exists h. split; [exact Hh|].
  apply int_item_not_in_str_items, Hstr.
Qed.

(** With [int] keys, as the handler builds the recipe before it is
    serialised, a block whose hash is in the recipe at its index is not
    sent. *)
Lemma int_keyed_recipe_skips_equal_block k h :
  In (k, h) (number_blocks sha256_hexdigest (read_blocks size content)) ->
  In (KInt k, PStr h) recipe_items ->
  ~ In (KInt k)
       (map fst (RequestDispatcher.update_blocks
                   (number_blocks (fun x => x) (read_blocks size content)) (update_blocks_keys_of (read_blocks size content) recipe_items))).
Proof.
  intros Hl Hr Hsent. apply update_blocks_sent in Hsent.
  destruct Hsent as [h' [Hl' Hd]].
  assert (h' = h).
  { assert (N : NoDup (dict_keys (number_blocks sha256_hexdigest (read_blocks size content)))).
    { rewrite number_blocks_keys. apply indices_NoDup. }
    clear - Hl Hl' N.
    induction (number_blocks sha256_hexdigest (read_blocks size content))
      as [|[k0 h0] l IH];
      [contradiction|].
    simpl in N. inversion N as [|? ? Hn N']; subst.
    destruct Hl as [Hl|Hl], Hl' as [Hl'|Hl']; try congruence.
    - exfalso. apply Hn. injection Hl as -> ->.
      change k with (fst (k, h')). apply in_map, Hl'.
    - exfalso. apply Hn. injection Hl' as -> ->.
      change k with (fst (k, h)). apply in_map, Hl.
    - apply IH; assumption. }
  subst h'.
  assert (Hex : existsb (item_eqb (KInt k, PStr h)) recipe_items = true).
  { apply existsb_exists. exists (KInt k, PStr h). split; [exact Hr|].
    unfold item_eqb. simpl. rewrite Z.eqb_refl, String.eqb_refl. reflexivity. }
  congruence.
Qed.

End BlockDiff.

(** ** What [json] delivers *)


Lemma str_keyed_dict_set key v acc :
  str_keyed v = true ->
  forallb member_str_keyed acc = true ->
  forallb member_str_keyed (dict_set pykey_eqb (KStr key) v acc) = true.
Proof.
  intros Hv. induction acc as [|[k0 v0] acc IH]; simpl; intros Ha.
  - rewrite Hv. reflexivity.
  - apply andb_prop in Ha. destruct Ha as [H0 Ha].
    destruct k0 as [z|s0]; [discriminate|].
    destruct (String.eqb key s0); simpl.
    + rewrite Hv, Ha. reflexivity.
    + rewrite H0, IH by exact Ha. reflexivity.
Qed.

Lemma forallb_rev_true {A} (p : A -> bool) l :
  forallb p l = true -> forallb p (rev l) = true.
Proof.
  rewrite !forallb_forall. intros Hl x Hx. apply Hl, in_rev, Hx.
Qed.

Ltac split_parse H :=
  repeat match type of H with
         | context [match ?x with _ => _ end] =>
             let E := fresh "E" in
             destruct x eqn:E; try discriminate H
         end.

Lemma parse_str_keyed fuel :
  (forall s v r, Reference.parse_value fuel s = Some (v, r) ->
                 str_keyed v = true) /\
  (forall s acc v r, forallb str_keyed acc = true ->
                     Reference.parse_elements fuel s acc = Some (v, r) ->
                     str_keyed v = true) /\
  (forall s acc v r, forallb member_str_keyed acc = true ->
                     Reference.parse_members fuel s acc = Some (v, r) ->
                     str_keyed v = true).
Proof.
  induction fuel as [|fuel [IHv [IHe IHm]]].
  - repeat split; intros; discriminate.
  - repeat split.
    + intros s v r Hp. cbn [Reference.parse_value] in Hp.
      split_parse Hp;
        try (injection Hp as <- <-; reflexivity);
        try (eapply IHe; [|exact Hp]; reflexivity);
        try (eapply IHm; [|exact Hp]; reflexivity).
    + intros s acc v r Hacc Hp. cbn [Reference.parse_elements] in Hp.
      destruct (Reference.parse_value fuel s) as [[x rest]|] eqn:Ev;
        [|discriminate].
      pose proof (IHv _ _ _ Ev) as Hx.
      split_parse Hp.
      * eapply IHe; [|exact Hp]. simpl. rewrite Hx, Hacc. reflexivity.
      * injection Hp as <- <-. simpl.
        rewrite forallb_app, forallb_rev_true by exact Hacc.
        simpl. rewrite Hx. reflexivity.
    + intros s acc v r Hacc Hp. cbn [Reference.parse_members] in Hp.
      split_parse Hp.
      * eapply IHm; [|exact Hp].
        apply str_keyed_dict_set; [|exact Hacc]. eapply IHv; eassumption.
      * injection Hp as <- <-. simpl.
        apply str_keyed_dict_set; [|exact Hacc]. eapply IHv; eassumption.
Qed.

(** Whatever [json.load] returns has only [str] keys. *)
Lemma json_load_str_keyed data encoding v :
  Reference.json_load data encoding = Ok v -> str_keyed v = true.
Proof.
  unfold Reference.json_load. intros Hl.
  split_parse Hl. injection Hl as <-.
  eapply (proj1 (parse_str_keyed _)). eassumption.
Qed.

Lemma str_keyed_get v key x :
  str_keyed v = true -> py_get v key = Ok x -> str_keyed x = true.
Proof.
  destruct v as [| | | | |d]; try discriminate. simpl. intros Hd Hg.
  injection Hg as <-.
  induction d as [|[k0 v0] d IH]; simpl in *; [reflexivity|].
  apply andb_prop in Hd. destruct Hd as [H0 Hd].
  destruct k0 as [z|s0]; [discriminate|].
  destruct (String.eqb key s0); [exact H0|]. apply IH, Hd.
Qed.

Lemma str_keyed_items items :
  str_keyed (PDict items) = true ->
  forall p, In p items -> exists s, fst p = KStr s.
Proof.
  simpl. intros Hd p Hp. rewrite forallb_forall in Hd.
  specialize (Hd p Hp). destruct p as [[z|s] x]; [discriminate|].
  exists s. reflexivity.
Qed.

(** A recipe that reached the requester through [json.load] makes
    [_update_file_by_recipe] send every block of the local file, whatever
    the hashes say. *)
Lemma received_recipe_sends_every_block
  (fs : fs_dir) (data : bytes) (encoding : string)
  (wire_content response recipe_info block_size : pyval)
  (name : string) (size : option Z) (content : bytes)
  (recipe_items : list (pykey * pyval)) :
  Reference.json_load data encoding = Ok wire_content ->
  py_get wire_content "response" = Ok response ->
  py_get response "recipe_info" = Ok recipe_info ->
  py_get recipe_info "filename" = Ok (PStr name) ->
  py_get recipe_info "block_size" = Ok block_size ->
  py_get recipe_info "recipe" = Ok (PDict recipe_items) ->
  fs_lookup name fs = Some (File content) ->
  py_read_size block_size = Ok size ->
  read_size_valid size = true ->
  forallb (fun p => py_hashable (snd p)) recipe_items = true ->
  @RequestDispatcher._update_file_by_recipe reference_lib fs recipe_info =
  Ok (Some
        (create_request (PInt Action.UPDATED_FILE_ACTION)
           (PDict
              [(KStr "recipe_info",
                PDict
                  [(KStr "filename", PStr name);
                   (KStr "block_size", block_size);
                   (KStr "blocks",
                    PDict
                      (map (fun kv =>
                              (KInt (fst kv),
                               PStr (Reference.b64encode (snd kv))))
                           (number_blocks (fun x => x)
                              (read_blocks size content))))])]))).
Proof.
  intros Hload Hresp Hinfo Hname Hbs Hrecipe Hfile Hsize Hvalid Hhash.
  rewrite (@update_request_shape reference_lib fs recipe_info block_size name
             size content recipe_items) by assumption.
  rewrite (@str_keyed_recipe_sends_every_block reference_lib); [reflexivity|].
  apply str_keyed_items.
  eapply str_keyed_get; [|exact Hrecipe].
  eapply str_keyed_get; [|exact Hinfo].
  eapply str_keyed_get; [|exact Hresp].
  eapply json_load_str_keyed, Hload.
Qed.


(** C1, at the failing input.  Both sides hold the same file [aabbcc];
    at block size 4 its blocks hash alike on both sides, and the recipe in
    the response says so.  The recipe reaches the requester with the keys
    ["0"] and ["1"]; compared with the local keys [0] and [1] no tuple
    matches, and the [UpdateFile] request carries both blocks. *)
Theorem unchanged_blocks_are_sent :
  let fs := update_example_fs in
  let request := RequestDispatcher.update_file_request "f" in
  @create_hashed_block_list reference_lib (b "aabbcc") (Some 4) =
    Ok [(0, "486b34250bd4400c0aa90516fce9a9c0633a922eb40d0828cf299bc4e825acf4");
        (1, "355b1bbfc96725cdce8f4a2708fda310a80e6d13315aec4e5eed2a75fe8032ce")] /\
  fst (@FileActionHandler.handle_request reference_lib example_handler
         (request_content request) fs) =
    Ok (PDict
          [(KStr "response",
            PDict
              [(KStr "action", PInt Action.FILE_RECIPE_ACTION);
               (KStr "recipe_info",
                PDict
                  [(KStr "filename", PStr "f");
                   (KStr "block_size", PInt 4);
                   (KStr "hash_algorithm", PStr "sha256");
                   (KStr "recipe",
                    PDict
                      [(KInt 0, PStr "486b34250bd4400c0aa90516fce9a9c0633a922eb40d0828cf299bc4e825acf4");
                       (KInt 1, PStr "355b1bbfc96725cdce8f4a2708fda310a80e6d13315aec4e5eed2a75fe8032ce")])])])]) /\
  exists frame,
    @served_response reference_lib example_handler (request_content request) fs =
      Ok frame /\
    snd (@ClientSideMessage.read reference_lib
           (@RequestDispatcher.on_response_callback reference_lib fs)
           {| recv := Some frame; sent := None |}
           (ClientSideMessage.init request)) =
    [create_request (PInt Action.UPDATED_FILE_ACTION)
       (PDict
          [(KStr "recipe_info",
            PDict
              [(KStr "filename", PStr "f");
               (KStr "block_size", PInt 4);
               (KStr "blocks",
                PDict [(KInt 0, PStr "YWFiYg=="); (KInt 1, PStr "Y2M=")])])])].
Proof.
  cbv zeta. split; [vm_compute; reflexivity|]. split; [vm_compute; reflexivity|].
  eexists. split.
  - vm_compute. reflexivity.
  - vm_compute. reflexivity.
Qed.

(** ** Enumeration *)

Lemma glob_below_Dir prefix entries :
  glob_below prefix (Dir entries) =
  map (fun e => (prefix ++ [fst e], snd e)) entries ++
  flat_map (fun e => glob_below (prefix ++ [fst e]) (snd e)) entries.
Proof.
  cbn [glob_below]. f_equal.
  induction entries as [|[n c] entries IH]; [reflexivity|].
  cbn [flat_map fst snd]. f_equal. exact IH.
Qed.

Lemma glob_star_star_nested fs sub entries name n :
  In (sub, Dir entries) fs -> In (name, n) entries ->
  In ([sub; name], n) (glob_star_star fs).
Proof.
  intros Hs Hn. unfold glob_star_star. rewrite glob_below_Dir.
  apply in_or_app. right. apply in_flat_map.
  exists (sub, Dir entries). split; [exact Hs|].
  cbn [fst snd app]. rewrite glob_below_Dir. apply in_or_app. left.
  apply in_map_iff. exists (name, n). split; [reflexivity|exact Hn].
Qed.

Lemma for_each_Ok {A B} (g : A -> result B) (g' : A -> B) l :
  (forall x, In x l -> g x = Ok (g' x)) -> for_each g l = Ok (map g' l).
Proof.
  induction l as [|x l IH]; simpl; intros Hg; [reflexivity|].
  rewrite Hg by auto. simpl. rewrite IH by auto. reflexivity.
Qed.

(** Every file of a subdirectory is listed, under its bare name. *)
Lemma enumerate_directory_lists_nested_files `{PyLib}
  fs block_size sub entries name content :
  read_size_valid block_size = true ->
  In (sub, Dir entries) fs ->
  In (name, File content) entries ->
  exists listing,
    enumerate_directory fs block_size = Ok listing /\
    In name (file_names listing).
Proof.
  intros Hv Hs Hn. unfold enumerate_directory.
  erewrite for_each_Ok.
  2:{ intros x _. unfold hash_file, iter_read. rewrite Hv. reflexivity. }
  eexists. split; [reflexivity|].
  unfold file_names. rewrite map_map. cbn [filename].
  apply in_map_iff. exists ([sub; name], File content). split; [reflexivity|].
  apply filter_In. split; [|reflexivity].
  apply filter_In. split; [|reflexivity].
  eapply glob_star_star_nested; eassumption.
Qed.

(* ================================================================== *)
(** * Further properties of the code                                   *)
(* ================================================================== *)

(** ** Blocks as slices *)

Lemma block_count_nil n : 0 < n -> block_count n [] = 0%nat.
Proof.
  intros Hn. unfold block_count. simpl.
  apply Nat.div_small. lia.
Qed.

Lemma block_count_cons n (data : bytes) :
  0 < n -> data <> [] ->
  block_count n data = S (block_count n (skipn (Z.to_nat n) data)).
Proof.
  intros Hn Hd. unfold block_count. rewrite length_skipn.
  assert (HN : (0 < Z.to_nat n)%nat) by lia.
  assert (HL : (0 < length data)%nat).
  { destruct data; [congruence|simpl; lia]. }
  set (N := Z.to_nat n) in *. set (L := length data) in *.
  destruct (Nat.le_gt_cases N L) as [Hle|Hgt].
  - replace (L + N - 1)%nat with ((L - N + N - 1) + 1 * N)%nat by lia.
    rewrite Nat.div_add by lia. lia.
  - replace (L - N + N - 1)%nat with (N - 1)%nat by lia.
    rewrite (Nat.div_small (N - 1) N) by lia.
    replace (L + N - 1)%nat with ((L - 1) + 1 * N)%nat by lia.
    rewrite Nat.div_add by lia. rewrite Nat.div_small by lia. reflexivity.
Qed.

Lemma block_slice_skipn n (data : bytes) i :
  block_slice n data (S i) = block_slice n (skipn (Z.to_nat n) data) i.
Proof.
  unfold block_slice. rewrite skipn_skipn. do 2 f_equal. simpl. lia.
Qed.

Lemma read_blocks_slices n (data : bytes) :
  0 < n ->
  read_blocks (Some n) data =
  map (block_slice n data) (seq 0 (block_count n data)).
Proof.
  intros Hn.
  remember (length data) as m eqn:Hm. revert data Hm.
  induction m as [m IH] using lt_wf_ind. intros data Hm.
  destruct data as [|c data].
  - rewrite read_blocks_nil, block_count_nil by exact Hn. reflexivity.
  - rewrite read_blocks_step.
    rewrite block_count_cons by (exact Hn || discriminate).
    cbn [seq map]. rewrite <- seq_shift, map_map.
    unfold f_read. destruct (Z.ltb_spec n 0); [lia|].
    destruct (Z.to_nat n) as [|N] eqn:EN; [lia|].
    cbn [firstn skipn].
    f_equal.
    + unfold block_slice. rewrite EN. reflexivity.
    + assert (Hlt : (length (skipn N data) < m)%nat).
      { subst m. rewrite length_skipn. simpl. lia. }
      rewrite (IH _ Hlt (skipn N data) eq_refl).
      apply map_ext. intros i. rewrite block_slice_skipn, EN. reflexivity.
Qed.

Lemma combine_indices_seq {V} (f : nat -> V) count :
  combine (indices 0 count) (map f (seq 0 count)) =
  map (fun i => (Z.of_nat i, f i)) (seq 0 count).
Proof.
  unfold indices. generalize 0%nat as s.
  induction count as [|count IH]; intros s; [reflexivity|].
  cbn [seq map combine]. f_equal. apply IH.
Qed.

Lemma number_blocks_slices n (data : bytes) :
  0 < n ->
  number_blocks (fun block => block) (read_blocks (Some n) data) =
  map (fun i => (Z.of_nat i, block_slice n data i))
      (seq 0 (block_count n data)).
Proof.
  intros Hn.
  rewrite number_blocks_spec, map_id, read_blocks_slices by exact Hn.
  rewrite length_map, length_seq, combine_indices_seq. reflexivity.
Qed.

(** X1. For a positive block size [n], [create_block_list] maps the
    indices [0 .. k-1], in this order, to the consecutive [n]-byte slices
    of the file, where [k] is the length of the file divided by [n],
    rounded up. *)
Theorem create_block_list_slices (content : bytes) (n : Z) :
  0 < n ->
  create_block_list content (Some n) =
  Ok (map (fun i => (Z.of_nat i, block_slice n content i))
          (seq 0 (block_count n content))).
Proof.
  intros Hn. unfold create_block_list, iter_read, read_size_valid.
  destruct (Z.leb_spec (-1) n); [|lia]. cbn [bind].
  rewrite number_blocks_slices by exact Hn. reflexivity.
Qed.

Lemma create_block_list_slices_witness :
  0 < 4 /\
  create_block_list (b "hello world") (Some 4) =
  Ok [(0, b "hell"); (1, b "o wo"); (2, b "rld")].
Proof.
  split; [lia|].
  exact (create_block_list_slices (b "hello world") 4 ltac:(lia)).
Defined.

(** X2. The recipe of a file has the indices of its block list, and at
    every index the SHA-256 digest of the block at that index; both fail
    alike on an invalid block size. *)
Theorem create_hashed_block_list_hashes `{PyLib}
  (content : bytes) (size : option Z) :
  create_hashed_block_list content size =
  (blocks <- create_block_list content size ;;
   Ok (map (fun kv => (fst kv, sha256_hexdigest (snd kv))) blocks)).
Proof.
  unfold create_hashed_block_list, create_block_list.
  destruct (iter_read size content) as [blocks|e]; [|reflexivity].
  cbn [bind]. f_equal. rewrite !number_blocks_spec, map_id.
  generalize (indices 0 (length blocks)) as keys.
  induction blocks as [|x blocks IH]; intros keys.
  - destruct keys; reflexivity.
  - destruct keys as [|k keys]; [reflexivity|].
    cbn [map combine fst snd]. f_equal. apply IH.
Qed.

Lemma read_blocks_to_end size (data : bytes) :
  read_size_valid size = true -> size <> Some 0 ->
  concat (read_blocks size data) = data.
Proof.
  intros Hv Hz. destruct size as [n|].
  - unfold read_size_valid in Hv. apply Z.leb_le in Hv.
    destruct (Z.ltb_spec n 0) as [Hneg|Hpos].
    + rewrite read_blocks_step. unfold f_read.
      destruct (Z.ltb_spec n 0); [|lia].
      destruct data as [|c data]; [reflexivity|].
      rewrite read_blocks_nil. simpl. rewrite app_nil_r. reflexivity.
    + apply concat_read_blocks.
      assert (n <> 0) by congruence. lia.
  - rewrite read_blocks_step. unfold f_read.
    destruct data as [|c data]; [reflexivity|].
    rewrite read_blocks_nil. simpl. rewrite app_nil_r. reflexivity.
Qed.

(** X3. [hash_file] does not depend on the block size: for every size
    [f.read] accepts, other than 0, it is the SHA-256 digest of the
    whole content. *)
Theorem hash_file_any_block_size `{PyLib} (content : bytes) (size : option Z) :
  read_size_valid size = true -> size <> Some 0 ->
  hash_file content size = Ok (sha256_hexdigest content).
Proof.
  intros Hv Hz. unfold hash_file, iter_read. rewrite Hv. cbn [bind].
  rewrite read_blocks_to_end by assumption. reflexivity.
Qed.

Lemma hash_file_any_block_size_witness :
  read_size_valid (Some 3) = true /\ Some 3 <> Some 0 /\
  @hash_file reference_lib (b "abc") (Some 3) =
  @hash_file reference_lib (b "abc") None.
Proof.
  split; [reflexivity|]. split; [discriminate|].
  rewrite (@hash_file_any_block_size reference_lib (b "abc") (Some 3)
             eq_refl ltac:(discriminate)).
  rewrite (@hash_file_any_block_size reference_lib (b "abc") None
             eq_refl ltac:(discriminate)).
  reflexivity.
Defined.

Lemma read_blocks_zero (data : bytes) : read_blocks (Some 0) data = [].
Proof. rewrite read_blocks_step. reflexivity. Qed.

(** X4. With block size 0 the first [f.read(0)] is already empty: the
    block list and the recipe of every file are empty, and every file
    hashes like the empty file. *)
Theorem block_size_zero `{PyLib} (content : bytes) :
  create_block_list content (Some 0) = Ok [] /\
  create_hashed_block_list content (Some 0) = Ok [] /\
  hash_file content (Some 0) = Ok (sha256_hexdigest []).
Proof.
  unfold create_block_list, create_hashed_block_list, hash_file, iter_read.
  cbn [read_size_valid]. change (-1 <=? 0) with true. cbv iota.
  rewrite read_blocks_zero. repeat split.
Qed.

(** X5. A block size below [-1] is refused by [f.read], whatever the
    file holds: the three readers raise [ValueError], or [OverflowError]
    when the size is below [-2^63] and does not fit a C [ssize_t]. *)
Theorem block_size_invalid `{PyLib} (content : bytes) (n : Z) :
  n < -1 ->
  let refused := if n <? - 2 ^ 63 then OverflowError else ValueError in
  create_block_list content (Some n) = Raise refused /\
  create_hashed_block_list content (Some n) = Raise refused /\
  hash_file content (Some n) = Raise refused.
Proof.
  intros Hn.
  unfold create_block_list, create_hashed_block_list, hash_file, iter_read.
  cbn [read_size_valid read_size_error]. destruct (Z.leb_spec (-1) n); [lia|].
  repeat split.
Qed.

Lemma block_size_invalid_witness :
  (create_block_list [] (Some (-2)) = Raise ValueError /\
   @create_hashed_block_list reference_lib [] (Some (-2)) = Raise ValueError /\
   @hash_file reference_lib [] (Some (-2)) = Raise ValueError) /\
  (create_block_list (b "abc") (Some (- 2 ^ 63 - 1)) = Raise OverflowError /\
   @create_hashed_block_list reference_lib (b "abc") (Some (- 2 ^ 63 - 1)) =
     Raise OverflowError /\
   @hash_file reference_lib (b "abc") (Some (- 2 ^ 63 - 1)) =
     Raise OverflowError).
Proof.
  split.
  - exact (@block_size_invalid reference_lib [] (-2) ltac:(lia)).
  - exact (@block_size_invalid reference_lib (b "abc") (- 2 ^ 63 - 1)
             ltac:(lia)).
Defined.

Lemma dict_keys_Permutation {V} (m1 m2 : pydict Z V) :
  Permutation m1 m2 -> Permutation (dict_keys m1) (dict_keys m2).
Proof. apply Permutation_map. Qed.

Lemma dict_get_In {V} k (v : V) (m : pydict Z V) :
  NoDup (dict_keys m) -> In (k, v) m -> dict_get Z.eqb k m = Some v.
Proof.
  induction m as [|[k0 v0] m IH]; simpl; intros Hn Hi; [contradiction|].
  inversion Hn as [|? ? Hk Hm]; subst.
  destruct Hi as [Hi|Hi].
  - injection Hi as -> ->. rewrite Z.eqb_refl. reflexivity.
  - destruct (Z.eqb_spec k k0) as [->|Hne].
    + exfalso. apply Hk. change (In (fst (k0, v)) (map fst m)).
      apply in_map, Hi.
    + apply IH; assumption.
Qed.

Lemma dict_get_In_inv {V} k (v : V) (m : pydict Z V) :
  dict_get Z.eqb k m = Some v -> In (k, v) m.
Proof.
  induction m as [|[k0 v0] m IH]; simpl; [discriminate|].
  destruct (Z.eqb_spec k k0) as [->|Hne].
  - intros H. injection H as ->. left. reflexivity.
  - intros H. right. apply IH, H.
Qed.

(** X6. [create_file_from_blks] writes the blocks by ascending key: the
    order in which the dictionary was filled does not matter. *)
Theorem create_file_from_blks_any_order (m1 m2 : pydict Z bytes) :
  NoDup (dict_keys m1) -> Permutation m1 m2 ->
  create_file_from_blks m1 = create_file_from_blks m2.
Proof.
  intros N1 HP.
  assert (N2 : NoDup (dict_keys m2)).
  { eapply Permutation_NoDup; [apply dict_keys_Permutation, HP|exact N1]. }
  apply create_file_from_blks_ext; try assumption.
  intros k. destruct (dict_get Z.eqb k m1) as [v|] eqn:E1.
  - symmetry. apply dict_get_In; [exact N2|].
    eapply Permutation_in; [exact HP|]. apply dict_get_In_inv, E1.
  - destruct (dict_get Z.eqb k m2) as [v|] eqn:E2; [|reflexivity].
    apply dict_get_In_inv in E2.
    apply (Permutation_in _ (Permutation_sym HP)) in E2.
    rewrite (dict_get_In _ _ _ N1 E2) in E1. discriminate.
Qed.

Lemma create_file_from_blks_any_order_witness :
  create_file_from_blks [(1, b "cd"); (0, b "ab")] =
  create_file_from_blks [(0, b "ab"); (1, b "cd")].
Proof.
  apply (create_file_from_blks_any_order
           [(1, b "cd"); (0, b "ab")] [(0, b "ab"); (1, b "cd")]).
  - repeat constructor; simpl; intuition discriminate.
  - apply perm_swap.
Defined.

(** ** The handler's file operations *)

Lemma fs_lookup_app_left name (fs fs' : fs_dir) x :
  fs_lookup name fs = Some x -> fs_lookup name (fs ++ fs') = Some x.
Proof.
  unfold fs_lookup. induction fs as [|[n0 x0] fs IH]; simpl; [discriminate|].
  destruct (String.eqb name n0); [trivial|exact IH].
Qed.

Lemma fs_lookup_not_In name (fs : fs_dir) :
  ~ In name (map fst fs) -> fs_lookup name fs = None.
Proof.
  unfold fs_lookup. induction fs as [|[n0 x0] fs IH]; simpl; intros Hn.
  - reflexivity.
  - destruct (String.eqb_spec name n0) as [->|Hne].
    + exfalso. apply Hn. left. reflexivity.
    + apply IH. intros Hi. apply Hn. right. exact Hi.
Qed.

Lemma fs_lookup_remove_same name (fs : fs_dir) :
  NoDup (map fst fs) -> fs_lookup name (fs_remove_entry name fs) = None.
Proof.
  induction fs as [|[n0 x0] fs IH]; simpl; intros Hn; [reflexivity|].
  inversion Hn as [|? ? Hk Hm]; subst.
  destruct (String.eqb_spec name n0) as [->|Hne].
  - apply fs_lookup_not_In, Hk.
  - unfold fs_lookup in *. simpl.
    destruct (String.eqb_spec name n0); [contradiction|]. apply IH, Hm.
Qed.

Lemma fs_lookup_remove_other name other (fs : fs_dir) :
  other <> name ->
  fs_lookup other (fs_remove_entry name fs) = fs_lookup other fs.
Proof.
  intros Hne. unfold fs_lookup.
  induction fs as [|[n0 x0] fs IH]; simpl; [reflexivity|].
  destruct (String.eqb_spec name n0) as [->|Hn0].
  - destruct (String.eqb_spec other n0); [contradiction|reflexivity].
  - simpl. rewrite IH. reflexivity.
Qed.

Lemma fs_remove_appended name x (fs : fs_dir) :
  fs_lookup name fs = None -> fs_remove_entry name (fs ++ [(name, x)]) = fs.
Proof.
  unfold fs_lookup. induction fs as [|[n0 x0] fs IH]; simpl; intros Hl.
  - rewrite String.eqb_refl. reflexivity.
  - destruct (String.eqb name n0); [discriminate|]. f_equal. apply IH, Hl.
Qed.

Lemma fs_lookup_rename_dst src dst x (fs : fs_dir) :
  fs_lookup dst fs = None -> fs_lookup src fs = Some x ->
  fs_lookup dst (fs_rename_entry src dst fs) = Some x.
Proof.
  unfold fs_lookup. induction fs as [|[n0 x0] fs IH]; simpl; [discriminate|].
  destruct (String.eqb dst n0) eqn:Ed; [discriminate|].
  destruct (String.eqb src n0) eqn:Es; simpl.
  - intros _ Hx. rewrite String.eqb_refl. exact Hx.
  - rewrite Ed. exact IH.
Qed.

Lemma fs_lookup_rename_src src dst (fs : fs_dir) :
  NoDup (map fst fs) -> src <> dst ->
  fs_lookup src (fs_rename_entry src dst fs) = None.
Proof.
  intros Hn Hne. unfold fs_lookup.
  induction fs as [|[n0 x0] fs IH]; simpl; [reflexivity|].
  inversion Hn as [|? ? Hk Hm]; subst.
  destruct (String.eqb_spec src n0) as [->|Hs]; simpl.
  - destruct (String.eqb_spec n0 dst); [contradiction|].
    apply fs_lookup_not_In, Hk.
  - destruct (String.eqb_spec src n0); [contradiction|]. apply IH, Hm.
Qed.

Lemma fs_lookup_rename_other src dst other (fs : fs_dir) :
  other <> src -> other <> dst ->
  fs_lookup other (fs_rename_entry src dst fs) = fs_lookup other fs.
Proof.
  intros H1 H2. unfold fs_lookup.
  induction fs as [|[n0 x0] fs IH]; simpl; [reflexivity|].
  destruct (String.eqb_spec src n0) as [->|Hs]; simpl.
  - destruct (String.eqb_spec other dst); [contradiction|].
    destruct (String.eqb_spec other n0); [contradiction|]. reflexivity.
  - rewrite IH. reflexivity.
Qed.

Lemma fs_rename_back src dst (fs : fs_dir) :
  fs_lookup dst fs = None ->
  fs_rename_entry dst src (fs_rename_entry src dst fs) = fs.
Proof.
  unfold fs_lookup. induction fs as [|[n0 x0] fs IH]; simpl; [reflexivity|].
  destruct (String.eqb dst n0) eqn:Ed; [discriminate|]. intros Hl.
  destruct (String.eqb_spec src n0) as [->|Hs]; simpl.
  - rewrite String.eqb_refl. reflexivity.
  - rewrite Ed. f_equal. apply IH, Hl.
Qed.

Lemma fs_exists_true_lookup name (fs : fs_dir) :
  fs_exists name fs = true -> exists x, fs_lookup name fs = Some x.
Proof.
  rewrite fs_exists_lookup. destruct (fs_lookup name fs); [eauto|discriminate].
Qed.

Ltac run_fs :=
  unfold fs_bind, fs_lift, fs_query, fs_call, fs_ret.

Section FileOperations.
Variable self : FileActionHandler.t.

(** X7. [create_new_file] never replaces or removes anything: whatever
    data it is given, under a plain name or a value that is no string,
    every entry of the directory is still there, unchanged, afterwards. *)
Theorem create_new_file_keeps_entries
  (filename : pyval) (file_data : bytes) (fs : fs_dir) (other : string) (x : node) :
  (forall name, filename = PStr name -> plain_name name = true) ->
  fs_lookup other fs = Some x ->
  fs_lookup other
    (snd (FileActionHandler.create_new_file self filename file_data fs)) = Some x.
Proof.
  intros _ Hx. unfold FileActionHandler.create_new_file. run_fs.
  destruct filename as [| | |name| |]; try exact Hx.
  cbn [py_path_name]. destruct (fs_exists name fs) eqn:Hex; [exact Hx|].
  unfold fs_write. rewrite (fs_exists_false _ _ Hex). cbn [snd].
  rewrite fs_set_fresh by (apply fs_exists_false, Hex).
  apply fs_lookup_app_left, Hx.
Qed.

(** X8. Creating a file, under a plain name that did not exist, and
    deleting it again gives the directory back as it was; the deletion
    reports success. *)
Theorem create_then_delete (name : string) (file_data : bytes) (fs : fs_dir) :
  plain_name name = true ->
  fs_exists name fs = false ->
  FileActionHandler.delete_file self (PStr name)
    (snd (FileActionHandler.create_new_file self (PStr name) file_data fs)) =
  (Ok (status_message Action.DELETED_FILE_ACTION
         ("Successfully deleted " ++ name)%string), fs).
Proof.
  intros _ Hex. pose proof (fs_exists_false _ _ Hex) as Hl.
  unfold FileActionHandler.create_new_file. run_fs.
  cbn [py_path_name]. rewrite Hex. unfold fs_write. rewrite Hl. cbn [snd].
  rewrite fs_set_fresh by exact Hl.
  unfold FileActionHandler.delete_file. run_fs. cbn [py_path_name].
  assert (Hnew : fs_lookup name (fs ++ [(name, File file_data)]) =
                 Some (File file_data)).
  { rewrite <- (fs_set_fresh name (File file_data) fs Hl). apply fs_lookup_set. }
  rewrite fs_exists_lookup, Hnew. unfold fs_unlink. rewrite Hnew.
  rewrite fs_remove_appended by exact Hl. reflexivity.
Qed.

(** X9. Deleting an existing file removes that entry and no other, and
    reports success. *)
Theorem delete_file_removes (name : string) (content : bytes) (fs : fs_dir) :
  NoDup (map fst fs) ->
  fs_lookup name fs = Some (File content) ->
  exists fs',
    FileActionHandler.delete_file self (PStr name) fs =
    (Ok (status_message Action.DELETED_FILE_ACTION
           ("Successfully deleted " ++ name)%string), fs') /\
    fs_lookup name fs' = None /\
    forall other, other <> name -> fs_lookup other fs' = fs_lookup other fs.
Proof.
  intros Hn Hl. exists (fs_remove_entry name fs). split; [|split].
  - unfold FileActionHandler.delete_file. run_fs. cbn [py_path_name].
    rewrite fs_exists_lookup, Hl. unfold fs_unlink. rewrite Hl. reflexivity.
  - apply fs_lookup_remove_same, Hn.
  - intros other Hne. apply fs_lookup_remove_other, Hne.
Qed.

(** X10. Moving a file to a free name, both names plain, keeps its
    content under the new name, frees the old name, leaves every other
    entry alone, and moving it back restores the directory. *)
Theorem move_file_there_and_back (src dst : string) (fs : fs_dir) :
  plain_name src = true ->
  plain_name dst = true ->
  NoDup (map fst fs) ->
  fs_exists src fs = true ->
  fs_exists dst fs = false ->
  exists fs',
    FileActionHandler.move_file self (PStr src) (PStr dst) fs =
    (Ok (status_message Action.MOVED_FILE_ACTION
           ("Successfully moved file " ++ FileActionHandler.path_str self src ++
            " to " ++ FileActionHandler.path_str self dst)%string), fs') /\
    fs_lookup dst fs' = fs_lookup src fs /\
    fs_lookup src fs' = None /\
    (forall other, other <> src -> other <> dst ->
                   fs_lookup other fs' = fs_lookup other fs) /\
    snd (FileActionHandler.move_file self (PStr dst) (PStr src) fs') = fs.
Proof.
  intros _ _ Hn Hs Hd.
  destruct (fs_exists_true_lookup _ _ Hs) as [x Hx].
  pose proof (fs_exists_false _ _ Hd) as Hdl.
  assert (Hne : src <> dst).
  { intros ->. rewrite Hs in Hd. discriminate. }
  exists (fs_rename_entry src dst fs).
  assert (H1 : fs_lookup dst (fs_rename_entry src dst fs) = Some x).
  { apply fs_lookup_rename_dst; assumption. }
  assert (H2 : fs_lookup src (fs_rename_entry src dst fs) = None).
  { apply fs_lookup_rename_src; assumption. }
  split; [|split; [|split; [|split]]].
  - unfold FileActionHandler.move_file. run_fs. cbn [py_path_name].
    rewrite Hs. cbn [negb]. rewrite Hd. unfold fs_rename. rewrite Hs.
    reflexivity.
  - rewrite H1, Hx. reflexivity.
  - exact H2.
  - intros other Ho1 Ho2. apply fs_lookup_rename_other; assumption.
  - unfold FileActionHandler.move_file. run_fs. cbn [py_path_name].
    assert (Hs' : fs_exists dst (fs_rename_entry src dst fs) = true).
    { rewrite fs_exists_lookup, H1. reflexivity. }
    assert (Hd' : fs_exists src (fs_rename_entry src dst fs) = false).
    { rewrite fs_exists_lookup, H2. reflexivity. }
    rewrite Hs'. cbn [negb]. rewrite Hd'. unfold fs_rename. rewrite Hs'.
    cbn [snd]. apply fs_rename_back, Hdl.
Qed.

End FileOperations.

Lemma create_new_file_keeps_entries_witness :
  fs_lookup "f" (snd (FileActionHandler.create_new_file example_handler
                        (PStr "f") (b "zz") update_example_fs)) =
  Some (File (b "aabbcc")).
Proof.
  apply (create_new_file_keeps_entries example_handler (PStr "f") (b "zz") update_example_fs
           "f" (File (b "aabbcc"))).
  - intros name E. injection E as <-. reflexivity.
  - reflexivity.
Defined.

Lemma create_then_delete_witness :
  FileActionHandler.delete_file example_handler (PStr "new.txt")
    (snd (FileActionHandler.create_new_file example_handler (PStr "new.txt")
            (b "data") update_example_fs)) =
  (Ok (status_message Action.DELETED_FILE_ACTION "Successfully deleted new.txt"),
   update_example_fs).
Proof.
  apply (create_then_delete example_handler "new.txt" (b "data") update_example_fs).
  - reflexivity.
  - reflexivity.
Defined.

Lemma delete_file_removes_witness :
  exists fs',
    FileActionHandler.delete_file example_handler (PStr "f") update_example_fs =
    (Ok (status_message Action.DELETED_FILE_ACTION "Successfully deleted f"),
     fs') /\
    fs_lookup "f" fs' = None /\
    forall other, other <> "f" ->
                  fs_lookup other fs' = fs_lookup other update_example_fs.
Proof.
  apply (delete_file_removes example_handler "f" (b "aabbcc") update_example_fs).
  - repeat constructor. simpl. tauto.
  - reflexivity.
Defined.

Lemma move_file_there_and_back_witness :
  exists fs',
    FileActionHandler.move_file example_handler (PStr "f") (PStr "g")
      update_example_fs =
    (Ok (status_message Action.MOVED_FILE_ACTION
           "Successfully moved file /srv/mirror/f to /srv/mirror/g"), fs') /\
    fs_lookup "g" fs' = fs_lookup "f" update_example_fs /\
    fs_lookup "f" fs' = None /\
    (forall other, other <> "f" -> other <> "g" ->
                   fs_lookup other fs' = fs_lookup other update_example_fs) /\
    snd (FileActionHandler.move_file example_handler (PStr "g") (PStr "f") fs') =
    update_example_fs.
Proof.
  apply (move_file_there_and_back example_handler "f" "g" update_example_fs).
  - reflexivity.
  - reflexivity.
  - repeat constructor. simpl. tauto.
  - reflexivity.
  - reflexivity.
Defined.

(** ** Effects on the directory *)

Lemma keeps_lift {A} (r : result A) : keeps_directory (fs_lift r).
Proof. intros fs. reflexivity. Qed.

Lemma keeps_query {A} (f : fs_dir -> A) : keeps_directory (fs_query f).
Proof. intros fs. reflexivity. Qed.

Lemma keeps_ret {A} (a : A) : keeps_directory (fs_ret a).
Proof. intros fs. reflexivity. Qed.

Lemma keeps_bind {A B} (m : fs_action A) (k : A -> fs_action B) :
  keeps_directory m -> (forall a, keeps_directory (k a)) ->
  keeps_directory (fs_bind m k).
Proof.
  intros Hm Hk fs. unfold fs_bind. specialize (Hm fs).
  destruct (m fs) as [[a|e] fs1]; simpl in Hm; subst fs1; [apply Hk|reflexivity].
Qed.

Lemma all_or_nothing_keeps {A} (m : fs_action A) :
  keeps_directory m -> all_or_nothing m.
Proof.
  intros Hm fs e fs' H. specialize (Hm fs). rewrite H in Hm. exact Hm.
Qed.

Lemma all_or_nothing_bind {A B} (m : fs_action A) (k : A -> fs_action B) :
  keeps_directory m -> (forall a, all_or_nothing (k a)) ->
  all_or_nothing (fs_bind m k).
Proof.
  intros Hm Hk fs e fs'. unfold fs_bind. specialize (Hm fs).
  destruct (m fs) as [[a|e0] fs1]; simpl in Hm; subst fs1.
  - apply Hk.
  - intros H. injection H as _ <-. reflexivity.
Qed.

Lemma all_or_nothing_call_ret {A} (f : fs_dir -> result fs_dir) (a : A) :
  all_or_nothing (fs_call f ;;; fs_ret a).
Proof.
  intros fs e fs'. run_fs. destruct (f fs) as [fs1|e0].
  - discriminate.
  - intros H. injection H as _ <-. reflexivity.
Qed.

Lemma all_or_nothing_then_ret {A B} (m : fs_action A) (g : A -> B) :
  all_or_nothing m -> all_or_nothing (fs_bind m (fun a => fs_ret (g a))).
Proof.
  intros Hm fs e fs'. run_fs. destruct (m fs) as [[a|e0] fs1] eqn:E.
  - discriminate.
  - intros H. injection H as _ <-. eapply Hm, E.
Qed.

Ltac effects :=
  repeat first
    [ apply keeps_lift | apply keeps_query | apply keeps_ret
    | apply all_or_nothing_call_ret
    | apply keeps_bind; [|intros ?]
    | apply all_or_nothing_bind; [|intros ?]
    | match goal with
      | |- keeps_directory (if ?c then _ else _) => destruct c
      | |- all_or_nothing (if ?c then _ else _) => destruct c
      | |- all_or_nothing (fs_ret _) => apply all_or_nothing_keeps
      | |- all_or_nothing (fs_lift _) => apply all_or_nothing_keeps
      end ].

Section Effects.
Context `{PyLib}.
Variable self : FileActionHandler.t.

Lemma enumerate_directory_keeps :
  keeps_directory (FileActionHandler.enumerate_directory self).
Proof. unfold FileActionHandler.enumerate_directory. effects. Qed.

Lemma create_file_recipe_keeps filename :
  keeps_directory (FileActionHandler.create_file_recipe self filename).
Proof. unfold FileActionHandler.create_file_recipe. effects. Qed.

Lemma create_new_file_all_or_nothing filename file_data :
  all_or_nothing (FileActionHandler.create_new_file self filename file_data).
Proof. unfold FileActionHandler.create_new_file. effects. Qed.

Lemma move_file_all_or_nothing src dst :
  all_or_nothing (FileActionHandler.move_file self src dst).
Proof. unfold FileActionHandler.move_file. effects. Qed.

Lemma delete_file_all_or_nothing filename :
  all_or_nothing (FileActionHandler.delete_file self filename).
Proof. unfold FileActionHandler.delete_file. effects. Qed.

Lemma update_file_all_or_nothing recipe :
  all_or_nothing (FileActionHandler.update_file self recipe).
Proof. unfold FileActionHandler.update_file. effects. Qed.

Lemma handle_request_effects (request : pyval) :
  all_or_nothing (FileActionHandler.handle_request self request).
Proof.
  unfold FileActionHandler.handle_request.
  apply all_or_nothing_bind; [apply keeps_lift|intros action].
  apply all_or_nothing_then_ret.
  repeat match goal with
         | |- all_or_nothing (if ?c then _ else _) => destruct c
         end.
  - apply all_or_nothing_keeps, enumerate_directory_keeps.
  - effects; apply create_new_file_all_or_nothing.
  - effects; apply move_file_all_or_nothing.
  - effects; apply delete_file_all_or_nothing.
  - effects; apply all_or_nothing_keeps, create_file_recipe_keeps.
  - effects; apply update_file_all_or_nothing.
  - effects.
Qed.

(** X11. [handle_request] changes the directory only when it returns a
    response: whenever it raises, whatever the request, the directory is
    as it was. *)
Theorem handle_request_all_or_nothing
  (request : pyval) (fs : fs_dir) (e : exn) (fs' : fs_dir) :
  FileActionHandler.handle_request self request fs = (Raise e, fs') ->
  fs' = fs.
Proof. apply handle_request_effects. Qed.

(** X12. Listing the directory and computing a recipe only read: an
    [EnumerateDirectory] or [FileRecipe] request leaves the directory as
    it was, whether it is answered or raises. *)
Theorem read_only_requests (request : pyval) (action : Z) (fs : fs_dir) :
  action_of request = Ok action ->
  action = Action.ENUMERATE_REMOTE_DIR_ACTION \/
  action = Action.FILE_RECIPE_ACTION ->
  snd (FileActionHandler.handle_request self request fs) = fs.
Proof.
  unfold action_of. intros Ha Hact.
  unfold FileActionHandler.handle_request.
  unfold fs_bind at 1. unfold fs_lift at 1. rewrite Ha.
  generalize fs. apply keeps_bind; [|intros result; apply keeps_ret].
  destruct Hact as [-> | ->]; simpl.
  - apply enumerate_directory_keeps.
  - effects; apply create_file_recipe_keeps.
Qed.

End Effects.

Lemma handle_request_all_or_nothing_witness :
  snd (@FileActionHandler.handle_request reference_lib example_handler
         recipe_request_example update_example_fs) = update_example_fs.
Proof.
  apply (@handle_request_all_or_nothing reference_lib example_handler
           recipe_request_example update_example_fs recipe_error).
  reflexivity.
Defined.

Lemma read_only_requests_witness :
  snd (@FileActionHandler.handle_request reference_lib example_handler
         (request_content RequestDispatcher.enumerate_remote_directory)
         nested_example_fs) = nested_example_fs.
Proof.
  apply (@read_only_requests reference_lib example_handler
           (request_content RequestDispatcher.enumerate_remote_directory)
           Action.ENUMERATE_REMOTE_DIR_ACTION nested_example_fs).
  - reflexivity.
  - left. reflexivity.
Defined.

(** ** Running a request again *)

Section Again.
Context `{PyLib}.
Variable self : FileActionHandler.t.

Lemma create_new_file_run name file_data fs :
  FileActionHandler.create_new_file self (PStr name) file_data fs =
  match fs_lookup name fs with
  | Some _ =>
      (Ok (status_message Action.NEW_FILE_ACTION
             ("Filename " ++ name ++ " already exists, cannot save as new")%string),
       fs)
  | None =>
      (Ok (status_message Action.NEW_FILE_ACTION
             ("Successfully uploaded " ++ name)%string),
       fs ++ [(name, File file_data)])
  end.
Proof.
  unfold FileActionHandler.create_new_file. run_fs. cbn [py_path_name].
  rewrite fs_exists_lookup. unfold fs_write.
  destruct (fs_lookup name fs) as [x|] eqn:Hl; [reflexivity|].
  cbv beta iota. rewrite Hl, fs_set_fresh by exact Hl. reflexivity.
Qed.

Lemma delete_file_run name fs :
  FileActionHandler.delete_file self (PStr name) fs =
  match fs_lookup name fs with
  | Some (File _) =>
      (Ok (status_message Action.DELETED_FILE_ACTION
             ("Successfully deleted " ++ name)%string),
       fs_remove_entry name fs)
  | Some (Dir _) => (Raise IsADirectoryError, fs)
  | None =>
      (Ok (status_message Action.DELETED_FILE_ACTION
             ("Filename " ++ name ++ " doesn't exist, cannot delete")%string),
       fs)
  end.
Proof.
  unfold FileActionHandler.delete_file. run_fs. cbn [py_path_name].
  rewrite fs_exists_lookup. unfold fs_unlink.
  destruct (fs_lookup name fs) as [[c|es]|] eqn:Hl; cbv beta iota;
    rewrite ?Hl; reflexivity.
Qed.

Lemma move_file_run src dst fs :
  FileActionHandler.move_file self (PStr src) (PStr dst) fs =
  match fs_lookup src fs, fs_lookup dst fs with
  | None, _ =>
      (Ok (status_message Action.MOVED_FILE_ACTION
             ("The source file " ++ FileActionHandler.path_str self src ++
              " doesn't exist and cannot be renamed")%string), fs)
  | Some _, Some _ => (Ok (PBool false), fs)
  | Some _, None =>
      (Ok (status_message Action.MOVED_FILE_ACTION
             ("Successfully moved file " ++ FileActionHandler.path_str self src ++
              " to " ++ FileActionHandler.path_str self dst)%string),
       fs_rename_entry src dst fs)
  end.
Proof.
  unfold FileActionHandler.move_file. run_fs. cbn [py_path_name].
  unfold fs_rename. rewrite fs_exists_lookup.
  destruct (fs_lookup src fs) as [x|] eqn:Hs; [|reflexivity].
  cbn [negb]. cbv beta iota. rewrite fs_exists_lookup.
  destruct (fs_lookup dst fs) as [y|] eqn:Hd; [reflexivity|].
  cbv beta iota. rewrite fs_exists_lookup, Hs. reflexivity.
Qed.

Lemma not_a_name_raises (filename : pyval) :
  (forall name, filename <> PStr name) -> py_path_name filename = Raise TypeError.
Proof.
  intros Hn. destruct filename; try reflexivity. exfalso. eapply Hn. reflexivity.
Qed.

Lemma create_new_file_again filename file_data fs :
  snd (FileActionHandler.create_new_file self filename file_data
         (snd (FileActionHandler.create_new_file self filename file_data fs))) =
  snd (FileActionHandler.create_new_file self filename file_data fs).
Proof.
  destruct filename as [| | |name| |]; try reflexivity.
  rewrite (create_new_file_run name file_data fs).
  destruct (fs_lookup name fs) as [x|] eqn:Hl; cbn [snd];
    rewrite create_new_file_run.
  - rewrite Hl. reflexivity.
  - rewrite <- (fs_set_fresh name (File file_data) fs Hl), fs_lookup_set.
    reflexivity.
Qed.

Lemma delete_file_again filename fs :
  NoDup (map fst fs) ->
  snd (FileActionHandler.delete_file self filename
         (snd (FileActionHandler.delete_file self filename fs))) =
  snd (FileActionHandler.delete_file self filename fs).
Proof.
  intros Hn. destruct filename as [| | |name| |]; try reflexivity.
  rewrite (delete_file_run name fs).
  destruct (fs_lookup name fs) as [[c|es]|] eqn:Hl; cbn [snd];
    rewrite delete_file_run.
  - rewrite fs_lookup_remove_same by exact Hn. reflexivity.
  - rewrite Hl. reflexivity.
  - rewrite Hl. reflexivity.
Qed.

Lemma move_file_again src dst fs :
  NoDup (map fst fs) ->
  snd (FileActionHandler.move_file self src dst
         (snd (FileActionHandler.move_file self src dst fs))) =
  snd (FileActionHandler.move_file self src dst fs).
Proof.
  intros Hn.
  destruct src as [| | |src| |]; try reflexivity.
  destruct dst as [| | |dst| |]; try reflexivity.
  rewrite (move_file_run src dst fs).
  destruct (fs_lookup src fs) as [x|] eqn:Hs.
  - destruct (fs_lookup dst fs) as [y|] eqn:Hd; cbn [snd];
      rewrite move_file_run.
    + rewrite Hs, Hd. reflexivity.
    + assert (Hne : src <> dst) by congruence.
      rewrite fs_lookup_rename_src by assumption. reflexivity.
  - cbn [snd]. rewrite move_file_run, Hs. reflexivity.
Qed.

Lemma snd_then_ret {A B} (m : fs_action A) (g : A -> B) fs :
  snd (fs_bind m (fun a => fs_ret (g a)) fs) = snd (m fs).
Proof. run_fs. destruct (m fs) as [[a|e] fs1]; reflexivity. Qed.

Ltac split_result :=
  match goal with
  | |- context [match ?r with Ok _ => _ | Raise _ => _ end] =>
      destruct r; cbn [snd bind]; try reflexivity
  end.

Lemma new_file_effect request fs :
  action_of request = Ok Action.NEW_FILE_ACTION ->
  snd (FileActionHandler.handle_request self request fs) =
  snd ((data <~ fs_lift (py_get request "data") ;;
        filename <~ fs_lift (py_get data "filename") ;;
        filedata <~ fs_lift (py_get data "filedata") ;;
        file_contents <~
          fs_lift (match filedata with
                   | PNone => Ok []
                   | _ => py_b64decode filedata
                   end) ;;
        FileActionHandler.create_new_file self filename file_contents) fs).
Proof.
  unfold action_of. intros Ha.
  unfold FileActionHandler.handle_request.
  unfold fs_bind at 1. unfold fs_lift at 1. rewrite Ha.
  rewrite snd_then_ret. reflexivity.
Qed.

Lemma move_file_effect request fs :
  action_of request = Ok Action.MOVED_FILE_ACTION ->
  snd (FileActionHandler.handle_request self request fs) =
  snd ((data <~ fs_lift (py_get request "data") ;;
        src_file <~ fs_lift (py_get data "source_filename") ;;
        dest_file <~ fs_lift (py_get data "destination_filename") ;;
        FileActionHandler.move_file self src_file dest_file) fs).
Proof.
  unfold action_of. intros Ha.
  unfold FileActionHandler.handle_request.
  unfold fs_bind at 1. unfold fs_lift at 1. rewrite Ha.
  rewrite snd_then_ret. reflexivity.
Qed.

Lemma delete_file_effect request fs :
  action_of request = Ok Action.DELETED_FILE_ACTION ->
  snd (FileActionHandler.handle_request self request fs) =
  snd ((data <~ fs_lift (py_get request "data") ;;
        filename <~ fs_lift (py_get data "filename") ;;
        FileActionHandler.delete_file self filename) fs).
Proof.
  unfold action_of. intros Ha.
  unfold FileActionHandler.handle_request.
  unfold fs_bind at 1. unfold fs_lift at 1. rewrite Ha.
  rewrite snd_then_ret. reflexivity.
Qed.

(** X13. The directory effect of a [NewFile], [MoveFile] or [DeleteFile]
    request is idempotent: handling the same request a second time
    leaves the directory as the first handling left it. *)
Theorem handle_request_again (request : pyval) (action : Z) (fs : fs_dir) :
  NoDup (map fst fs) ->
  action_of request = Ok action ->
  Action.NEW_FILE_ACTION <= action <= Action.DELETED_FILE_ACTION ->
  snd (FileActionHandler.handle_request self request
         (snd (FileActionHandler.handle_request self request fs))) =
  snd (FileActionHandler.handle_request self request fs).
Proof.
  intros Hn Ha Hact.
  assert (Hc : action = Action.NEW_FILE_ACTION \/
               action = Action.MOVED_FILE_ACTION \/
               action = Action.DELETED_FILE_ACTION).
  { unfold Action.NEW_FILE_ACTION, Action.MOVED_FILE_ACTION,
      Action.DELETED_FILE_ACTION in *. lia. }
  destruct Hc as [-> | [-> | ->]].
  - rewrite !new_file_effect by exact Ha. run_fs.
    repeat split_result. apply create_new_file_again.
  - rewrite !move_file_effect by exact Ha. run_fs.
    repeat split_result. apply move_file_again, Hn.
  - rewrite !delete_file_effect by exact Ha. run_fs.
    repeat split_result. apply delete_file_again, Hn.
Qed.

(** X14. A request without an [action] member is refused before anything
    is looked at: [int(None)] raises [TypeError] and the directory is as
    it was. *)
Theorem handle_request_without_action
  (members : list (pykey * pyval)) (fs : fs_dir) :
  dict_get pykey_eqb (KStr "action") members = None ->
  FileActionHandler.handle_request self (PDict members) fs =
  (Raise TypeError, fs).
Proof.
  intros Hm. unfold FileActionHandler.handle_request. run_fs.
  cbn [py_get]. rewrite Hm. reflexivity.
Qed.

End Again.

Lemma handle_request_again_witness :
  snd (@FileActionHandler.handle_request reference_lib example_handler
         new_file_example
         (snd (@FileActionHandler.handle_request reference_lib example_handler
                 new_file_example update_example_fs))) =
  snd (@FileActionHandler.handle_request reference_lib example_handler
         new_file_example update_example_fs).
Proof.
  apply (@handle_request_again reference_lib example_handler new_file_example
           Action.NEW_FILE_ACTION update_example_fs).
  - repeat constructor. simpl. tauto.
  - reflexivity.
  - unfold Action.NEW_FILE_ACTION, Action.DELETED_FILE_ACTION. lia.
Defined.

Lemma handle_request_without_action_witness :
  @FileActionHandler.handle_request reference_lib example_handler
    (PDict [(KStr "data", PNone)]) update_example_fs =
  (Raise TypeError, update_example_fs).
Proof.
  apply (@handle_request_without_action reference_lib example_handler
           [(KStr "data", PNone)] update_example_fs).
  reflexivity.
Defined.

(** ** An update that carries every block *)

Lemma firstn_add {A} (a c : nat) (l : list A) :
  firstn (a + c) l = firstn a l ++ firstn c (skipn a l).
Proof.
  revert l. induction a as [|a IH]; intros l; [reflexivity|].
  destruct l as [|x l]; [simpl; rewrite firstn_nil; reflexivity|].
  simpl. f_equal. apply IH.
Qed.

(** [k] consecutive slices, from the [a]-th on, are one longer slice. *)
Lemma concat_block_slices n (data : bytes) a k :
  concat (map (block_slice n data) (seq a k)) =
  firstn (k * Z.to_nat n) (skipn (a * Z.to_nat n) data).
Proof.
  revert a. induction k as [|k IH]; intros a; [reflexivity|].
  cbn [seq map concat]. rewrite IH. unfold block_slice.
  replace (S k * Z.to_nat n)%nat with (Z.to_nat n + k * Z.to_nat n)%nat
    by (simpl; lia).
  rewrite firstn_add, skipn_skipn. reflexivity.
Qed.

Lemma block_count_covers n (data : bytes) :
  0 < n -> (length data <= block_count n data * Z.to_nat n)%nat.
Proof.
  intros Hn. unfold block_count.
  assert (HN : Z.to_nat n <> 0%nat) by lia.
  pose proof (Nat.div_mod_eq (length data + Z.to_nat n - 1) (Z.to_nat n)) as E.
  pose proof (Nat.mod_upper_bound (length data + Z.to_nat n - 1) (Z.to_nat n) HN).
  nia.
Qed.

Lemma dict_get_numbered {V} (f : nat -> V) a m k :
  dict_get Z.eqb k (map (fun i => (Z.of_nat i, f i)) (seq a m)) =
  if (Z.of_nat a <=? k) && (k <? Z.of_nat (a + m))
  then Some (f (Z.to_nat k)) else None.
Proof.
  revert a. induction m as [|m IH]; intros a.
  - simpl. rewrite Nat.add_0_r.
    destruct (Z.leb_spec (Z.of_nat a) k), (Z.ltb_spec k (Z.of_nat a));
      try reflexivity. lia.
  - cbn [seq map dict_get]. rewrite IH.
    destruct (Z.eqb_spec k (Z.of_nat a)) as [->|Hne].
    + rewrite Nat2Z.id.
      destruct (Z.leb_spec (Z.of_nat a) (Z.of_nat a)); [|lia].
      destruct (Z.ltb_spec (Z.of_nat a) (Z.of_nat (a + S m))); [|lia].
      reflexivity.
    + destruct (Z.leb_spec (Z.of_nat (S a)) k), (Z.leb_spec (Z.of_nat a) k),
        (Z.ltb_spec k (Z.of_nat (S a + m))), (Z.ltb_spec k (Z.of_nat (a + S m)));
        try reflexivity; lia.
Qed.

Lemma numbered_keys {V} (f : nat -> V) m :
  dict_keys (map (fun i => (Z.of_nat i, f i)) (seq 0 m)) = indices 0 m.
Proof. unfold dict_keys, indices. rewrite map_map. reflexivity. Qed.

Lemma create_file_from_blks_numbered (f : nat -> bytes) m :
  create_file_from_blks (map (fun i => (Z.of_nat i, f i)) (seq 0 m)) =
  concat (map f (seq 0 m)).
Proof.
  rewrite <- combine_indices_seq.
  set (blocks := map f (seq 0 m)).
  assert (Hl : m = length blocks).
  { unfold blocks. rewrite length_map, length_seq. reflexivity. }
  pose proof (number_blocks_spec (fun block => block) blocks) as E.
  rewrite map_id, <- Hl in E. rewrite <- E.
  rewrite create_file_from_blks_values. f_equal.
  apply block_values_number_blocks.
Qed.

Section EveryBlock.
Context `{PyLib}.

Lemma decode_encoded_blocks (blocks acc : pydict Z bytes) :
  (forall kv, In kv blocks -> b64decode (b64encode (snd kv)) = Ok (snd kv)) ->
  FileActionHandler.decode_blocks (encoded_blocks blocks) acc =
  Ok (dict_merge Z.eqb acc blocks).
Proof.
  revert acc. induction blocks as [|[k v] blocks IH]; intros acc Hb.
  - reflexivity.
  - cbn [encoded_blocks map FileActionHandler.decode_blocks fst snd
         py_int_key py_b64decode bind].
    pose proof (Hb (k, v) (or_introl eq_refl)) as Hv. cbn [snd] in Hv.
    rewrite Hv. cbn [bind].
    apply IH. intros kv Hkv. apply Hb. right. exact Hkv.
Qed.

(** The file [update_file] writes when the payload carries every block of
    [new] and the file held [old]. *)
Lemma merged_with_every_block n (old new : bytes) :
  0 < n ->
  create_file_from_blks
    (dict_merge Z.eqb
       (number_blocks (fun block => block) (read_blocks (Some n) old))
       (dict_merge Z.eqb []
          (number_blocks (fun block => block) (read_blocks (Some n) new)))) =
  new ++ skipn (block_count n new * Z.to_nat n) old.
Proof.
  intros Hn. rewrite !number_blocks_slices by exact Hn.
  set (N := Z.to_nat n). set (co := block_count n old).
  set (cn := block_count n new).
  set (U := map (fun i => (Z.of_nat i, block_slice n new i)) (seq 0 cn)).
  set (F := map (fun i => (Z.of_nat i, block_slice n old i)) (seq 0 co)).
  set (val := fun i => if (i <? cn)%nat then block_slice n new i
                       else block_slice n old i).
  assert (NU : NoDup (dict_keys U)).
  { unfold U. rewrite numbered_keys. apply indices_NoDup. }
  assert (NF : NoDup (dict_keys F)).
  { unfold F. rewrite numbered_keys. apply indices_NoDup. }
  assert (Nu : NoDup (dict_keys (dict_merge Z.eqb [] U))).
  { apply dict_merge_NoDup. constructor. }
  rewrite (create_file_from_blks_ext _
             (map (fun i => (Z.of_nat i, val i)) (seq 0 (cn + (co - cn))))).
  - rewrite create_file_from_blks_numbered, seq_app, map_app, concat_app.
    rewrite (map_ext_in val (block_slice n new) (seq 0 cn)).
    2:{ intros i Hi. apply in_seq in Hi. unfold val.
        destruct (Nat.ltb_spec i cn); [reflexivity|lia]. }
    rewrite (map_ext_in val (block_slice n old) (seq (0 + cn) (co - cn))).
    2:{ intros i Hi. apply in_seq in Hi. unfold val.
        destruct (Nat.ltb_spec i cn); [lia|reflexivity]. }
    rewrite !concat_block_slices. fold N. cbn [Nat.mul skipn Nat.add].
    pose proof (block_count_covers n new Hn) as Hcn.
    pose proof (block_count_covers n old Hn) as Hco.
    fold N cn in Hcn. fold N co in Hco.
    rewrite firstn_all2 by exact Hcn. f_equal.
    apply firstn_all2. rewrite length_skipn.
    destruct (Nat.le_gt_cases co cn) as [Hle|Hgt].
    + assert (co * N <= cn * N)%nat by (apply Nat.mul_le_mono_r; exact Hle). lia.
    + replace ((co - cn) * N)%nat with (co * N - cn * N)%nat
        by (rewrite Nat.mul_sub_distr_r; reflexivity). lia.
  - apply dict_merge_NoDup, NF.
  - rewrite numbered_keys. apply indices_NoDup.
  - intros k. rewrite dict_get_merge by exact Nu.
    rewrite dict_get_merge by exact NU. cbn [dict_get].
    unfold U, F. rewrite !dict_get_numbered. unfold val.
    destruct (Z.leb_spec (Z.of_nat 0) k); cbn [andb]; [|reflexivity].
    destruct (Z.ltb_spec k (Z.of_nat (0 + cn))),
             (Z.ltb_spec k (Z.of_nat (0 + co))),
             (Z.ltb_spec k (Z.of_nat (0 + (cn + (co - cn)))));
      destruct (Nat.ltb_spec (Z.to_nat k) cn); try reflexivity; lia.
Qed.

(** X15. An [UpdateFile] request that carries every block of the
    requester's file (which is what [_update_file_by_recipe] sends for a
    recipe received through [json]) makes the file the requester's
    content followed by whatever the old file had beyond the requester's
    last block: the file is replaced when the old one had no more blocks,
    and keeps a stale tail otherwise. *)
Theorem update_file_every_block
  (self : FileActionHandler.t) (name : string) (n : Z) (old new : bytes)
  (fs : fs_dir) :
  0 < n ->
  fs_lookup name fs = Some (File old) ->
  blocks_survive_base64 n new ->
  FileActionHandler.update_file self (every_block_update name n new) fs =
  (Ok (status_message Action.UPDATED_FILE_ACTION
         ("Successfully updated " ++ name)%string),
   dict_set String.eqb name
     (File (new ++ skipn (block_count n new * Z.to_nat n) old)) fs).
Proof.
  intros Hn Hl Hb.
  unfold FileActionHandler.update_file, every_block_update. run_fs.
  cbn [py_get dict_get pykey_eqb String.eqb Ascii.eqb Bool.eqb py_items
       bind py_path_name py_read_size].
  rewrite decode_encoded_blocks.
  2:{ intros [k v] Hkv. cbn [snd]. apply Hb.
      rewrite number_blocks_spec, map_id in Hkv.
      apply in_combine_r in Hkv. exact Hkv. }
  rewrite fs_exists_lookup, Hl. cbn [negb].
  unfold fs_open_read. rewrite Hl.
  unfold create_block_list, iter_read, read_size_valid.
  destruct (Z.leb_spec (-1) n); [|lia]. cbn [bind].
  unfold fs_write. rewrite Hl.
  rewrite merged_with_every_block by exact Hn. reflexivity.
Qed.

End EveryBlock.

Lemma update_file_every_block_witness :
  @FileActionHandler.update_file reference_lib example_handler
    (@every_block_update reference_lib "f" 2 (b "xyz")) update_example_fs =
  (Ok (status_message Action.UPDATED_FILE_ACTION "Successfully updated f"),
   [("f", File (b "xyzcc"))]).
Proof.
  apply (@update_file_every_block reference_lib example_handler "f" 2
           (b "aabbcc") (b "xyz") update_example_fs).
  - lia.
  - reflexivity.
  - intros block Hin. vm_compute in Hin.
    destruct Hin as [<-|[<-|[]]]; reflexivity.
Defined.

(** ** Reading a frame that arrives in pieces *)

Lemma Z_of_byte_nonneg x : 0 <= Z_of_byte x.
Proof. unfold Z_of_byte. lia. Qed.

Lemma slice_to_more (x y : bytes) n :
  0 <= n <= len x -> slice_to n (x ++ y) = slice_to n x.
Proof.
  unfold slice_to, len. intros Hn. destruct (Z.ltb_spec n 0); [lia|].
  rewrite firstn_app. replace (Z.to_nat n - length x)%nat with 0%nat by lia.
  rewrite firstn_O, app_nil_r. reflexivity.
Qed.

Lemma slice_from_more (x y : bytes) n :
  0 <= n <= len x -> slice_from n (x ++ y) = slice_from n x ++ y.
Proof.
  unfold slice_from, len. intros Hn. destruct (Z.ltb_spec n 0); [lia|].
  rewrite skipn_app. replace (Z.to_nat n - length x)%nat with 0%nat by lia.
  reflexivity.
Qed.

Lemma len_slice_from (x : bytes) n :
  0 <= n <= len x -> len (slice_from n x) = len x - n.
Proof.
  unfold slice_from, len. intros Hn. destruct (Z.ltb_spec n 0); [lia|].
  rewrite length_skipn. lia.
Qed.

Lemma struct_unpack_two (x : bytes) :
  2 <= len x ->
  exists n, struct_unpack_H (slice_to 2 x) = Ok n /\ 0 <= n.
Proof.
  unfold len. intros Hx.
  destruct x as [|hi [|lo x]]; simpl in Hx; try lia.
  eexists. split; [reflexivity|].
  pose proof (Z_of_byte_nonneg hi). pose proof (Z_of_byte_nonneg lo). lia.
Qed.

Ltac msg_simpl :=
  cbn [bind AbstractMessage.header_length AbstractMessage.header
       AbstractMessage.receive_buffer AbstractMessage.send_buffer
       AbstractMessage.registered AbstractMessage.closed
       AbstractMessage.set_receive_buffer AbstractMessage.set_send_buffer
       AbstractMessage.set_header_length AbstractMessage.set_header
       AbstractMessage._set_selector_events_mask AbstractMessage.close].

Section Chunks.
Context `{PyLib}.

Lemma read_received (data : bytes) (m : AbstractMessage.t) :
  data <> [] ->
  AbstractMessage.read (received data) m =
  parse_buffered
    (AbstractMessage.set_receive_buffer
       (AbstractMessage.receive_buffer m ++ data) m).
Proof.
  intros Hd. destruct data as [|c data]; [congruence|]. reflexivity.
Qed.

Lemma parse_more (m : AbstractMessage.t) (more : bytes) :
  AbstractMessage.header_length m = None ->
  (m1 <- parse_buffered m ;;
   parse_buffered
     (AbstractMessage.set_receive_buffer
        (AbstractMessage.receive_buffer m1 ++ more) m1)) =
  parse_buffered
    (AbstractMessage.set_receive_buffer
       (AbstractMessage.receive_buffer m ++ more) m).
Proof.
  intros Hhl. destruct m as [buf sbuf hl hdr reg cl].
  simpl in Hhl. subst hl.
  unfold parse_buffered.
  msg_simpl.
  unfold AbstractMessage.process_preheader.
  msg_simpl.
  destruct (Z.geb_spec (len buf) 2) as [Hbig|Hsmall].
  - (* the length prefix is complete in the first piece *)
    assert (Hbig' : 2 <= len buf) by lia.
    destruct (struct_unpack_two buf Hbig') as [n [Hn Hpos]].
    assert (Hlen : (len (buf ++ more) >=? 2) = true).
    { apply Z.geb_le. rewrite len_app. pose proof (len_nonneg more). lia. }
    rewrite Hlen, slice_to_more, slice_from_more by lia.
    rewrite Hn.
    msg_simpl.
    destruct hdr as [h|].
    + reflexivity.
    + unfold AbstractMessage.process_header.
      msg_simpl.
      destruct (Z.geb_spec (len (slice_from 2 buf)) n) as [Hfull|Hpart].
      * (* the header is complete in the first piece as well *)
        assert (Hlen' : (len (slice_from 2 buf ++ more) >=? n) = true).
        { apply Z.geb_le. rewrite len_app. pose proof (len_nonneg more). lia. }
        rewrite Hlen', slice_to_more, slice_from_more by lia.
        destruct (decode_json (slice_to n (slice_from 2 buf)) "utf-8")
          as [h|e]; [|reflexivity].
        cbn [bind].
        destruct (AbstractMessage.check_required h
                    AbstractMessage.required_headers) as [[]|e]; reflexivity.
      * reflexivity.
  - (* not even the length prefix yet *)
    reflexivity.
Qed.

(** X16. The state after reading does not depend on how the stream was cut
    into [recv] results: a session that has not seen the length prefix
    yet ends up the same, or raises the same exception, whether two
    pieces arrive one after the other or joined in one [recv] of at most
    4096 bytes. *)
Theorem read_in_two_pieces (m : AbstractMessage.t) (first second : bytes) :
  AbstractMessage.header_length m = None ->
  first <> [] -> second <> [] ->
  len (first ++ second) <= 4096 ->
  (m1 <- AbstractMessage.read (received first) m ;;
   AbstractMessage.read (received second) m1) =
  AbstractMessage.read (received (first ++ second)) m.
Proof.
  intros Hhl H1 H2 _.
  rewrite !read_received;
    try assumption; try (destruct first; [congruence|discriminate]).
  assert (E : forall m1,
             AbstractMessage.read (received second) m1 =
             parse_buffered
               (AbstractMessage.set_receive_buffer
                  (AbstractMessage.receive_buffer m1 ++ second) m1)).
  { intros m1. apply read_received, H2. }
  replace (m1 <- parse_buffered
                   (AbstractMessage.set_receive_buffer
                      (AbstractMessage.receive_buffer m ++ first) m) ;;
           AbstractMessage.read (received second) m1)
    with (m1 <- parse_buffered
                   (AbstractMessage.set_receive_buffer
                      (AbstractMessage.receive_buffer m ++ first) m) ;;
          parse_buffered
            (AbstractMessage.set_receive_buffer
               (AbstractMessage.receive_buffer m1 ++ second) m1)).
  - rewrite parse_more by (destruct m; exact Hhl).
    destruct m as [buf sbuf hl hdr reg cl].
    msg_simpl.
    rewrite <- app_assoc. reflexivity.
  - destruct (parse_buffered _) as [m1|e]; [|reflexivity].
    cbn [bind]. symmetry. apply E.
Qed.

End Chunks.

Lemma read_in_two_pieces_witness :
  let frame :=
    [x00; byte_of_Z (len example_header_bytes)] ++
    example_header_bytes ++ example_payload in
  (m1 <- @AbstractMessage.read reference_lib (received (firstn 7 frame))
           (AbstractMessage.init EVENT_READ) ;;
   @AbstractMessage.read reference_lib (received (skipn 7 frame)) m1) =
  @AbstractMessage.read reference_lib
    (received (firstn 7 frame ++ skipn 7 frame))
    (AbstractMessage.init EVENT_READ).
Proof.
  apply (@read_in_two_pieces reference_lib (AbstractMessage.init EVENT_READ)).
  - reflexivity.
  - discriminate.
  - discriminate.
  - vm_compute. discriminate.
Defined.

(** ** The header's required members *)

(** X17. Once the announced number of header bytes is buffered and they
    decode to a dictionary, [process_header] keeps the header and cuts it
    off the buffer when [byteorder], [content-length] and
    [content-encoding] are all present, and raises [ValueError]
    otherwise. *)
Theorem process_header_required `{PyLib}
  (m : AbstractMessage.t) (length : Z) (members : list (pykey * pyval)) :
  AbstractMessage.header_length m = Some length ->
  (len (AbstractMessage.receive_buffer m) >=? length) = true ->
  decode_json (slice_to length (AbstractMessage.receive_buffer m)) "utf-8" =
    Ok (PDict members) ->
  AbstractMessage.process_header m =
  if forallb (fun required => dict_mem pykey_eqb (KStr required) members)
       AbstractMessage.required_headers
  then Ok (AbstractMessage.set_receive_buffer
             (slice_from length (AbstractMessage.receive_buffer m))
             (AbstractMessage.set_header (Some (PDict members)) m))
  else Raise ValueError.
Proof.
  intros Hl Hb Hd. unfold AbstractMessage.process_header.
  rewrite Hl, Hb, Hd. cbn [bind].
  unfold AbstractMessage.required_headers.
  cbn [AbstractMessage.check_required py_contains bind forallb].
  destruct (dict_mem pykey_eqb (KStr "byteorder") members); [|reflexivity].
  destruct (dict_mem pykey_eqb (KStr "content-length") members); [|reflexivity].
  destruct (dict_mem pykey_eqb (KStr "content-encoding") members); reflexivity.
Qed.

Lemma process_header_required_witness :
  @AbstractMessage.process_header reference_lib
    (AbstractMessage.set_header_length (Some 18)
       (AbstractMessage.set_receive_buffer
          (Reference.bytes_of_str
             (string_of_list_ascii
                (Reference.dumps (PDict [(KStr "byteorder", PStr "x")]))))
          (AbstractMessage.init EVENT_READ))) =
  Raise ValueError.
Proof.
  apply (@process_header_required reference_lib
           (AbstractMessage.set_header_length (Some 18)
              (AbstractMessage.set_receive_buffer
                 (Reference.bytes_of_str
                    (string_of_list_ascii
                       (Reference.dumps (PDict [(KStr "byteorder", PStr "x")]))))
                 (AbstractMessage.init EVENT_READ)))
           18 [(KStr "byteorder", PStr "x")]).
  - reflexivity.
  - reflexivity.
  - vm_compute. reflexivity.
Defined.

(** ** The length of a frame *)

Lemma struct_pack_H_length n packed :
  struct_pack_H n = Ok packed -> len packed = 2.
Proof.
  unfold struct_pack_H. destruct ((0 <=? n) && (n <=? 65535)); [|discriminate].
  intros E. injection E as <-. reflexivity.
Qed.

(** X18. [create_message] puts two length bytes, the encoded header and
    the payload one after the other, so the frame is [2 + len(header) +
    len(payload)] bytes long; it raises [struct.error], and sends
    nothing, exactly when the encoded header is longer than 65535
    bytes. *)
Theorem create_message_length `{PyLib}
  (content_bytes : bytes) (content_encoding : string) (header_bytes : bytes) :
  encode_json (header_of content_bytes content_encoding) "utf-8" =
    Ok header_bytes ->
  if len header_bytes <=? 65535 then
    exists message,
      create_message content_bytes content_encoding = Ok message /\
      len message = 2 + len header_bytes + len content_bytes /\
      slice_from 2 message = header_bytes ++ content_bytes
  else
    create_message content_bytes content_encoding = Raise StructError.
Proof.
  intros He. unfold create_message. rewrite He. cbn [bind].
  unfold struct_pack_H. pose proof (len_nonneg header_bytes) as Hpos.
  destruct (Z.leb_spec 0 (len header_bytes)); [|lia]. cbn [andb].
  destruct (len header_bytes <=? 65535); [|reflexivity].
  cbn [bind]. eexists. split; [reflexivity|]. split.
  - rewrite len_app, len_app.
    change (len [byte_of_Z (len header_bytes / 256);
                 byte_of_Z (len header_bytes mod 256)]) with 2. lia.
  - reflexivity.
Qed.

Lemma create_message_length_witness :
  exists message,
    @create_message reference_lib example_payload "utf-8" = Ok message /\
    len message = 2 + len example_header_bytes + len example_payload /\
    slice_from 2 message = example_header_bytes ++ example_payload.
Proof.
  exact (@create_message_length reference_lib example_payload "utf-8"
           example_header_bytes eq_refl).
Defined.

(** ** Write events on the responder's side *)

Ltac server_simpl :=
  cbn [ServerSideMessage.base ServerSideMessage.request
       ServerSideMessage.response_created ServerSideMessage.file_action_handler
       ServerSideMessage.set_base ServerSideMessage.set_request
       ServerSideMessage.set_response_created ServerSideMessage.close].

Section ServerWrite.
Context `{PyLib}.

Lemma server_write_keeps (io : socket_io) (m : ServerSideMessage.t) :
  ServerSideMessage.request (ServerSideMessage._write io m) =
    ServerSideMessage.request m /\
  ServerSideMessage.response_created (ServerSideMessage._write io m) =
    ServerSideMessage.response_created m /\
  ServerSideMessage.file_action_handler (ServerSideMessage._write io m) =
    ServerSideMessage.file_action_handler m /\
  AbstractMessage.send_buffer (ServerSideMessage.base (ServerSideMessage._write io m)) =
    match sent io with
    | Some n => skipn n (AbstractMessage.send_buffer (ServerSideMessage.base m))
    | None => AbstractMessage.send_buffer (ServerSideMessage.base m)
    end.
Proof.
  unfold ServerSideMessage._write.
  destruct (AbstractMessage.send_buffer (ServerSideMessage.base m))
    as [|x buf] eqn:Eb.
  - rewrite Eb. destruct (sent io) as [n|]; [rewrite skipn_nil|]; auto.
  - destruct (sent io) as [n|]; [|rewrite Eb; auto].
    destruct n as [|n]; [server_simpl; msg_simpl; auto|].
    destruct (skipn (S n) (x :: buf)) eqn:Es; server_simpl; msg_simpl; auto.
Qed.

Lemma create_response_keeps content (m m' : ServerSideMessage.t) :
  ServerSideMessage.create_response content m = Ok m' ->
  ServerSideMessage.request m' = ServerSideMessage.request m /\
  ServerSideMessage.response_created m' = true /\
  ServerSideMessage.file_action_handler m' =
    ServerSideMessage.file_action_handler m.
Proof.
  unfold ServerSideMessage.create_response. intros E.
  inv_bind E. inv_bind E. injection E as <-. auto.
Qed.

(** Every write event hands the request to the handler. *)
Lemma server_write_effect io (m : ServerSideMessage.t) r fs :
  ServerSideMessage.request m = Some r -> py_truthy r = true ->
  snd (ServerSideMessage.write io m fs) =
  snd (FileActionHandler.handle_request
         (ServerSideMessage.file_action_handler m) r fs).
Proof.
  intros Hr Ht. unfold ServerSideMessage.write, ServerSideMessage.request_truthy.
  rewrite Hr, Ht.
  destruct (FileActionHandler.handle_request _ r fs) as [[content|e] fs'];
    [|reflexivity].
  destruct (ServerSideMessage.response_created m); [reflexivity|].
  destruct (ServerSideMessage.create_response content m); reflexivity.
Qed.

(** X19. The responder handles the request at every write event, not only
    at the first: when a write event has left the connection open, the
    next one applies the request to the directory again.  The response,
    though, is queued only once: the later event adds nothing to the
    send buffer. *)
Theorem server_write_again
  (m m1 : ServerSideMessage.t) (r : pyval) (io1 io2 : socket_io)
  (fs fs1 : fs_dir) :
  ServerSideMessage.request m = Some r ->
  py_truthy r = true ->
  ServerSideMessage.write io1 m fs = (Ok m1, fs1) ->
  fs1 = snd (FileActionHandler.handle_request
               (ServerSideMessage.file_action_handler m) r fs) /\
  snd (ServerSideMessage.write io2 m1 fs1) =
    snd (FileActionHandler.handle_request
           (ServerSideMessage.file_action_handler m) r fs1) /\
  forall m2 fs2,
    ServerSideMessage.write io2 m1 fs1 = (Ok m2, fs2) ->
    AbstractMessage.send_buffer (ServerSideMessage.base m2) =
    match sent io2 with
    | Some n => skipn n (AbstractMessage.send_buffer (ServerSideMessage.base m1))
    | None => AbstractMessage.send_buffer (ServerSideMessage.base m1)
    end.
Proof.
  intros Hr Ht Hw.
  assert (Hfs : fs1 = snd (FileActionHandler.handle_request
                             (ServerSideMessage.file_action_handler m) r fs)).
  { rewrite <- (server_write_effect io1 m r fs Hr Ht), Hw. reflexivity. }
  assert (Hm1 : ServerSideMessage.request m1 = Some r /\
                ServerSideMessage.response_created m1 = true /\
                ServerSideMessage.file_action_handler m1 =
                ServerSideMessage.file_action_handler m).
  { unfold ServerSideMessage.write, ServerSideMessage.request_truthy in Hw.
    rewrite Hr, Ht in Hw.
    destruct (FileActionHandler.handle_request _ r fs) as [[content|e] fs'];
      [|discriminate].
    destruct (ServerSideMessage.response_created m) eqn:Ec.
    - injection Hw as <- _.
      destruct (server_write_keeps io1 m) as [E1 [E2 [E3 _]]].
      rewrite E1, E2, E3. auto.
    - destruct (ServerSideMessage.create_response content m) as [m'|e] eqn:Em;
        [|discriminate].
      injection Hw as <- _.
      destruct (create_response_keeps _ _ _ Em) as [F1 [F2 F3]].
      destruct (server_write_keeps io1 m') as [E1 [E2 [E3 _]]].
      rewrite E1, E2, E3, F1, F2, F3. auto. }
  destruct Hm1 as [Hr1 [Hc1 Hh1]].
  split; [exact Hfs|]. split.
  - rewrite <- Hh1. apply server_write_effect; assumption.
  - intros m2 fs2 Hw2.
    unfold ServerSideMessage.write, ServerSideMessage.request_truthy in Hw2.
    rewrite Hr1, Ht, Hc1 in Hw2.
    destruct (FileActionHandler.handle_request _ r fs1) as [[content|e] fs'];
      [|discriminate].
    injection Hw2 as <- _.
    apply server_write_keeps.
Qed.

End ServerWrite.

Lemma server_write_again_witness :
  exists m1 fs1,
    @ServerSideMessage.write reference_lib (sending 1)
      (serving new_file_example) update_example_fs = (Ok m1, fs1) /\
    fs1 = snd (@FileActionHandler.handle_request reference_lib example_handler
                 new_file_example update_example_fs) /\
    snd (@ServerSideMessage.write reference_lib (sending 1) m1 fs1) =
      snd (@FileActionHandler.handle_request reference_lib example_handler
             new_file_example fs1) /\
    forall m2 fs2,
      @ServerSideMessage.write reference_lib (sending 1) m1 fs1 = (Ok m2, fs2) ->
      AbstractMessage.send_buffer (ServerSideMessage.base m2) =
      skipn 1 (AbstractMessage.send_buffer (ServerSideMessage.base m1)).
Proof.
  eexists _, _. split.
  - vm_compute. reflexivity.
  - apply (@server_write_again reference_lib (serving new_file_example) _
             new_file_example (sending 1) (sending 1) update_example_fs).
    + reflexivity.
    + reflexivity.
    + vm_compute. reflexivity.
Defined.

(** ** Write events on the requester's side *)

Ltac client_simpl :=
  cbn [ClientSideMessage.base ClientSideMessage.request
       ClientSideMessage.request_queued ClientSideMessage.response
       ClientSideMessage.set_base ClientSideMessage.set_request_queued
       ClientSideMessage.set_response ClientSideMessage.close
       ClientSideMessage.init AbstractMessage.init].

Section ClientWrite.
Context `{PyLib}.

Lemma create_message_nonempty content_bytes content_encoding message :
  create_message content_bytes content_encoding = Ok message -> message <> [].
Proof.
  unfold create_message. intros E. inv_bind E. inv_bind E.
  injection E as <-. unfold struct_pack_H in E1.
  destruct ((0 <=? len x) && (len x <=? 65535)); [|discriminate].
  injection E1 as <-. discriminate.
Qed.

Lemma client_first_write
  (request content : pyval) (encoding : string)
  (content_bytes message : bytes) (n : nat) :
  py_index request "content" = Ok content ->
  py_index request "encoding" = Ok (PStr encoding) ->
  encode_json content encoding = Ok content_bytes ->
  create_message content_bytes encoding = Ok message ->
  ClientSideMessage.write (sending n) (ClientSideMessage.init request) =
  Ok (client_sending request (skipn n message)).
Proof.
  intros Hc He Hj Hm.
  pose proof (create_message_nonempty _ _ _ Hm) as Hne.
  unfold ClientSideMessage.write, ClientSideMessage.queue_request.
  simpl. rewrite Hc, He. simpl. rewrite Hj. simpl. rewrite Hm. simpl.
  unfold ClientSideMessage._write. simpl.
  destruct message as [|x message]; [congruence|].
  unfold client_sending.
  destruct (skipn n (x :: message)); reflexivity.
Qed.

Lemma client_later_write (request : pyval) (rest : bytes) (n : nat) :
  ClientSideMessage.write (sending n) (client_sending request rest) =
  Ok (client_sending request (skipn n rest)).
Proof.
  unfold ClientSideMessage.write, ClientSideMessage._write, client_sending.
  simpl. destruct rest as [|x rest].
  - rewrite skipn_nil. reflexivity.
  - simpl. destruct (skipn n (x :: rest)); reflexivity.
Qed.

(** X20. The requester queues its message once, at the first write event;
    what successive write events hand to the socket are consecutive
    pieces of that one message, and the connection is switched to
    reading only once nothing is left to send. *)
Theorem client_write_in_pieces
  (request content : pyval) (encoding : string)
  (content_bytes message : bytes) (n1 n2 : nat) :
  py_index request "content" = Ok content ->
  py_index request "encoding" = Ok (PStr encoding) ->
  encode_json content encoding = Ok content_bytes ->
  create_message content_bytes encoding = Ok message ->
  (m1 <- ClientSideMessage.write (sending n1) (ClientSideMessage.init request) ;;
   ClientSideMessage.write (sending n2) m1) =
  Ok (client_sending request (skipn (n1 + n2) message)).
Proof.
  intros Hc He Hj Hm.
  rewrite (client_first_write request content encoding content_bytes message)
    by assumption.
  cbn [bind]. rewrite client_later_write, skipn_skipn.
  do 3 f_equal. apply Nat.add_comm.
Qed.

End ClientWrite.

Lemma client_write_in_pieces_witness :
  exists message,
    @create_message reference_lib example_payload "utf-8" = Ok message /\
    (m1 <- @ClientSideMessage.write reference_lib (sending 10)
             (ClientSideMessage.init RequestDispatcher.enumerate_remote_directory) ;;
     @ClientSideMessage.write reference_lib (sending 500) m1) =
    Ok (client_sending RequestDispatcher.enumerate_remote_directory
          (skipn (10 + 500) message)).
Proof.
  eexists. split.
  - vm_compute. reflexivity.
  - apply (@client_write_in_pieces reference_lib
             RequestDispatcher.enumerate_remote_directory
             (request_content RequestDispatcher.enumerate_remote_directory)
             "utf-8" example_payload).
    + reflexivity.
    + reflexivity.
    + vm_compute. reflexivity.
    + vm_compute. reflexivity.
Defined.

(** ** A whole frame on either side *)

Section WholeFrame.
Context `{PyLib}.
Variables (content_bytes : bytes) (content_encoding : string)
          (header_bytes frame : bytes) (content : pyval).
Hypothesis header_encoded :
  encode_json (header_of content_bytes content_encoding) "utf-8" = Ok header_bytes.
Hypothesis header_decoded :
  decode_json header_bytes "utf-8" = Ok (header_of content_bytes content_encoding).
Hypothesis header_fits : len header_bytes <= 65535.
Hypothesis framed : create_message content_bytes content_encoding = Ok frame.
Hypothesis one_recv : len frame <= 4096.
Hypothesis content_decoded : decode_json content_bytes content_encoding = Ok content.

Lemma frame_read (m : AbstractMessage.t) :
  AbstractMessage.receive_buffer m = [] ->
  AbstractMessage.header_length m = None ->
  AbstractMessage.header m = None ->
  exists parsed,
    AbstractMessage.read (received frame) m = Ok parsed /\
    parsed = AbstractMessage.set_receive_buffer content_bytes
               (AbstractMessage.set_header
                  (Some (header_of content_bytes content_encoding))
                  (AbstractMessage.set_header_length (Some (len header_bytes)) m)) /\
    AbstractMessage.take_content parsed =
    Ok (Some (content, AbstractMessage.set_receive_buffer [] parsed)).
Proof.
  intros Hb Hl Hh. destruct m as [buf sbuf hl hdr reg cl].
  simpl in Hb, Hl, Hh. subst buf hl hdr.
  destruct (struct_unpack_pack (len header_bytes)) as [hi [lo [Hpack Hunpack]]].
  { pose proof (len_nonneg header_bytes). lia. }
  assert (Hframe : frame = [hi; lo] ++ header_bytes ++ content_bytes).
  { unfold create_message in framed. rewrite header_encoded in framed.
    cbn [bind] in framed. rewrite Hpack in framed. cbn [bind] in framed.
    injection framed as <-. reflexivity. }
  eexists. split; [|split; [reflexivity|]].
  - rewrite read_received by (rewrite Hframe; discriminate).
    unfold parse_buffered. msg_simpl. cbn [app].
    erewrite process_preheader_frame;
      [|msg_simpl; rewrite Hframe; reflexivity|exact Hunpack].
    msg_simpl.
    erewrite process_header_frame;
      [reflexivity|reflexivity|reflexivity|exact header_decoded|
       apply check_required_header_of].
  - erewrite take_content_frame;
      [|reflexivity|reflexivity|reflexivity|msg_simpl; symmetry; apply app_nil_r].
    rewrite content_decoded. reflexivity.
Qed.

(** X21. When the frame of a request arrives in one [recv] of at most 4096
    bytes, the responder
    ends up holding the decoded request, with an empty buffer and the
    connection switched to writing; the write event that follows hands
    the request to the handler, leaves the directory as the handler left
    it, and queues the frame of [{"response": result}]. *)
Theorem server_serves_frame
  (h : FileActionHandler.t) (fs fs' : fs_dir) (result : pyval)
  (response_frame : bytes) :
  py_truthy content = true ->
  FileActionHandler.handle_request h content fs = (Ok result, fs') ->
  served_response h content fs = Ok response_frame ->
  ServerSideMessage.process_events EVENT_READ (received frame)
    (ServerSideMessage.init h) fs =
  (Ok (request_received h content_bytes content_encoding header_bytes content),
   fs) /\
  ServerSideMessage.process_events EVENT_WRITE quiet
    (request_received h content_bytes content_encoding header_bytes content) fs =
  (Ok (ServerSideMessage.set_response_created true
         (ServerSideMessage.set_base
            (AbstractMessage.set_send_buffer response_frame
               (ServerSideMessage.base
                  (request_received h content_bytes content_encoding
                     header_bytes content)))
            (request_received h content_bytes content_encoding
               header_bytes content))),
   fs').
Proof.
  intros Ht Hh Hs. split.
  - unfold ServerSideMessage.process_events. cbn [mask_read mask_write].
    unfold ServerSideMessage.read.
    destruct (frame_read (ServerSideMessage.base (ServerSideMessage.init h)))
      as [parsed [Hread [Hparsed Htake]]]; try reflexivity.
    rewrite Hread. cbn [bind]. server_simpl.
    assert (Htruthy : AbstractMessage.header_truthy parsed = true).
    { rewrite Hparsed. reflexivity. }
    rewrite Htruthy. cbn [ServerSideMessage.init ServerSideMessage.request].
    unfold ServerSideMessage.process_request. server_simpl.
    rewrite Htake. cbn [bind]. rewrite Hparsed. reflexivity.
  - unfold ServerSideMessage.process_events. cbn [mask_read mask_write].
    unfold ServerSideMessage.write, ServerSideMessage.request_truthy.
    cbn [request_received ServerSideMessage.request
         ServerSideMessage.file_action_handler
         ServerSideMessage.response_created].
    rewrite Ht, Hh.
    unfold served_response in Hs. rewrite Hh in Hs. cbn [fst bind] in Hs.
    unfold ServerSideMessage.create_response in *.
    destruct (create_response_content result "utf-8") as [response|e];
      [|discriminate].
    cbn [bind] in *.
    destruct (create_message (fst response) (snd response)) as [message|e];
      [|discriminate].
    cbn [bind] in *. injection Hs as <-.
    unfold ServerSideMessage._write. simpl. destruct message; reflexivity.
Qed.

(** X22. When the frame of a response arrives in one [recv] of at most
    4096 bytes after the request has gone out, the requester hands the [response] member of
    the decoded content to its callback, passes on the requests the
    callback dispatched, and closes the connection; when the callback
    raises, so does [read]. *)
Theorem client_receives_frame
  (request response : pyval) (rest : bytes)
  (callback : pyval -> dispatched) :
  py_get content "response" = Ok response ->
  ClientSideMessage.read callback (received frame)
    (client_sending request rest) =
  match snd (callback response) with
  | None =>
      (Ok (response_received request rest content_bytes content_encoding
             header_bytes content),
       fst (callback response))
  | Some e => (Raise e, fst (callback response))
  end.
Proof.
  intros Hresp. unfold ClientSideMessage.read.
  destruct (frame_read (ClientSideMessage.base (client_sending request rest)))
    as [parsed [Hread [Hparsed Htake]]]; try reflexivity.
  rewrite Hread. client_simpl.
  assert (Htruthy : AbstractMessage.header_truthy parsed = true).
  { rewrite Hparsed. reflexivity. }
  rewrite Htruthy. cbn [client_sending ClientSideMessage.response].
  unfold ClientSideMessage.process_response. client_simpl.
  rewrite Htake, Hresp.
  destruct (callback response) as [requests [e|]]; [reflexivity|].
  cbn [snd fst]. rewrite Hparsed. reflexivity.
Qed.

End WholeFrame.

Lemma server_serves_frame_witness :
  exists frame result response_frame,
    @create_message reference_lib example_payload "utf-8" = Ok frame /\
    @served_response reference_lib example_handler
      (request_content RequestDispatcher.enumerate_remote_directory)
      update_example_fs = Ok response_frame /\
    @FileActionHandler.handle_request reference_lib example_handler
      (request_content RequestDispatcher.enumerate_remote_directory)
      update_example_fs = (Ok result, update_example_fs) /\
    (@ServerSideMessage.process_events reference_lib EVENT_READ (received frame)
       (ServerSideMessage.init example_handler) update_example_fs =
     (Ok (@request_received reference_lib example_handler example_payload "utf-8"
            example_header_bytes
            (request_content RequestDispatcher.enumerate_remote_directory)),
      update_example_fs) /\
     @ServerSideMessage.process_events reference_lib EVENT_WRITE quiet
       (@request_received reference_lib example_handler example_payload "utf-8"
          example_header_bytes
          (request_content RequestDispatcher.enumerate_remote_directory))
       update_example_fs =
     (Ok (ServerSideMessage.set_response_created true
            (ServerSideMessage.set_base
               (AbstractMessage.set_send_buffer response_frame
                  (ServerSideMessage.base
                     (@request_received reference_lib example_handler
                        example_payload "utf-8" example_header_bytes
                        (request_content
                           RequestDispatcher.enumerate_remote_directory))))
               (@request_received reference_lib example_handler
                  example_payload "utf-8" example_header_bytes
                  (request_content RequestDispatcher.enumerate_remote_directory)))),
      update_example_fs)).
Proof.
  eexists _, _, _. split; [|split; [|split]].
  - vm_compute. reflexivity.
  - vm_compute. reflexivity.
  - vm_compute. reflexivity.
  - refine (@server_serves_frame reference_lib example_payload "utf-8"
              example_header_bytes _
              (request_content RequestDispatcher.enumerate_remote_directory)
              _ _ _ _ _ _
              example_handler update_example_fs update_example_fs _ _
              _ _ _).
    + reflexivity.
    + reflexivity.
    + vm_compute. discriminate.
    + vm_compute. reflexivity.
    + vm_compute. discriminate.
    + reflexivity.
    + reflexivity.
    + vm_compute. reflexivity.
    + vm_compute. reflexivity.
Defined.

Lemma client_receives_frame_witness :
  exists frame,
    @create_message reference_lib example_response_bytes "utf-8" = Ok frame /\
    @ClientSideMessage.read reference_lib
      (@RequestDispatcher.on_response_callback reference_lib update_example_fs)
      (received frame)
      (client_sending (RequestDispatcher.delete_file_request "f") []) =
    (Ok (@response_received reference_lib
           (RequestDispatcher.delete_file_request "f") []
           example_response_bytes "utf-8" example_response_header
           example_response),
     []).
Proof.
  eexists. split.
  - vm_compute. reflexivity.
  - refine (@client_receives_frame reference_lib example_response_bytes "utf-8"
              example_response_header _ example_response _ _ _ _ _ _
              (RequestDispatcher.delete_file_request "f")
              (status_message Action.DELETED_FILE_ACTION "Successfully deleted f")
              []
              (@RequestDispatcher.on_response_callback reference_lib
                 update_example_fs) _).
    + reflexivity.
    + reflexivity.
    + vm_compute. discriminate.
    + vm_compute. reflexivity.
    + vm_compute. discriminate.
    + reflexivity.
    + reflexivity.
Defined.

(** ** The first synchronisation *)

Section Synch.
Context `{PyLib}.

Lemma entry_of_pyval_to_pyval e : entry_of_pyval (entry_to_pyval e) = Ok e.
Proof. destruct e as [n s h]. reflexivity. Qed.

Lemma listing_round_trip (l : list file_entry) :
  listing_of_pyval (PList (map entry_to_pyval l)) = Ok l.
Proof.
  cbn [listing_of_pyval]. induction l as [|e l IH]; [reflexivity|].
  cbn [map for_each]. rewrite entry_of_pyval_to_pyval. cbn [bind].
  rewrite IH. reflexivity.
Qed.

Lemma nothing_differs (l : list file_entry) :
  RequestDispatcher.diff_on_local l l = [] /\
  RequestDispatcher.diff_on_remote l l = [].
Proof.
  unfold RequestDispatcher.diff_on_local, RequestDispatcher.diff_on_remote.
  split; apply filter_none; intros e He;
    apply negb_false_iff, entry_in_In, He.
Qed.

(** X23. A requester whose directory is the responder's dispatches nothing
    when the listing arrives: the response of [EnumerateDirectory], handed
    to [on_response_callback] over the same directory, causes no update,
    no deletion and no upload, and raises nothing. *)
Theorem synch_of_equal_directories
  (self : FileActionHandler.t) (fs : fs_dir) (response : pyval) :
  fst (FileActionHandler.enumerate_directory self fs) = Ok response ->
  RequestDispatcher.on_response_callback fs response = ([], None).
Proof.
  unfold FileActionHandler.enumerate_directory. run_fs.
  destruct (enumerate_directory fs (Some (FileActionHandler.block_size self)))
    as [files|e] eqn:Ef; [|discriminate].
  cbn [fst]. intros E. injection E as <-.
  unfold RequestDispatcher.on_response_callback.
  cbn [py_get dict_get pykey_eqb String.eqb Ascii.eqb Bool.eqb].
  change (py_eqb (PInt Action.ENUMERATE_REMOTE_DIR_ACTION)
            (PInt Action.FILE_RECIPE_ACTION)) with false.
  change (py_eqb (PInt Action.ENUMERATE_REMOTE_DIR_ACTION)
            (PInt Action.ENUMERATE_REMOTE_DIR_ACTION)) with true.
  cbv iota. cbn [bind py_int]. rewrite listing_round_trip. cbn [bind].
  unfold RequestDispatcher._directory_synch. rewrite Ef.
  unfold RequestDispatcher.on_both_different, RequestDispatcher.on_remote_only,
    RequestDispatcher.on_local_only.
  destruct (nothing_differs files) as [-> ->]. reflexivity.
Qed.

(** X24. Against an empty local directory the reconciler asks the
    responder to delete every file it listed, in the order of the
    listing, and nothing else. *)
Theorem synch_of_empty_directory
  (remote_file_info : list file_entry) (block_size : option Z) :
  RequestDispatcher._directory_synch [] remote_file_info block_size =
  (map (fun i => RequestDispatcher.delete_file_request (filename i))
       remote_file_info, None).
Proof.
  unfold RequestDispatcher._directory_synch.
  change (enumerate_directory [] block_size) with (Ok (@nil file_entry)).
  unfold RequestDispatcher.on_both_different, RequestDispatcher.on_remote_only,
    RequestDispatcher.on_local_only, RequestDispatcher.diff_local_file_name,
    RequestDispatcher.diff_on_local, RequestDispatcher.diff_on_remote.
  cbn [filter map RequestDispatcher.upload_all dispatch_seq snd fst app].
  rewrite !filter_all by reflexivity.
  rewrite app_nil_r. reflexivity.
Qed.

End Synch.

Lemma synch_of_equal_directories_witness :
  exists response,
    fst (@FileActionHandler.enumerate_directory reference_lib example_handler
           nested_example_fs) = Ok response /\
    @RequestDispatcher.on_response_callback reference_lib nested_example_fs
      response = ([], None).
Proof.
  eexists. split.
  - vm_compute. reflexivity.
  - apply (@synch_of_equal_directories reference_lib example_handler
             nested_example_fs).
    vm_compute. reflexivity.
Defined.

(** ** Uploading a flat directory *)

Lemma fs_lookup_In name x (fs : fs_dir) :
  NoDup (map fst fs) -> In (name, x) fs -> fs_lookup name fs = Some x.
Proof.
  unfold fs_lookup.
  induction fs as [|[n0 x0] fs IH]; simpl; intros Hn Hi; [contradiction|].
  inversion Hn as [|? ? Hk Hm]; subst.
  destruct Hi as [Hi|Hi].
  - injection Hi as -> ->. rewrite String.eqb_refl. reflexivity.
  - destruct (String.eqb_spec name n0) as [->|Hne].
    + exfalso. apply Hk. change (In (fst (n0, x)) (map fst fs)).
      apply in_map, Hi.
    + apply IH; assumption.
Qed.

Lemma glob_flat (fs : fs_dir) :
  flat fs = true ->
  filter path_is_file (glob_star_star fs) =
  map (fun e => ([fst e], snd e)) fs.
Proof.
  intros Hf. unfold glob_star_star. cbn [glob_below app].
  assert (Hsub :
    (fix subdirs (es : list (string * node)) : list (list string * node) :=
       match es with
       | [] => []
       | (name, child) :: es' => glob_below [name] child ++ subdirs es'
       end) fs = []).
  { induction fs as [|[n x] fs IH]; [reflexivity|].
    cbn [flat forallb snd] in Hf. apply andb_prop in Hf. destruct Hf as [Hx Hf].
    destruct x as [c|es]; [|discriminate]. cbn [glob_below app].
    apply IH, Hf. }
  rewrite Hsub, app_nil_r. apply filter_all.
  intros p Hp. apply in_map_iff in Hp. destruct Hp as [e [<- He]].
  unfold path_is_file. cbn [snd]. unfold flat in Hf.
  rewrite forallb_forall in Hf. apply Hf, He.
Qed.

Section Upload.
Context `{PyLib}.

(** The row of the listing for an entry of a flat directory. *)
Lemma enumerate_flat (fs : fs_dir) (size : option Z) :
  flat fs = true -> read_size_valid size = true ->
  enumerate_directory fs size =
  Ok (map (fun e =>
             {| filename := fst e;
                file_size := Z.of_nat (length (file_content (snd e)));
                sha256 := sha256_hexdigest
                            (concat (read_blocks size (file_content (snd e)))) |})
          fs).
Proof.
  intros Hf Hv. unfold enumerate_directory.
  rewrite (glob_flat fs Hf).
  rewrite filter_all.
  2:{ intros p Hp. apply in_map_iff in Hp. destruct Hp as [e [<- He]].
      unfold path_is_file. cbn [snd]. unfold flat in Hf.
      rewrite forallb_forall in Hf. apply Hf, He. }
  clear Hf. induction fs as [|e fs IH]; [reflexivity|].
  cbn [map for_each fst snd]. unfold hash_file at 1, iter_read. rewrite Hv.
  cbn [bind]. rewrite IH. reflexivity.
Qed.

Lemma upload_all_entries (fs l : fs_dir) (g : string * node -> file_entry) :
  NoDup (map fst fs) -> flat fs = true ->
  (forall e, filename (g e) = fst e) ->
  (forall e, In e l -> In e fs) ->
  RequestDispatcher.upload_all fs (map g l) = (map upload_request l, None).
Proof.
  intros Hn Hf Hg. induction l as [|[name x] l IH]; intros Hl; [reflexivity|].
  cbn [map RequestDispatcher.upload_all]. rewrite Hg. cbn [fst].
  assert (Hin : In (name, x) fs) by (apply Hl; left; reflexivity).
  pose proof (fs_lookup_In name x fs Hn Hin) as Hlook.
  unfold RequestDispatcher.create_new_file_request.
  rewrite fs_exists_lookup, Hlook. cbn [negb].
  unfold fs_open_read. rewrite Hlook.
  assert (Hx : is_file x = true).
  { unfold flat in Hf. rewrite forallb_forall in Hf. apply (Hf (name, x) Hin). }
  destruct x as [c|es]; [|discriminate].
  rewrite IH by (intros e He; apply Hl; right; exact He). reflexivity.
Qed.

(** X25. When the responder lists nothing, the reconciler of a directory
    without subdirectories uploads every file of it, in directory order,
    each with its name and the Base64 text of its content, and asks for
    nothing else. *)
Theorem synch_with_empty_listing (fs : fs_dir) (block_size : option Z) :
  flat fs = true ->
  NoDup (map fst fs) ->
  read_size_valid block_size = true ->
  RequestDispatcher._directory_synch fs [] block_size =
  (map upload_request fs, None).
Proof.
  intros Hf Hn Hv. unfold RequestDispatcher._directory_synch.
  rewrite (enumerate_flat fs block_size Hf Hv).
  unfold RequestDispatcher.on_both_different, RequestDispatcher.on_remote_only,
    RequestDispatcher.on_local_only, RequestDispatcher.diff_remote_file_names,
    RequestDispatcher.diff_on_remote, RequestDispatcher.diff_on_local.
  cbn [filter map app].
  rewrite (filter_none (fun file : file_entry =>
                          RequestDispatcher.name_in (filename file) []))
    by reflexivity.
  rewrite !filter_all by reflexivity.
  unfold dispatch_seq. cbn [snd fst app map].
  rewrite upload_all_entries; auto.
Qed.

End Upload.

Lemma synch_with_empty_listing_witness :
  @RequestDispatcher._directory_synch reference_lib update_example_fs []
    (Some 4) =
  ([@upload_request reference_lib ("f", File (b "aabbcc"))], None).
Proof.
  apply (@synch_with_empty_listing reference_lib update_example_fs (Some 4)).
  - reflexivity.
  - repeat constructor. simpl. tauto.
  - reflexivity.
Defined.

(** ** Requests and their responses *)

Section Exchange.
Context `{PyLib}.
Variable self : FileActionHandler.t.

(** X26. An upload arrives intact: the [NewFile] request the requester
    builds for one of its files, handled by a responder that has no file
    of that name, creates the file there with the same content, provided
    the content survives Base64. *)
Theorem upload_arrives
  (client_fs server_fs : fs_dir) (name : string) (content : bytes) :
  fs_lookup name client_fs = Some (File content) ->
  fs_exists name server_fs = false ->
  b64decode (b64encode content) = Ok content ->
  exists request,
    RequestDispatcher.create_new_file_request client_fs name = Ok request /\
    FileActionHandler.handle_request self (request_content request) server_fs =
    (Ok (PDict [(KStr "response",
                 status_message Action.NEW_FILE_ACTION
                   ("Successfully uploaded " ++ name)%string)]),
     server_fs ++ [(name, File content)]).
Proof.
  intros Hc Hs Hb. eexists. split.
  - unfold RequestDispatcher.create_new_file_request.
    rewrite fs_exists_lookup, Hc. cbn [negb]. unfold fs_open_read. rewrite Hc.
    reflexivity.
  - unfold request_content, create_request.
    cbn [py_index dict_get pykey_eqb String.eqb Ascii.eqb Bool.eqb].
    unfold FileActionHandler.handle_request. run_fs.
    cbn [py_get dict_get pykey_eqb String.eqb Ascii.eqb Bool.eqb bind py_int].
    change (Action.ENUMERATE_REMOTE_DIR_ACTION =? Action.NEW_FILE_ACTION)
      with false.
    change (Action.NEW_FILE_ACTION =? Action.NEW_FILE_ACTION) with true.
    cbv iota. cbn [py_b64decode]. rewrite Hb.
    rewrite create_new_file_run, (fs_exists_false _ _ Hs). reflexivity.
Qed.

Ltac split_match H :=
  repeat match type of H with
         | context [match ?x with _ => _ end] =>
             destruct x eqn:?; try discriminate H
         end.

Lemma create_new_file_answer filename file_data fs v fs' :
  FileActionHandler.create_new_file self filename file_data fs = (Ok v, fs') ->
  exists msg, v = status_message Action.NEW_FILE_ACTION msg.
Proof.
  unfold FileActionHandler.create_new_file. run_fs. intros E.
  split_match E; injection E as <- _; eauto.
Qed.

Lemma delete_file_answer filename fs v fs' :
  FileActionHandler.delete_file self filename fs = (Ok v, fs') ->
  exists msg, v = status_message Action.DELETED_FILE_ACTION msg.
Proof.
  unfold FileActionHandler.delete_file. run_fs. intros E.
  split_match E; injection E as <- _; eauto.
Qed.

Lemma update_file_answer recipe fs v fs' :
  FileActionHandler.update_file self recipe fs = (Ok v, fs') ->
  exists msg, v = status_message Action.UPDATED_FILE_ACTION msg.
Proof.
  unfold FileActionHandler.update_file. run_fs. intros E.
  split_match E; injection E as <- _; eauto.
Qed.

Lemma then_ret_Ok {A B} (m : fs_action A) (g : A -> B) fs c fs' :
  fs_bind m (fun a => fs_ret (g a)) fs = (Ok c, fs') ->
  exists v, m fs = (Ok v, fs') /\ c = g v.
Proof.
  run_fs. destruct (m fs) as [[v|e] fs1]; [|discriminate].
  intros E. injection E as <- <-. eauto.
Qed.

(** X27. The exchange ends with the response to a [NewFile], [DeleteFile]
    or [UpdateFile] request: whatever the handler answers is a status
    message carrying the request's action code, and the requester's
    callback dispatches nothing for it and raises nothing. *)
Theorem status_response_ends_exchange
  (request : pyval) (action : Z) (fs fs' client_fs : fs_dir) (content : pyval) :
  action_of request = Ok action ->
  action = Action.NEW_FILE_ACTION \/ action = Action.DELETED_FILE_ACTION \/
  action = Action.UPDATED_FILE_ACTION ->
  FileActionHandler.handle_request self request fs = (Ok content, fs') ->
  exists msg,
    content = PDict [(KStr "response", status_message action msg)] /\
    RequestDispatcher.on_response_callback client_fs
      (status_message action msg) = ([], None).
Proof.
  unfold action_of. intros Ha Hact Hh.
  unfold FileActionHandler.handle_request in Hh.
  unfold fs_bind at 1 in Hh. unfold fs_lift at 1 in Hh. rewrite Ha in Hh.
  apply (then_ret_Ok _ (fun result => PDict [(KStr "response", result)]))
    in Hh.
  destruct Hh as [v [Eb ->]].
  assert (Hv : exists msg, v = status_message action msg).
  { destruct Hact as [-> | [-> | ->]]; simpl in Eb; revert Eb; run_fs; intros Eb.
    - split_match Eb; eapply create_new_file_answer; eassumption.
    - split_match Eb; eapply delete_file_answer; eassumption.
    - split_match Eb; eapply update_file_answer; eassumption. }
  destruct Hv as [msg ->]. exists msg. split; [reflexivity|].
  unfold RequestDispatcher.on_response_callback, status_message.
  cbn [py_get dict_get pykey_eqb String.eqb Ascii.eqb Bool.eqb].
  destruct Hact as [-> | [-> | ->]]; reflexivity.
Qed.

End Exchange.

Lemma upload_arrives_witness :
  exists request,
    @RequestDispatcher.create_new_file_request reference_lib
      update_example_fs "f" = Ok request /\
    @FileActionHandler.handle_request reference_lib example_handler
      (request_content request) [] =
    (Ok (PDict [(KStr "response",
                 status_message Action.NEW_FILE_ACTION
                   "Successfully uploaded f")]),
     [("f", File (b "aabbcc"))]).
Proof.
  apply (@upload_arrives reference_lib example_handler update_example_fs []
           "f" (b "aabbcc")).
  - reflexivity.
  - reflexivity.
  - vm_compute. reflexivity.
Defined.

Lemma status_response_ends_exchange_witness :
  exists msg,
    PDict [(KStr "response",
            status_message Action.NEW_FILE_ACTION
              "Successfully uploaded new.txt")] =
    PDict [(KStr "response", status_message Action.NEW_FILE_ACTION msg)] /\
    @RequestDispatcher.on_response_callback reference_lib update_example_fs
      (status_message Action.NEW_FILE_ACTION msg) = ([], None).
Proof.
  apply (@status_response_ends_exchange reference_lib example_handler
           new_file_example Action.NEW_FILE_ACTION update_example_fs
           [("f", File (b "aabbcc")); ("new.txt", File [])] update_example_fs).
  - reflexivity.
  - left. reflexivity.
  - vm_compute. reflexivity.
Defined.

(** ** Listing a flat directory *)

(** X28. For a directory without subdirectories, [enumerate_directory]
    lists every file once, in directory order, with its name, the length
    of its content and the SHA-256 digest of its whole content, whatever
    valid block size other than 0 it is given. *)
Theorem enumerate_directory_flat `{PyLib} (fs : fs_dir) (block_size : option Z) :
  flat fs = true ->
  read_size_valid block_size = true ->
  block_size <> Some 0 ->
  enumerate_directory fs block_size =
  Ok (map (fun e =>
             {| filename := fst e;
                file_size := len (file_content (snd e));
                sha256 := sha256_hexdigest (file_content (snd e)) |})
          fs).
Proof.
  intros Hf Hv Hz. rewrite (enumerate_flat fs block_size Hf Hv).
  f_equal. apply map_ext. intros e.
  rewrite read_blocks_to_end by assumption. reflexivity.
Qed.

Lemma enumerate_directory_flat_witness :
  @enumerate_directory reference_lib update_example_fs (Some 4) =
  Ok [{| filename := "f";
         file_size := 6;
         sha256 := @sha256_hexdigest reference_lib (b "aabbcc") |}].
Proof.
  apply (@enumerate_directory_flat reference_lib update_example_fs (Some 4)).
  - reflexivity.
  - reflexivity.
  - discriminate.
Defined.
